(** * HPV screening dashboard: metrics aggregation and cohort summary

    A shallow embedding of [src/main.py].  The embedded functions are
    [load_strategy_data], [calculate_metrics], [load_all_strategies],
    [create_strategy_overview_table], the traces and lines of
    [create_question_1_analysis], the order, bars and colours of
    [create_main_analysis_charts], the three tables of
    [create_trend_analysis], and of [main] the head up to the no-data gate,
    the detailed comparison table and the best performers.

    Modelling decisions:
    - the numbers are modelled twice.  Where the program only passes them on
      or compares them (which exception, which rows, which order, which
      chart item) a numeric cell is an exact rational ([Qc]).  What depends
      on the arithmetic itself is stated over [Machine.calculate_metrics],
      the same function over the numbers that pandas computes with: int64
      with wrap-around and IEEE 754 binary64 with rounding;
    - a frame is a header plus a list of records, since [pd.read_csv]
      builds it from a row-oriented file;
    - Python exceptions are the [Raise] outcome of [result]; the calls
      to [st.warning] and [st.error] are logged as [st_event]s by the
      [ui] monad;
    - [@st.cache_data] memoises the three loaders; a single first run over
      a fixed directory is modelled, on which the cache is transparent. *)

From Stdlib Require Import Ascii String QArith Qcanon SpecFloat.
From stdpp Require Import base decidable numbers strings list gmap pretty sorting.

Open Scope string_scope.
Set Warnings "-clear-no-such-hyp".

(** ** Exceptions and the two effect layers *)

Inductive exn :=
| FileNotFoundError (filename : string)
| ParserError (filename : string)
| KeyError (key : string).

Inductive result (A : Type) :=
| Ok (a : A)
| Raise (e : exn).
Arguments Ok {A} a.
Arguments Raise {A} e.

Global Instance result_ret : MRet result := λ A a, Ok a.

Global Instance result_bind : MBind result := λ A B k r,
  match r with
  | Ok a => k a
  | Raise e => Raise e
  end.

(** What [main] and the loaders write to the page.  The static text of
    [st.title] and of the introduction is left out. *)
Inductive st_event :=
| StTitle
| StMarkdown
| StWarning (msg : string)
| StError (msg : string).

(** A computation that writes to the page: the events it emitted, in order,
    and how it ended. *)
Definition ui (A : Type) : Type := (list st_event * result A)%type.

Global Instance ui_ret : MRet ui := λ A a, ([], Ok a).

Global Instance ui_bind : MBind ui := λ A B k c,
  match c with
  | (log, Ok a) => let '(log', r) := k a in ((log ++ log')%list, r)
  | (log, Raise e) => (log, Raise e)
  end.

Definition ui_raise {A} (e : exn) : ui A := ([], Raise e).

Definition ui_emit (ev : st_event) : ui unit := ([ev], Ok tt).

Definition ui_lift {A} (r : result A) : ui A := ([], r).

(** [for x in xs: acc = body(acc, x)] *)
Fixpoint ui_for {A S} (xs : list A) (body : S → A → ui S) (acc : S) : ui S :=
  match xs with
  | [] => mret acc
  | x :: xs' => body acc x ≫= ui_for xs' body
  end.

(** ** Data frames *)

(** An integer literal of a CSV cell. *)
Definition num (z : Z) : Qc := Q2Qc (inject_Z z).

(** [columns] is the header; each record lists its cells in header order.
    A cell that a record does not have is NaN in pandas. *)
Record DataFrame := {
  columns : list string;
  records : list (list Qc)
}.

(** [c in df.columns] *)
Definition has_column (df : DataFrame) (c : string) : bool :=
  bool_decide (c ∈ columns df).

(** [df[c]]: the cells of column [c], NaN cells left out; [KeyError] when
    the header has no such column. *)
Definition get_column (df : DataFrame) (c : string) : result (list Qc) :=
  match list_find (λ x, x = c) (columns df) with
  | Some (i, _) => Ok (omap (λ r : list Qc, r !! i) (records df))
  | None => Raise (KeyError c)
  end.

(** [Series.sum()], which skips NaN: the exact sum.  The sum that pandas
    computes, with wrap-around or rounding, is [Machine.series_sum]. *)
Definition series_sum (s : list Qc) : Qc := foldr Qcplus 0%Qc s.

(** [df[c].sum()] *)
Definition column_sum (df : DataFrame) (c : string) : result Qc :=
  s ← get_column df c; mret (series_sum s).

(** [df[c].sum() if c in df.columns else 0] *)
Definition column_sum_or_zero (df : DataFrame) (c : string) : result Qc :=
  if has_column df c then column_sum df c else Ok 0%Qc.

(** ** calculate_metrics *)

Record Metrics := {
  total_cancers : Qc;
  total_cancer_deaths : Qc;
  total_life_years : Qc;
  total_tests : Qc;
  total_cyto : Qc;
  total_hpv : Qc;
  total_cotest : Qc;
  total_cin2_detected : Qc;
  total_cin3_detected : Qc;
  case_fatality_rate : Qc;
  cancer_rate_per_100k : Qc;
  death_rate_per_100k : Qc
}.

(** The second half of [calculate_metrics]: the three rates, as exact
    quotients; [Machine.with_rates] has the binary64 quotients. *)
Definition with_rates (tc td tl tt cy hp co c2 c3 : Qc) : Metrics :=
  let cfr :=
    if decide (0 < tc)%Qc then (td / tc * num 100)%Qc else 0%Qc in
  let '(cr, dr) :=
    if decide (0 < tl)%Qc
    then ((tc / tl * num 100000)%Qc, (td / tl * num 100000)%Qc)
    else (0%Qc, 0%Qc) in
  {| total_cancers := tc; total_cancer_deaths := td; total_life_years := tl;
     total_tests := tt; total_cyto := cy; total_hpv := hp; total_cotest := co;
     total_cin2_detected := c2; total_cin3_detected := c3;
     case_fatality_rate := cfr;
     cancer_rate_per_100k := cr; death_rate_per_100k := dr |}.

Definition calculate_metrics (df : option DataFrame) : result (option Metrics) :=
  match df with
  | None => Ok None
  | Some df =>
      tc ← column_sum df "Cancer";
      td ← column_sum df "Cancer death";
      tl ← column_sum df "Population";
      tt ← column_sum_or_zero df "Total test";
      cy ← column_sum_or_zero df "Cyto";
      hp ← column_sum_or_zero df "HPV";
      co ← column_sum_or_zero df "Cotest";
      c2 ← column_sum_or_zero df "CIN2 detected";
      c3 ← column_sum_or_zero df "CIN3 detected";
      mret (Some (with_rates tc td tl tt cy hp co c2 c3))
  end.


(** ** STRATEGY_DEFINITIONS *)

Record strategy_info := {
  display : string;
  name : string;
  test : string;
  start_age : nat;
  end_age : nat;
  switch_age : option nat;
  exit_tests : nat;
  interval : string
}.

Definition STRATEGY_DEFINITIONS : gmap nat strategy_info :=
  list_to_map [
    (1, {| display := "1"; name := "CYTO-3Y, 21-65"; test := "Cyto only"; start_age := 21; end_age := 65; switch_age := None; exit_tests := 3; interval := "3Y" |});
    (2, {| display := "2"; name := "CYTO-3Y, 21/HPV-5Y, 30-65"; test := "Cyto→HPV"; start_age := 21; end_age := 65; switch_age := Some 30; exit_tests := 2; interval := "3Y→5Y" |});
    (3, {| display := "3"; name := "CYTO-3Y, 21/COTEST-5Y, 30-65"; test := "Cyto→Cotest"; start_age := 21; end_age := 65; switch_age := Some 30; exit_tests := 2; interval := "3Y→5Y" |});
    (4, {| display := "4"; name := "CYTO-3Y, 21-70"; test := "Cyto only"; start_age := 21; end_age := 70; switch_age := None; exit_tests := 3; interval := "3Y" |});
    (5, {| display := "5"; name := "CYTO-3Y, 21/HPV-5Y, 30-70"; test := "Cyto→HPV"; start_age := 21; end_age := 70; switch_age := Some 30; exit_tests := 2; interval := "3Y→5Y" |});
    (6, {| display := "6"; name := "CYTO-3Y, 21/COTEST-5Y, 30-70"; test := "Cyto→Cotest"; start_age := 21; end_age := 70; switch_age := Some 30; exit_tests := 2; interval := "3Y→5Y" |});
    (7, {| display := "7"; name := "CYTO-3Y, 21-75"; test := "Cyto only"; start_age := 21; end_age := 75; switch_age := None; exit_tests := 3; interval := "3Y" |});
    (8, {| display := "8"; name := "CYTO-3Y, 21/HPV-5Y, 30-75"; test := "Cyto→HPV"; start_age := 21; end_age := 75; switch_age := Some 30; exit_tests := 2; interval := "3Y→5Y" |});
    (9, {| display := "9"; name := "CYTO-3Y, 21/COTEST-5Y, 30-75"; test := "Cyto→Cotest"; start_age := 21; end_age := 75; switch_age := Some 30; exit_tests := 2; interval := "3Y→5Y" |});
    (10, {| display := "10"; name := "CYTO-3Y, 21/HPV-5Y, 30-65 (1 exit)"; test := "Cyto→HPV"; start_age := 21; end_age := 65; switch_age := Some 30; exit_tests := 1; interval := "3Y→5Y" |});
    (11, {| display := "11"; name := "CYTO-3Y, 21/COTEST-5Y, 30-65 (1 exit)"; test := "Cyto→Cotest"; start_age := 21; end_age := 65; switch_age := Some 30; exit_tests := 1; interval := "3Y→5Y" |});
    (12, {| display := "12"; name := "CYTO-3Y, 21/HPV-5Y, 30-70 (1 exit)"; test := "Cyto→HPV"; start_age := 21; end_age := 70; switch_age := Some 30; exit_tests := 1; interval := "3Y→5Y" |});
    (13, {| display := "13"; name := "CYTO-3Y, 21/COTEST-5Y, 30-70 (1 exit)"; test := "Cyto→Cotest"; start_age := 21; end_age := 70; switch_age := Some 30; exit_tests := 1; interval := "3Y→5Y" |});
    (14, {| display := "14"; name := "CYTO-3Y, 21/HPV-5Y, 30-75 (1 exit)"; test := "Cyto→HPV"; start_age := 21; end_age := 75; switch_age := Some 30; exit_tests := 1; interval := "3Y→5Y" |});
    (15, {| display := "15"; name := "CYTO-3Y, 21/COTEST-5Y, 30-75 (1 exit)"; test := "Cyto→Cotest"; start_age := 21; end_age := 75; switch_age := Some 30; exit_tests := 1; interval := "3Y→5Y" |})
  ].

(** [d[k]] on a dict with integer keys. *)
Definition dict_get {V} (d : gmap nat V) (k : nat) : result V :=
  match d !! k with
  | Some v => Ok v
  | None => Raise (KeyError (pretty k))
  end.

(** ** load_strategy_data *)

(** What the working directory holds under a file name: a table that
    [pd.read_csv] parses, or bytes on which it raises. *)
Inductive file :=
| Csv (df : DataFrame)
| Unparsable.

Definition read_csv (fs : gmap string file) (filename : string) : result DataFrame :=
  match fs !! filename with
  | Some (Csv df) => Ok df
  | Some Unparsable => Raise (ParserError filename)
  | None => Raise (FileNotFoundError filename)
  end.

Definition strategy_filename (strategy_num : nat) : string :=
  "cancer_screening_results" +:+ pretty strategy_num +:+ ".csv".

Definition load_strategy_data (fs : gmap string file) (strategy_num : nat)
  : ui (option DataFrame) :=
  let filename := strategy_filename strategy_num in
  match read_csv fs filename with
  | Ok df => mret (Some df)
  | Raise (FileNotFoundError _) =>
      ui_emit (StWarning ("File " +:+ filename +:+ " not found"));;
      mret None
  | Raise e => ui_raise e
  end.

(** ** load_all_strategies *)

(** One dict of [results]; the keys spread from [metrics] are kept as a
    [Metrics] record.  ['Switch Age'] holds an integer or the string ["-"]. *)
Record result_row := {
  Strategy : nat;
  Display : string;
  Name : string;
  Test_Type : string;
  Start_Age : nat;
  End_Age : nat;
  Switch_Age : nat + string;
  Exit_Tests : nat;
  Interval : string;
  row_metrics : Metrics
}.

Definition make_result (strategy_num : nat) (info : strategy_info) (metrics : Metrics)
  : result_row :=
  {| Strategy := strategy_num;
     Display := display info;
     Name := name info;
     Test_Type := test info;
     Start_Age := start_age info;
     End_Age := end_age info;
     Switch_Age :=
       match switch_age info with
       | Some (S n) => inl (S n)
       | Some 0 | None => inr "-"
       end;
     Exit_Tests := exit_tests info;
     Interval := interval info;
     row_metrics := metrics |}.

(** The body of the [for] loop, on the pair [(results, age_distributions)]. *)
Definition load_all_strategies_body (fs : gmap string file)
    (acc : list result_row * gmap nat DataFrame) (strategy_num : nat)
  : ui (list result_row * gmap nat DataFrame) :=
  let '(results, age_distributions) := acc in
  df ← load_strategy_data fs strategy_num;
  match df with
  | None => mret (results, age_distributions)
  | Some df =>
      let age_distributions := <[strategy_num := df]> age_distributions in
      metrics ← ui_lift (calculate_metrics (Some df));
      match metrics with
      | None => mret (results, age_distributions)
      | Some metrics =>
          info ← ui_lift (dict_get STRATEGY_DEFINITIONS strategy_num);
          mret ((results ++ [make_result strategy_num info metrics])%list,
                age_distributions)
      end
  end.

(** Returns the rows handed to [pd.DataFrame] and [age_distributions]. *)
Definition load_all_strategies (fs : gmap string file)
  : ui (list result_row * gmap nat DataFrame) :=
  ui_for (seq 1 15) (load_all_strategies_body fs) ([], ∅).

(** ** The head of main *)

(** [main] either stops at the no-data gate or goes on to the presentation
    code with the summary and the loaded tables. *)
Inductive main_outcome :=
| NoData
| Presentation (df : list result_row) (age_distributions : gmap nat DataFrame).

(** [df.empty] of a frame built from a list of dicts. *)
Definition df_empty (df : list result_row) : bool :=
  match df with
  | [] => true
  | _ :: _ => false
  end.

Definition no_data_message : string :=
  "No data files found. Please ensure cancer_screening_results1.csv through cancer_screening_results15.csv are in the current directory.".

(** Lines 488-502 of [main]: title, introduction, loading, and the gate on
    [df.empty]; the spinner shown while loading is transient and left out. *)
Definition main (fs : gmap string file) : ui main_outcome :=
  ui_emit StTitle;;
  ui_emit StMarkdown;;
  '(df, age_distributions) ← load_all_strategies fs;
  if df_empty df
  then ui_emit (StError no_data_message);; mret NoData
  else mret (Presentation df age_distributions).

(** ** Ordering for display *)

Definition is_decimal (c : ascii) : bool :=
  ((48 <=? nat_of_ascii c) && (nat_of_ascii c <=? 57))%nat.

(** [x.isdigit()] on an ASCII string. *)
Definition isdigit (x : string) : bool :=
  match list_ascii_of_string x with
  | [] => false
  | cs => forallb is_decimal cs
  end.

(** [int(x)], evaluated by the source only where [x.isdigit()] holds. *)
Definition int (x : string) : nat :=
  foldl (λ acc c, 10 * acc + (nat_of_ascii c - 48)) 0 (list_ascii_of_string x).

(** [sort_values] on one integer key, ascending.  The order that pandas gives
    to rows with equal keys depends on its sorting algorithm; here they keep
    their order.  The keys of the rows of a summary are pairwise distinct. *)
Fixpoint insert_sorted {A} (key : A → nat) (x : A) (l : list A) : list A :=
  match l with
  | [] => [x]
  | y :: l' => if (key x <=? key y)%nat then x :: l else y :: insert_sorted key x l'
  end.

Definition sort_values {A} (key : A → nat) (l : list A) : list A :=
  foldr (insert_sorted key) [] l.

(** The frame [display_df] of [create_strategy_overview_table], after the
    renaming of its columns. *)
Record overview_row := {
  ov_Strategy : string;
  ov_Description : string;
  ov_Test_Type : string;
  ov_Start_Age : nat;
  ov_End_Age : nat;
  ov_Switch_Age : nat + string;
  ov_Exit_Tests : nat;
  ov_Interval : string
}.

(** The lambda mapped over [display_df['Strategy']] at lines 140-141. *)
Definition overview_sort_key (x : string) : nat :=
  if isdigit x && (int x <=? 9)%nat then int x
  else if isdigit x then int x + 3
  else 999.

(** Called by [main] behind the no-data gate, on a summary with rows. *)
Definition create_strategy_overview_table (df : list result_row) : list overview_row :=
  let display_df :=
    map (λ r, {| ov_Strategy := Display r; ov_Description := Name r;
                 ov_Test_Type := Test_Type r; ov_Start_Age := Start_Age r;
                 ov_End_Age := End_Age r; ov_Switch_Age := Switch_Age r;
                 ov_Exit_Tests := Exit_Tests r; ov_Interval := Interval r |}) df in
  sort_values (λ r, overview_sort_key (ov_Strategy r)) display_df.

(** [df_sorted = df.sort_values('Strategy')] of [create_main_analysis_charts]:
    the bars are drawn in this order, labelled by ['Display']. *)
Definition main_analysis_sort_key (r : result_row) : nat := Strategy r.

Definition main_analysis_order (df : list result_row) : list result_row :=
  sort_values main_analysis_sort_key df.

(** The frame [display_df] of the detailed comparison table in [main], after
    the renaming of its columns. *)
Record detailed_row := {
  dt_Strategy : string;
  dt_Description : string;
  dt_Test_Type : string;
  dt_End_Age : nat;
  dt_Exit_Tests : nat;
  dt_Total_Cancers : Qc;
  dt_Total_Deaths : Qc;
  dt_Total_Life_Years : Qc;
  dt_Case_Fatality : Qc;
  dt_Cancer_Rate : Qc;
  dt_Death_Rate : Qc
}.

(** The lambda mapped over [display_df['Strategy']] at lines 608-609. *)
Definition detailed_sort_key (x : string) : nat :=
  if isdigit x && (int x <=? 9)%nat then int x
  else if isdigit x then int x + 3
  else 999.

(** Lines 595-610 of [main]: selection, renaming and sorting.  The string
    formatting of four numeric columns that follows keeps the row order. *)
Definition detailed_comparison_table (df : list result_row) : list detailed_row :=
  let display_df :=
    map (λ r, {| dt_Strategy := Display r; dt_Description := Name r;
                 dt_Test_Type := Test_Type r; dt_End_Age := End_Age r;
                 dt_Exit_Tests := Exit_Tests r;
                 dt_Total_Cancers := total_cancers (row_metrics r);
                 dt_Total_Deaths := total_cancer_deaths (row_metrics r);
                 dt_Total_Life_Years := total_life_years (row_metrics r);
                 dt_Case_Fatality := case_fatality_rate (row_metrics r);
                 dt_Cancer_Rate := cancer_rate_per_100k (row_metrics r);
                 dt_Death_Rate := death_rate_per_100k (row_metrics r) |}) df in
  sort_values (λ r, detailed_sort_key (dt_Strategy r)) display_df.

(** ** create_question_1_analysis *)

(** [for x in xs: acc = body(acc, x)] for code that raises and shows
    nothing. *)
Fixpoint result_for {A S} (xs : list A) (body : S → A → result S) (acc : S)
  : result S :=
  match xs with
  | [] => mret acc
  | x :: xs' => body acc x ≫= result_for xs' body
  end.

(** [df[c]] as the chart code reads it: every cell of the column, a NaN cell
    as [None]. *)
Definition column_series (df : DataFrame) (c : string)
  : result (list (option Qc)) :=
  match list_find (λ x, x = c) (columns df) with
  | Some (i, _) => Ok ((λ r : list Qc, r !! i) <$> records df)
  | None => Raise (KeyError c)
  end.

(** A [go.Scatter] handed to [fig.add_trace] with its subplot; colours, fill
    and hover text are left out. *)
Record scatter := {
  sc_name : string;
  sc_x : list (option Qc);
  sc_y : list (option Qc);
  sc_showlegend : bool;
  sc_row : nat;
  sc_col : nat
}.

(** A call of [fig.add_vline]. *)
Record vline := {
  vl_x : nat;
  vl_line_color : string;
  vl_row : nat;
  vl_col : nat
}.

Inductive figure_item :=
| Trace (t : scatter)
| VLine (v : vline).

Definition positions : list (nat * nat) :=
  [(1, 1); (1, 2); (1, 3);
   (2, 1); (2, 2); (2, 3);
   (3, 1); (3, 2); (3, 3);
   (4, 1); (4, 2); (4, 3);
   (5, 1); (5, 2); (5, 3)].

(** The truth value of [strategy_info['switch_age']]: [None] and [0] are
    false. *)
Definition switch_age_set (info : strategy_info) : bool :=
  match switch_age info with
  | Some (S _) => true
  | Some 0 | None => false
  end.

(** ['Cotest' in strategy_info['test']] *)
Definition mentions_cotest (info : strategy_info) : bool :=
  match index 0 "Cotest" (test info) with
  | Some _ => true
  | None => false
  end.

(** What one pass of the loop adds to the figure for a loaded strategy, in
    the order of the calls.  [positions[idx]] is in range for every [idx]
    that [enumerate(range(1, 16))] yields. *)
Definition question_1_items (idx : nat) (df : DataFrame) (info : strategy_info)
  : result (list figure_item) :=
  let '(row, col) := default (0, 0) (positions !! idx) in
  let legend := bool_decide (idx = 0) in
  x ← column_series df "Age";
  y ← column_series df "Cyto";
  let cyto :=
    [Trace {| sc_name := "Cytology"; sc_x := x; sc_y := y;
              sc_showlegend := legend; sc_row := row; sc_col := col |}] in
  tests ←
    (if switch_age_set info then
       x ← column_series df "Age";
       y ← column_series df "HPV";
       let hpv :=
         [Trace {| sc_name := "HPV"; sc_x := x; sc_y := y;
                   sc_showlegend := legend; sc_row := row; sc_col := col |}] in
       if mentions_cotest info then
         x ← column_series df "Age";
         y ← column_series df "Cotest";
         mret (hpv ++ [Trace {| sc_name := "Cotest"; sc_x := x; sc_y := y;
                                sc_showlegend := legend;
                                sc_row := row; sc_col := col |}])%list
       else mret hpv
     else mret []);
  let ages :=
    [VLine {| vl_x := start_age info; vl_line_color := "green";
              vl_row := row; vl_col := col |};
     VLine {| vl_x := end_age info; vl_line_color := "red";
              vl_row := row; vl_col := col |}] in
  let switch :=
    match switch_age info with
    | Some (S n) => [VLine {| vl_x := S n; vl_line_color := "orange";
                              vl_row := row; vl_col := col |}]
    | Some 0 | None => []
    end in
  mret (cyto ++ tests ++ ages ++ switch)%list.

(** The body of the loop over [enumerate(range(1, 16))]. *)
Definition question_1_body (age_distributions : gmap nat DataFrame)
    (fig : list figure_item) (entry : nat * nat) : result (list figure_item) :=
  let '(idx, strategy_num) := entry in
  match age_distributions !! strategy_num with
  | None => mret fig
  | Some df =>
      strategy_info ← dict_get STRATEGY_DEFINITIONS strategy_num;
      items ← question_1_items idx df strategy_info;
      mret (fig ++ items)%list
  end.

(** The traces and lines of the figure, in the order in which they are
    added; titles, layout and axes are left out. *)
Definition create_question_1_analysis (age_distributions : gmap nat DataFrame)
  : result (list figure_item) :=
  result_for (zip (seq 0 15) (seq 1 15)) (question_1_body age_distributions) [].

(** ** create_main_analysis_charts *)

(** The colour appended to [colors] for a row of [df_sorted]. *)
Definition bar_color (row : result_row) : string :=
  if (Exit_Tests row =? 1)%nat then "#d62728"
  else if (End_Age row =? 75)%nat then "#2ca02c"
  else if (End_Age row =? 70)%nat then "#ff7f0e"
  else "#1f77b4".

(** The data of the three bar charts and of the scatter plot; the rounded
    text labels and the layout are left out. *)
Record main_analysis_charts := {
  bars_x : list string;
  bars_marker_color : list string;
  bars_total_cancers : list Qc;
  bars_total_cancer_deaths : list Qc;
  bars_life_years_millions : list Qc;
  intensity_x : list Qc;
  intensity_y : list Qc;
  intensity_color : list Qc;
  intensity_text : list string
}.

Definition create_main_analysis_charts (df : list result_row)
  : main_analysis_charts :=
  let df_sorted := main_analysis_order df in
  let colors := bar_color <$> df_sorted in
  {| bars_x := Display <$> df_sorted;
     bars_marker_color := colors;
     bars_total_cancers := (λ r, total_cancers (row_metrics r)) <$> df_sorted;
     bars_total_cancer_deaths :=
       (λ r, total_cancer_deaths (row_metrics r)) <$> df_sorted;
     bars_life_years_millions :=
       (λ r, total_life_years (row_metrics r) / num 1000000)%Qc <$> df_sorted;
     intensity_x := (λ r, total_tests (row_metrics r)) <$> df_sorted;
     intensity_y := (λ r, total_cancers (row_metrics r)) <$> df_sorted;
     intensity_color := (λ r, total_cancer_deaths (row_metrics r)) <$> df_sorted;
     intensity_text := Display <$> df_sorted |}.

(** ** create_trend_analysis *)

(** [Series.mean()]; the mean of an empty series is NaN, here [None].  The
    value is the exact quotient, of which the binary64 mean of pandas is a
    rounding; the statements about it say when it is NaN. *)
Definition series_mean (s : list Qc) : option Qc :=
  match s with
  | [] => None
  | _ :: _ => Some (series_sum s / num (Z.of_nat (length s)))%Qc
  end.

(** A dict of [test_summary]. *)
Record test_type_row := {
  tt_Type : string;
  tt_Avg_Cancers : option Qc;
  tt_Avg_Deaths : option Qc;
  tt_Avg_Life_Years : option Qc
}.

(** [df[df['Test Type'] == test_type]] *)
Definition test_type_group (test_type : string) (df : list result_row)
  : list result_row :=
  filter (λ r, Test_Type r = test_type) df.

Definition test_type_summary (label : string) (group_df : list result_row)
  : test_type_row :=
  {| tt_Type := label;
     tt_Avg_Cancers :=
       series_mean ((λ r, total_cancers (row_metrics r)) <$> group_df);
     tt_Avg_Deaths :=
       series_mean ((λ r, total_cancer_deaths (row_metrics r)) <$> group_df);
     tt_Avg_Life_Years :=
       (λ m, m / num 1000000)%Qc <$>
         series_mean ((λ r, total_life_years (row_metrics r)) <$> group_df) |}.

(** [test_df] of [create_trend_analysis]. *)
Definition trend_by_test_type (df : list result_row) : list test_type_row :=
  [test_type_summary "Cyto Only" (test_type_group "Cyto only" df);
   test_type_summary "Cyto→HPV" (test_type_group "Cyto→HPV" df);
   test_type_summary "Cyto→Cotest" (test_type_group "Cyto→Cotest" df)].

(** A row of [df.groupby(key).agg({... 'mean'}).reset_index()]. *)
Record group_row := {
  gr_key : nat;
  gr_total_cancers : option Qc;
  gr_total_cancer_deaths : option Qc;
  gr_total_life_years : option Qc
}.

(** The group keys of [groupby]: the values of the column, each once,
    ascending. *)
Definition group_keys (key : result_row → nat) (df : list result_row) : list nat :=
  sort_values id (remove_dups (key <$> df)).

Definition groupby_mean (key : result_row → nat) (df : list result_row)
  : list group_row :=
  (λ k,
     let group := filter (λ r, key r = k) df in
     {| gr_key := k;
        gr_total_cancers :=
          series_mean ((λ r, total_cancers (row_metrics r)) <$> group);
        gr_total_cancer_deaths :=
          series_mean ((λ r, total_cancer_deaths (row_metrics r)) <$> group);
        gr_total_life_years :=
          series_mean ((λ r, total_life_years (row_metrics r)) <$> group) |})
  <$> group_keys key df.

(** [age_groups] and [exit_groups]. *)
Definition trend_by_end_age (df : list result_row) : list group_row :=
  groupby_mean End_Age df.

Definition trend_by_exit_tests (df : list result_row) : list group_row :=
  groupby_mean Exit_Tests df.

(** ** The best performers of main *)

(** [Series.idxmin()] on the default index: the position of the first
    smallest value; on an empty series pandas raises, here [None]. *)
Fixpoint idxmin_from (i : nat) (best : nat * Qc) (s : list Qc) : nat :=
  match s with
  | [] => best.1
  | v :: s' =>
      idxmin_from (S i) (if decide (v < best.2)%Qc then (i, v) else best) s'
  end.

Definition idxmin (s : list Qc) : option nat :=
  match s with
  | [] => None
  | v :: s' => Some (idxmin_from 1 (0, v) s')
  end.

(** [Series.idxmax()]: the position of the first largest value. *)
Fixpoint idxmax_from (i : nat) (best : nat * Qc) (s : list Qc) : nat :=
  match s with
  | [] => best.1
  | v :: s' =>
      idxmax_from (S i) (if decide (best.2 < v)%Qc then (i, v) else best) s'
  end.

Definition idxmax (s : list Qc) : option nat :=
  match s with
  | [] => None
  | v :: s' => Some (idxmax_from 1 (0, v) s')
  end.

(** [df.loc[df['total_cancers'].idxmin()]] and its two siblings. *)
Definition best_cancer (df : list result_row) : option result_row :=
  i ← idxmin ((λ r, total_cancers (row_metrics r)) <$> df); df !! i.

Definition best_death (df : list result_row) : option result_row :=
  i ← idxmin ((λ r, total_cancer_deaths (row_metrics r)) <$> df); df !! i.

Definition best_life (df : list result_row) : option result_row :=
  i ← idxmax ((λ r, total_life_years (row_metrics r)) <$> df); df !! i.

(** * Vocabulary of the statements *)

Definition required_columns : list string := ["Cancer"; "Cancer death"; "Population"].

Definition has_required_columns (df : DataFrame) : bool :=
  forallb (has_column df) required_columns.

(** The cells that [df[c]] yields, none when the column is absent. *)
Definition column_cells (df : DataFrame) (c : string) : list Qc :=
  match get_column df c with
  | Ok s => s
  | Raise _ => []
  end.

Definition column_total (df : DataFrame) (c : string) : Qc :=
  series_sum (column_cells df c).

(** The record that [calculate_metrics] builds when it gets that far. *)
Definition metrics_of (df : DataFrame) : Metrics :=
  with_rates (column_total df "Cancer") (column_total df "Cancer death")
    (column_total df "Population") (column_total df "Total test")
    (column_total df "Cyto") (column_total df "HPV") (column_total df "Cotest")
    (column_total df "CIN2 detected") (column_total df "CIN3 detected").

(** Sample tables. *)

(** Ages 1..3 with [Cancer], [Cancer death] and [Population] only. *)
Definition series_1_to_3 : DataFrame :=
  {| columns := ["Age"; "Cancer"; "Cancer death"; "Population"];
     records := [[num 1; num 1; num 0; num 100];
                 [num 2; num 2; num 1; num 100];
                 [num 3; num 3; num 1; num 100]] |}.

(** A table with the [Age] column and nothing else. *)
Definition age_only : DataFrame :=
  {| columns := ["Age"]; records := [[num 1]; [num 2]; [num 3]] |}.

(** Every count zero at every age. *)
Definition all_zero : DataFrame :=
  {| columns := ["Age"; "Cancer"; "Cancer death"; "Population"; "Total test"];
     records := [[num 1; 0%Qc; 0%Qc; 0%Qc; 0%Qc]; [num 2; 0%Qc; 0%Qc; 0%Qc; 0%Qc]] |}.

(** Vocabulary for the summary build. *)

(** The warning that [load_strategy_data] shows for a missing file. *)
Definition missing_warning (strategy_num : nat) : st_event :=
  StWarning ("File " +:+ strategy_filename strategy_num +:+ " not found").

(** The file of a strategy exists in the directory. *)
Definition present (fs : gmap string file) (strategy_num : nat) : bool :=
  bool_decide (is_Some (fs !! strategy_filename strategy_num)).

(** The file of a strategy is missing, or it parses and carries the three
    columns that [calculate_metrics] reads without a guard. *)
Definition resource_ready (fs : gmap string file) (strategy_num : nat) : bool :=
  match fs !! strategy_filename strategy_num with
  | None => true
  | Some (Csv df) => has_required_columns df
  | Some Unparsable => false
  end.

Definition all_ready (fs : gmap string file) : bool :=
  forallb (resource_ready fs) (seq 1 15).

(** The table that [pd.read_csv] yields for a strategy, if it yields one. *)
Definition table_of (fs : gmap string file) (strategy_num : nat)
  : option DataFrame :=
  match fs !! strategy_filename strategy_num with
  | Some (Csv df) => Some df
  | _ => None
  end.

(** The row that the loop appends for a strategy, if it appends one. *)
Definition summary_row (fs : gmap string file) (strategy_num : nat)
  : option result_row :=
  match fs !! strategy_filename strategy_num with
  | Some (Csv df) =>
      match calculate_metrics (Some df), STRATEGY_DEFINITIONS !! strategy_num with
      | Ok (Some metrics), Some info => Some (make_result strategy_num info metrics)
      | _, _ => None
      end
  | _ => None
  end.

(** Sample directories. *)

Definition directory (tables : list (nat * file)) : gmap string file :=
  list_to_map (prod_map strategy_filename id <$> tables).

(** All fifteen files, each holding the same three-row table. *)
Definition full_directory : gmap string file :=
  directory ((λ n, (n, Csv series_1_to_3)) <$> seq 1 15).

(** The file of strategy 2 is missing. *)
Definition one_missing : gmap string file :=
  delete (strategy_filename 2) full_directory.

(** The file of strategy 1 is missing and that of strategy 2 has the [Age]
    column only. *)
Definition missing_and_age_only : gmap string file :=
  <[strategy_filename 2 := Csv age_only]>
    (delete (strategy_filename 1) full_directory).

(** The file of strategy 1 is missing and that of strategy 2 does not
    parse. *)
Definition missing_and_unparsable : gmap string file :=
  <[strategy_filename 2 := Unparsable]>
    (delete (strategy_filename 1) full_directory).

(** Strategy 1 has a table of zeros; no other file exists. *)
Definition zeros_and_missing : gmap string file :=
  {[ strategy_filename 1 := Csv all_zero ]}.

(** Vocabulary for the figure of question 1. *)

(** The columns that one pass of the loop reads for a strategy. *)
Definition question_1_columns (info : strategy_info) : list string :=
  "Age" :: "Cyto" ::
  (if switch_age_set info
   then "HPV" :: (if mentions_cotest info then ["Cotest"] else [])
   else []).

(** What the pass for the entry [(idx, strategy_num)] adds to the figure. *)
Definition question_1_strategy (age_distributions : gmap nat DataFrame)
    (entry : nat * nat) : result (list figure_item) :=
  match age_distributions !! entry.2 with
  | None => Ok []
  | Some df =>
      strategy_info ← dict_get STRATEGY_DEFINITIONS entry.2;
      question_1_items entry.1 df strategy_info
  end.

Definition item_position (item : figure_item) : nat * nat :=
  match item with
  | Trace t => (sc_row t, sc_col t)
  | VLine v => (vl_row v, vl_col v)
  end.

Definition shows_legend (item : figure_item) : bool :=
  match item with
  | Trace t => sc_showlegend t
  | VLine _ => false
  end.

(** The name of a trace, the colour of a line. *)
Definition item_kind (item : figure_item) : string :=
  match item with
  | Trace t => sc_name t
  | VLine v => vl_line_color v
  end.

(** The traces and lines that one pass adds, by kind. *)
Definition question_1_kinds (info : strategy_info) : list string :=
  (["Cytology"]
   ++ (if switch_age_set info
       then "HPV" :: (if mentions_cotest info then ["Cotest"] else [])
       else [])
   ++ ["green"; "red"]
   ++ (if switch_age_set info then ["orange"] else []))%list.

Definition question_1_kinds_of (strategy_num : nat) : list string :=
  match STRATEGY_DEFINITIONS !! strategy_num with
  | Some info => question_1_kinds info
  | None => []
  end.

(** The column that the trace of a given name plots. *)
Definition trace_column (trace_name : string) : option string :=
  if decide (trace_name = "Cytology") then Some "Cyto"
  else if decide (trace_name = "HPV") then Some "HPV"
  else if decide (trace_name = "Cotest") then Some "Cotest"
  else None.

(** A trace plots its test column of the table against the Age column; a
    line stands at the age that its colour announces. *)
Definition item_shows (df : DataFrame) (info : strategy_info)
    (item : figure_item) : Prop :=
  match item with
  | Trace t =>
      column_series df "Age" = Ok (sc_x t) ∧
      ∃ c, trace_column (sc_name t) = Some c ∧ column_series df c = Ok (sc_y t)
  | VLine v =>
      (vl_line_color v = "green" ∧ vl_x v = start_age info) ∨
      (vl_line_color v = "red" ∧ vl_x v = end_age info) ∨
      (vl_line_color v = "orange" ∧ switch_age info = Some (vl_x v))
  end.

(** The subplot of a strategy in the grid of five rows and three columns. *)
Definition subplot_of (strategy_num : nat) : nat * nat :=
  ((strategy_num - 1) / 3 + 1, (strategy_num - 1) mod 3 + 1).

(** A table with the Age column, the three outcome columns and the three
    test columns. *)
Definition screening_table : DataFrame :=
  {| columns := ["Age"; "Cancer"; "Cancer death"; "Population";
                 "Cyto"; "HPV"; "Cotest"];
     records := [[num 21; num 1; num 0; num 100; num 40; num 0; num 0];
                 [num 30; num 2; num 1; num 100; num 10; num 30; num 5]] |}.

(** Strategy 1 loaded with a table that has no test column. *)
Definition outcomes_only : gmap nat DataFrame := {[ 1 := series_1_to_3 ]}.

(** Strategies 2 and 3 loaded with that table, no other strategy loaded. *)
Definition two_tables : gmap nat DataFrame :=
  {[ 2 := screening_table; 3 := screening_table ]}.

(** * Machine numbers *)

(** [calculate_metrics] once more, over the numbers of pandas.  A column of
    integer literals has dtype int64 and is added modulo 2^64; any other
    numeric column has dtype float64 and is added with rounding; the rates
    are binary64 quotients, or the Python integer 0 of the two [else]
    branches. *)
Module Machine.

(** IEEE 754 binary64, the [float64] of NumPy and the [float] of Python. *)
Definition float64 : Type := spec_float.
Definition prec : Z := 53.
Definition emax : Z := 1024.

(** [float(z)]: the nearest binary64, ties to even. *)
Definition float (z : Z) : float64 := binary_normalize prec emax z 0 false.

(** A numeric field of a CSV record as [pd.read_csv] reads it: an integer
    literal in the range of int64, or a literal with a fraction or an
    exponent, already rounded to binary64. *)
Inductive cell :=
| IntCell (z : Z)
| FloatCell (f : float64).

Record DataFrame := {
  columns : list string;
  records : list (list cell)
}.

(** A column with its dtype; [object] is the dtype of a column without
    rows. *)
Inductive Series :=
| ObjectSeries
| Int64Series (values : list Z)
| Float64Series (values : list float64).

Definition is_int (c : option cell) : bool :=
  match c with
  | Some (IntCell _) => true
  | _ => false
  end.

Definition as_int (c : option cell) : option Z :=
  match c with
  | Some (IntCell z) => Some z
  | _ => None
  end.

Definition as_float (c : option cell) : float64 :=
  match c with
  | Some (IntCell z) => float z
  | Some (FloatCell f) => f
  | None => S754_nan
  end.

(** The dtype that [pd.read_csv] gives a column: int64 when every field is
    an integer literal, float64 otherwise, with NaN for a field that a
    record does not have. *)
Definition infer_dtype (cells : list (option cell)) : Series :=
  match cells with
  | [] => ObjectSeries
  | _ :: _ =>
      if forallb is_int cells
      then Int64Series (omap as_int cells)
      else Float64Series (as_float <$> cells)
  end.

Definition has_column (df : DataFrame) (c : string) : bool :=
  bool_decide (c ∈ columns df).

(** [df[c]] *)
Definition get_column (df : DataFrame) (c : string) : result Series :=
  match list_find (λ x, x = c) (columns df) with
  | Some (i, _) => Ok (infer_dtype ((λ r : list cell, r !! i) <$> records df))
  | None => Raise (KeyError c)
  end.

(** A number as Python holds it after a reduction. *)
Inductive scalar :=
| PyInt (z : Z)
| Int64 (z : Z)
| Float64 (f : float64).

(** Two's complement on 64 bits. *)
Definition wrap64 (z : Z) : Z := ((z + 2 ^ 63) `mod` 2 ^ 64 - 2 ^ 63)%Z.

Definition nan_to_zero (f : float64) : float64 :=
  match f with
  | S754_nan => float 0
  | _ => f
  end.

(** [Series.sum()].  An int64 column is added modulo 2^64.  In a float64
    column NaN counts as 0 and every addition rounds; the cells are added
    from left to right, which is what NumPy does for fewer than eight of
    them (longer arrays are added in blocks, which is not modelled). *)
Definition series_sum (s : Series) : scalar :=
  match s with
  | ObjectSeries => PyInt 0
  | Int64Series zs => Int64 (foldl (λ acc z, wrap64 (acc + z)) 0%Z zs)
  | Float64Series fs =>
      Float64 (foldl (SFadd prec emax) (float 0) (nan_to_zero <$> fs))
  end.

Definition column_sum (df : DataFrame) (c : string) : result scalar :=
  s ← get_column df c; mret (series_sum s).

(** [df[c].sum() if c in df.columns else 0] *)
Definition column_sum_or_zero (df : DataFrame) (c : string) : result scalar :=
  if has_column df c then column_sum df c else Ok (PyInt 0).

Definition to_float (x : scalar) : float64 :=
  match x with
  | PyInt z | Int64 z => float z
  | Float64 f => f
  end.

(** [x > 0]; false on NaN. *)
Definition gt_zero (x : scalar) : bool :=
  match x with
  | PyInt z | Int64 z => bool_decide (0 < z)%Z
  | Float64 f => SFltb (float 0) f
  end.

(** [x / y]: true division, in binary64 whatever the operands are. *)
Definition truediv (x y : scalar) : float64 :=
  SFdiv prec emax (to_float x) (to_float y).

(** [f * k] for a float64 [f] and an integer literal [k]. *)
Definition times (f : float64) (k : Z) : float64 :=
  SFmul prec emax f (float k).

Record Metrics := {
  total_cancers : scalar;
  total_cancer_deaths : scalar;
  total_life_years : scalar;
  total_tests : scalar;
  total_cyto : scalar;
  total_hpv : scalar;
  total_cotest : scalar;
  total_cin2_detected : scalar;
  total_cin3_detected : scalar;
  case_fatality_rate : scalar;
  cancer_rate_per_100k : scalar;
  death_rate_per_100k : scalar
}.

Definition with_rates (tc td tl tt cy hp co c2 c3 : scalar) : Metrics :=
  let cfr :=
    if gt_zero tc then Float64 (times (truediv td tc) 100) else PyInt 0 in
  let '(cr, dr) :=
    if gt_zero tl
    then (Float64 (times (truediv tc tl) 100000),
          Float64 (times (truediv td tl) 100000))
    else (PyInt 0, PyInt 0) in
  {| total_cancers := tc; total_cancer_deaths := td; total_life_years := tl;
     total_tests := tt; total_cyto := cy; total_hpv := hp; total_cotest := co;
     total_cin2_detected := c2; total_cin3_detected := c3;
     case_fatality_rate := cfr;
     cancer_rate_per_100k := cr; death_rate_per_100k := dr |}.

Definition calculate_metrics (df : option DataFrame) : result (option Metrics) :=
  match df with
  | None => Ok None
  | Some df =>
      tc ← column_sum df "Cancer";
      td ← column_sum df "Cancer death";
      tl ← column_sum df "Population";
      tt ← column_sum_or_zero df "Total test";
      cy ← column_sum_or_zero df "Cyto";
      hp ← column_sum_or_zero df "HPV";
      co ← column_sum_or_zero df "Cotest";
      c2 ← column_sum_or_zero df "CIN2 detected";
      c3 ← column_sum_or_zero df "CIN3 detected";
      mret (Some (with_rates tc td tl tt cy hp co c2 c3))
  end.

(** Vocabulary. *)

Definition has_required_columns (df : DataFrame) : bool :=
  forallb (has_column df) required_columns.

(** [x == 0] *)
Definition eq_zero (x : scalar) : bool :=
  match x with
  | PyInt z | Int64 z => bool_decide (z = 0%Z)
  | Float64 f => SFeqb f (float 0)
  end.

(** [(df.dtypes == 'int64').all()] *)
Definition all_int64 (df : DataFrame) : bool :=
  forallb (λ c, match get_column df c with
                | Ok (Int64Series zs) =>
                    forallb (λ z, bool_decide (- 2 ^ 63 ≤ z < 2 ^ 63)%Z) zs
                | _ => false
                end) (columns df).

(** [x + y] for two totals of int64 columns, or of absent columns. *)
Definition add_totals (x y : scalar) : option scalar :=
  match x, y with
  | Int64 a, Int64 b => Some (Int64 (wrap64 (a + b)))
  | PyInt a, PyInt b => Some (PyInt (a + b))
  | _, _ => None
  end.

(** Sample tables. *)

(** No cancers, five cancer deaths. *)
Definition deaths_without_cancers : DataFrame :=
  {| columns := ["Age"; "Cancer"; "Cancer death"; "Population"];
     records := [[IntCell 1; IntCell 0; IntCell 2; IntCell 100];
                 [IntCell 2; IntCell 0; IntCell 3; IntCell 100]] |}.

(** Test counts without the outcome columns. *)
Definition tests_only : DataFrame :=
  {| columns := ["Age"; "Cyto"; "HPV"];
     records := [[IntCell 1; IntCell 10; IntCell 0];
                 [IntCell 2; IntCell 12; IntCell 4]] |}.

(** Cancer = 1e16, 1.0, 1.0 as the file writes them. *)
Definition large_first : DataFrame :=
  {| columns := ["Age"; "Cancer"; "Cancer death"; "Population"];
     records := [[IntCell 1; FloatCell (float (10 ^ 16)); IntCell 0; IntCell 100];
                 [IntCell 2; FloatCell (float 1); IntCell 0; IntCell 100];
                 [IntCell 3; FloatCell (float 1); IntCell 0; IntCell 100]] |}.

(** The same records, the large one last. *)
Definition large_last : DataFrame :=
  {| columns := ["Age"; "Cancer"; "Cancer death"; "Population"];
     records := [[IntCell 2; FloatCell (float 1); IntCell 0; IntCell 100];
                 [IntCell 3; FloatCell (float 1); IntCell 0; IntCell 100];
                 [IntCell 1; FloatCell (float (10 ^ 16)); IntCell 0; IntCell 100]] |}.

(** Ages 1..3 and 3..1 with integer counts. *)
Definition series_1_to_3 : DataFrame :=
  {| columns := ["Age"; "Cancer"; "Cancer death"; "Population"];
     records := [[IntCell 1; IntCell 1; IntCell 0; IntCell 100];
                 [IntCell 2; IntCell 2; IntCell 1; IntCell 100];
                 [IntCell 3; IntCell 3; IntCell 1; IntCell 100]] |}.

Definition series_3_to_1 : DataFrame :=
  {| columns := ["Age"; "Cancer"; "Cancer death"; "Population"];
     records := [[IntCell 3; IntCell 3; IntCell 1; IntCell 100];
                 [IntCell 2; IntCell 2; IntCell 1; IntCell 100];
                 [IntCell 1; IntCell 1; IntCell 0; IntCell 100]] |}.

End Machine.

(** * The two number models side by side *)

(** A table of integer fields as the exact model holds it and as the
    machine model holds it. *)
Definition exact_table (cols : list string) (rows : list (list Z)) : DataFrame :=
  {| columns := cols; records := (λ r : list Z, num <$> r) <$> rows |}.

Definition int64_table (cols : list string) (rows : list (list Z))
  : Machine.DataFrame :=
  {| Machine.columns := cols;
     Machine.records := (λ r : list Z, Machine.IntCell <$> r) <$> rows |}.

(** The rational that an integer total stands for. *)
Definition scalar_value (x : Machine.scalar) : option Qc :=
  match x with
  | Machine.PyInt z | Machine.Int64 z => Some (num z)
  | Machine.Float64 _ => None
  end.

(** Runs the binds of the [ui] monad that are at the head of the goal. *)
Ltac ui_step :=
  cbv [mbind ui_bind mret ui_ret ui_lift ui_emit ui_raise]; cbn beta iota zeta.

(** * Properties of calculate_metrics *)

Section Aggregation.
Implicit Types (df : DataFrame) (c : string).

Lemma has_column_true df c : has_column df c = true ↔ c ∈ columns df.
Proof. unfold has_column. apply bool_decide_eq_true. Qed.

Lemma has_column_false df c : has_column df c = false ↔ c ∉ columns df.
Proof. unfold has_column. apply bool_decide_eq_false. Qed.

Lemma get_column_present df c :
  c ∈ columns df → get_column df c = Ok (column_cells df c).
Proof.
  intros Hin. unfold column_cells, get_column.
  destruct (list_find _ _) as [[i x]|] eqn:Hfind; [done|].
  apply list_find_None in Hfind.
  rewrite Forall_forall in Hfind. by destruct (Hfind c Hin).
Qed.

Lemma get_column_absent df c :
  c ∉ columns df → get_column df c = Raise (KeyError c).
Proof.
  intros Hnin. unfold get_column.
  destruct (list_find _ _) as [[i x]|] eqn:Hfind; [|done].
  apply list_find_Some in Hfind as (Hi & -> & _).
  destruct Hnin. by eapply list_elem_of_lookup_2.
Qed.

Lemma column_cells_absent df c : c ∉ columns df → column_cells df c = [].
Proof. intros H. unfold column_cells. by rewrite get_column_absent. Qed.

Lemma column_sum_present df c :
  c ∈ columns df → column_sum df c = Ok (column_total df c).
Proof. intros H. unfold column_sum. by rewrite get_column_present. Qed.

Lemma column_sum_absent df c :
  c ∉ columns df → column_sum df c = Raise (KeyError c).
Proof. intros H. unfold column_sum. by rewrite get_column_absent. Qed.

(** The guarded form never raises, and an absent column adds nothing. *)
Lemma column_sum_or_zero_total df c :
  column_sum_or_zero df c = Ok (column_total df c).
Proof.
  unfold column_sum_or_zero. destruct (has_column df c) eqn:Hc.
  - apply column_sum_present. by apply has_column_true.
  - apply has_column_false in Hc.
    unfold column_total. by rewrite column_cells_absent.
Qed.

Lemma column_total_absent df c : c ∉ columns df → column_total df c = 0%Qc.
Proof. intros H. unfold column_total. by rewrite column_cells_absent. Qed.

Lemma has_required_columns_elem df :
  has_required_columns df = true ↔
  "Cancer" ∈ columns df ∧ "Cancer death" ∈ columns df ∧ "Population" ∈ columns df.
Proof.
  unfold has_required_columns, required_columns. simpl.
  rewrite !andb_true_iff, !has_column_true. tauto.
Qed.

Lemma calculate_metrics_required df :
  has_required_columns df = true →
  calculate_metrics (Some df) = Ok (Some (metrics_of df)).
Proof.
  intros (Hc & Hd & Hp)%has_required_columns_elem.
  unfold calculate_metrics.
  rewrite !column_sum_present by done.
  by rewrite !column_sum_or_zero_total.
Qed.

(** Which [KeyError] comes out follows the order of the dict literal. *)
Lemma calculate_metrics_missing df :
  has_required_columns df = false →
  ∃ c, c ∈ required_columns ∧ (c ∉ columns df) ∧
       calculate_metrics (Some df) = Raise (KeyError c).
Proof.
  intros Hreq. unfold calculate_metrics.
  destruct (decide ("Cancer" ∈ columns df)) as [Hc|Hc]; last first.
  { exists "Cancer". rewrite (column_sum_absent df "Cancer") by done.
    split_and!; [set_solver|done..]. }
  rewrite (column_sum_present df "Cancer") by done.
  destruct (decide ("Cancer death" ∈ columns df)) as [Hd|Hd]; last first.
  { exists "Cancer death". rewrite (column_sum_absent df "Cancer death") by done.
    split_and!; [set_solver|done..]. }
  rewrite (column_sum_present df "Cancer death") by done.
  destruct (decide ("Population" ∈ columns df)) as [Hp|Hp]; last first.
  { exists "Population". rewrite (column_sum_absent df "Population") by done.
    split_and!; [set_solver|done..]. }
  assert (has_required_columns df = true) as Hall.
  { by apply has_required_columns_elem. }
  congruence.
Qed.

Lemma calculate_metrics_never_None df : calculate_metrics (Some df) ≠ Ok None.
Proof.
  destruct (has_required_columns df) eqn:Hreq.
  - rewrite calculate_metrics_required by done. discriminate.
  - destruct (calculate_metrics_missing df Hreq) as (c & _ & _ & ->).
    discriminate.
Qed.

End Aggregation.

(** ** The three derived rates *)

Section MachineAggregation.
Implicit Types (df : Machine.DataFrame) (c : string).

Lemma machine_get_column_present df c :
  c ∈ Machine.columns df → ∃ s, Machine.get_column df c = Ok s.
Proof.
  intros Hc. unfold Machine.get_column.
  destruct (list_find _ _) as [[i x]|] eqn:Hfind; [eauto|].
  apply list_find_None in Hfind.
  rewrite Forall_forall in Hfind. by destruct (Hfind c Hc).
Qed.

Lemma machine_get_column_absent df c :
  c ∉ Machine.columns df → Machine.get_column df c = Raise (KeyError c).
Proof.
  intros Hc. unfold Machine.get_column.
  destruct (list_find _ _) as [[i x]|] eqn:Hfind; [|done].
  apply list_find_Some in Hfind as (Hi & -> & _).
  destruct Hc. by eapply list_elem_of_lookup_2.
Qed.

Lemma machine_column_sum_or_zero_Ok df c :
  ∃ x, Machine.column_sum_or_zero df c = Ok x.
Proof.
  unfold Machine.column_sum_or_zero, Machine.has_column, Machine.column_sum.
  case_bool_decide as Hc; [|eauto].
  destruct (machine_get_column_present df c Hc) as [s ->]. simpl. eauto.
Qed.

Lemma machine_has_required_columns_elem df :
  Machine.has_required_columns df = true ↔
  "Cancer" ∈ Machine.columns df ∧ "Cancer death" ∈ Machine.columns df ∧
  "Population" ∈ Machine.columns df.
Proof.
  unfold Machine.has_required_columns, required_columns, Machine.has_column.
  cbn [forallb]. rewrite !andb_true_iff, !bool_decide_eq_true. tauto.
Qed.

(** With the three unguarded columns in the header the function returns
    [with_rates] of nine sums. *)
Lemma machine_calculate_metrics_required df :
  Machine.has_required_columns df = true →
  ∃ tc td tl tt cy hp co k2 k3,
    Machine.calculate_metrics (Some df)
    = Ok (Some (Machine.with_rates tc td tl tt cy hp co k2 k3)).
Proof.
  intros (Hc & Hd & Hp)%machine_has_required_columns_elem.
  unfold Machine.calculate_metrics, Machine.column_sum.
  destruct (machine_get_column_present df _ Hc) as [sc ->].
  destruct (machine_get_column_present df _ Hd) as [sd ->].
  destruct (machine_get_column_present df _ Hp) as [sp ->].
  destruct (machine_column_sum_or_zero_Ok df "Total test") as [tt ->].
  destruct (machine_column_sum_or_zero_Ok df "Cyto") as [cy ->].
  destruct (machine_column_sum_or_zero_Ok df "HPV") as [hp ->].
  destruct (machine_column_sum_or_zero_Ok df "Cotest") as [co ->].
  destruct (machine_column_sum_or_zero_Ok df "CIN2 detected") as [c2 ->].
  destruct (machine_column_sum_or_zero_Ok df "CIN3 detected") as [c3 ->].
  cbn. eauto 10.
Qed.

Lemma eq_zero_not_gt_zero (x : Machine.scalar) :
  Machine.eq_zero x = true → Machine.gt_zero x = false.
Proof.
  destruct x as [z|z|f]; cbn.
  - intros ->%bool_decide_eq_true. reflexivity.
  - intros ->%bool_decide_eq_true. reflexivity.
  - destruct f as [[]|[]| |[] m e]; cbv; congruence.
Qed.

End MachineAggregation.

(** C1, as stated for every table, fails: a table with test counts and
    without the outcome columns gets no rate at all, [calculate_metrics]
    raises [KeyError] on ['Cancer'] before it reaches the rates. *)
Lemma rates_undefined_without_totals :
  Machine.calculate_metrics (Some Machine.tests_only) = Raise (KeyError "Cancer") ∧
  ¬ ∃ m, Machine.calculate_metrics (Some Machine.tests_only) = Ok (Some m).
Proof.
  split; [reflexivity|].
  intros [m Hm]. discriminate Hm.
Qed.

(** C1, amended: on every table that carries Cancer, Cancer death and
    Population, [calculate_metrics] returns a record; its case fatality rate
    is deaths / cancers * 100, computed in binary64, when the cancer total is
    greater than 0, and the integer 0 otherwise, in particular when the
    cancer total is 0; its two rates per 100k are total / life-years * 100000
    when the life-year total is greater than 0, and the integer 0
    otherwise.  The totals are whatever the column sums gave, int64 or
    float64. *)
Theorem calculate_metrics_rates (df : Machine.DataFrame) :
  Machine.has_required_columns df = true →
  ∃ m, Machine.calculate_metrics (Some df) = Ok (Some m) ∧
    let tc := Machine.total_cancers m in
    let td := Machine.total_cancer_deaths m in
    let tl := Machine.total_life_years m in
    (Machine.gt_zero tc = true →
       Machine.case_fatality_rate m
       = Machine.Float64 (Machine.times (Machine.truediv td tc) 100)) ∧
    (Machine.gt_zero tc = false →
       Machine.case_fatality_rate m = Machine.PyInt 0) ∧
    (Machine.eq_zero tc = true →
       Machine.case_fatality_rate m = Machine.PyInt 0) ∧
    (Machine.gt_zero tl = true →
       Machine.cancer_rate_per_100k m
       = Machine.Float64 (Machine.times (Machine.truediv tc tl) 100000) ∧
       Machine.death_rate_per_100k m
       = Machine.Float64 (Machine.times (Machine.truediv td tl) 100000)) ∧
    (Machine.gt_zero tl = false →
       Machine.cancer_rate_per_100k m = Machine.PyInt 0 ∧
       Machine.death_rate_per_100k m = Machine.PyInt 0).
Proof.
  intros Hreq.
  destruct (machine_calculate_metrics_required df Hreq)
    as (tc & td & tl & tt & cy & hp & co & c2 & c3 & ->).
  eexists. split; [reflexivity|].
  pose proof (eq_zero_not_gt_zero tc) as Hz.
  unfold Machine.with_rates.
  destruct (Machine.gt_zero tc) eqn:Hc, (Machine.gt_zero tl) eqn:Hl; cbn;
    rewrite ?Hc, ?Hl; split_and!; try done; intros H0; by specialize (Hz H0).
Qed.

(** The input with no cancers and five cancer deaths: a record comes back
    and its case fatality rate is the integer 0. *)
Lemma calculate_metrics_rates_witness :
  Machine.has_required_columns Machine.deaths_without_cancers = true ∧
  ∃ m, Machine.calculate_metrics (Some Machine.deaths_without_cancers) = Ok (Some m) ∧
       Machine.total_cancers m = Machine.Int64 0 ∧
       Machine.total_cancer_deaths m = Machine.Int64 5 ∧
       Machine.case_fatality_rate m = Machine.PyInt 0.
Proof.
  split; [reflexivity|].
  destruct (calculate_metrics_rates Machine.deaths_without_cancers eq_refl)
    as (m & Hm & _ & _ & Hzero & _).
  exists m.
  assert (Machine.total_cancers m = Machine.Int64 0
          ∧ Machine.total_cancer_deaths m = Machine.Int64 5) as [Hc Hd].
  { vm_compute in Hm. injection Hm as <-. split; reflexivity. }
  split_and!; [exact Hm|exact Hc|exact Hd|].
  apply Hzero. rewrite Hc. reflexivity.
Defined.


(** ** Absent columns *)

(** C3, as stated, fails: a table that has the [Age] column and no other
    makes [calculate_metrics] raise [KeyError] on ['Cancer']. *)
Lemma calculate_metrics_age_only_raises :
  "Age" ∈ columns age_only ∧
  calculate_metrics (Some age_only) = Raise (KeyError "Cancer") ∧
  ¬ ∃ m, calculate_metrics (Some age_only) = Ok (Some m).
Proof.
  split_and!.
  - set_solver.
  - reflexivity.
  - intros [m Hm]. discriminate Hm.
Qed.

(** C3, amended: on every table that carries Cancer, Cancer death and
    Population, [calculate_metrics] returns a record, and each of the six
    guarded columns that is absent has total 0 in it. *)
Theorem calculate_metrics_absent_optional (df : DataFrame) :
  has_required_columns df = true →
  ∃ m, calculate_metrics (Some df) = Ok (Some m) ∧
    ("Total test" ∉ columns df → total_tests m = 0%Qc) ∧
    ("Cyto" ∉ columns df → total_cyto m = 0%Qc) ∧
    ("HPV" ∉ columns df → total_hpv m = 0%Qc) ∧
    ("Cotest" ∉ columns df → total_cotest m = 0%Qc) ∧
    ("CIN2 detected" ∉ columns df → total_cin2_detected m = 0%Qc) ∧
    ("CIN3 detected" ∉ columns df → total_cin3_detected m = 0%Qc).
Proof.
  intros Hreq. exists (metrics_of df).
  split; [by apply calculate_metrics_required|].
  unfold metrics_of, with_rates.
  destruct (decide _); simpl; split_and!; apply column_total_absent.
Qed.

Lemma calculate_metrics_absent_optional_witness :
  has_required_columns series_1_to_3 = true ∧
  ∃ m, calculate_metrics (Some series_1_to_3) = Ok (Some m) ∧
       total_tests m = 0%Qc ∧ total_cin3_detected m = 0%Qc.
Proof.
  split; [reflexivity|].
  destruct (calculate_metrics_absent_optional series_1_to_3 eq_refl)
    as (m & Hm & Ht & _ & _ & _ & _ & Hc3).
  exists m.
  split_and!; [done|apply Ht|apply Hc3]; by apply has_column_false.
Defined.

(** ** Row order *)

Section Int64Sums.
Implicit Types (df : Machine.DataFrame) (c : string) (zs : list Z).

Lemma wrap64_add_l (a z : Z) :
  Machine.wrap64 (Machine.wrap64 a + z) = Machine.wrap64 (a + z).
Proof.
  unfold Machine.wrap64. f_equal.
  replace ((a + 2 ^ 63) `mod` 2 ^ 64 - 2 ^ 63 + z + 2 ^ 63)%Z
    with ((a + 2 ^ 63) `mod` 2 ^ 64 + z)%Z by lia.
  rewrite Z.add_mod_idemp_l by lia. f_equal. lia.
Qed.

Lemma wrap64_add_r (a z : Z) :
  Machine.wrap64 (a + Machine.wrap64 z) = Machine.wrap64 (a + z).
Proof. by rewrite (Z.add_comm a), wrap64_add_l, Z.add_comm. Qed.

Lemma int64_sum_from zs (a : Z) :
  foldl (λ acc z, Machine.wrap64 (acc + z)) (Machine.wrap64 a) zs
  = Machine.wrap64 (a + foldr Z.add 0%Z zs).
Proof.
  revert a. induction zs as [|z zs IH]; intros a; cbn [foldl foldr].
  - by rewrite Z.add_0_r.
  - rewrite wrap64_add_l, IH. f_equal. lia.
Qed.

Lemma int64_sum_spec zs :
  Machine.series_sum (Machine.Int64Series zs)
  = Machine.Int64 (Machine.wrap64 (foldr Z.add 0%Z zs)).
Proof.
  unfold Machine.series_sum. f_equal.
  change 0%Z with (Machine.wrap64 0) at 1. by rewrite int64_sum_from.
Qed.

Lemma Z_sum_Permutation zs1 zs2 :
  zs1 ≡ₚ zs2 → foldr Z.add 0%Z zs1 = foldr Z.add 0%Z zs2.
Proof. induction 1; cbn [foldr]; lia. Qed.

Lemma Z_sum_app zs1 zs2 :
  foldr Z.add 0%Z (zs1 ++ zs2)%list
  = (foldr Z.add 0%Z zs1 + foldr Z.add 0%Z zs2)%Z.
Proof. induction zs1 as [|z zs1 IH]; cbn [foldr app]; lia. Qed.

Lemma forallb_Permutation {A} (f : A → bool) (l1 l2 : list A) :
  l1 ≡ₚ l2 → forallb f l1 = forallb f l2.
Proof.
  induction 1 as [|x l1 l2 _ IH|x y l|l1 l2 l3 _ IH1 _ IH2]; cbn [forallb].
  - done.
  - by rewrite IH.
  - by destruct (f x), (f y).
  - by rewrite IH1.
Qed.

Lemma infer_dtype_int64 (cells : list (option Machine.cell)) :
  cells ≠ [] → forallb Machine.is_int cells = true →
  Machine.infer_dtype cells = Machine.Int64Series (omap Machine.as_int cells).
Proof.
  intros Hne Hint. unfold Machine.infer_dtype.
  destruct cells as [|cell cells]; [done|]. by rewrite Hint.
Qed.

Lemma infer_dtype_Permutation (cells1 cells2 : list (option Machine.cell)) :
  cells1 ≡ₚ cells2 → cells1 ≠ [] → forallb Machine.is_int cells1 = true →
  Machine.series_sum (Machine.infer_dtype cells1)
  = Machine.series_sum (Machine.infer_dtype cells2).
Proof.
  intros Hperm Hne Hint.
  rewrite (infer_dtype_int64 cells1), (infer_dtype_int64 cells2); try done.
  - rewrite !int64_sum_spec. do 2 f_equal.
    apply Z_sum_Permutation. by rewrite Hperm.
  - intros E. rewrite E in Hperm. by apply Permutation_nil_r in Hperm.
  - by rewrite <- (forallb_Permutation _ _ _ Hperm).
Qed.

Lemma all_int64_column df c i :
  Machine.all_int64 df = true →
  list_find (λ x, x = c) (Machine.columns df) = Some (i, c) →
  let cells := (λ r : list Machine.cell, r !! i) <$> Machine.records df in
  cells ≠ [] ∧ forallb Machine.is_int cells = true.
Proof.
  unfold Machine.all_int64. intros Hall Hfind.
  assert (c ∈ Machine.columns df) as Hc.
  { apply list_find_Some in Hfind as (Hi & _). by eapply list_elem_of_lookup_2. }
  apply Is_true_true_2, forallb_True in Hall. rewrite Forall_forall in Hall.
  specialize (Hall c Hc). unfold Machine.get_column in Hall.
  rewrite Hfind in Hall. unfold Machine.infer_dtype in Hall. cbn zeta.
  destruct (_ <$> Machine.records df) as [|cell cells]; [done|].
  split; [done|]. by destruct (forallb Machine.is_int _).
Qed.

Lemma column_sum_int64_Permutation df1 df2 c :
  Machine.columns df1 = Machine.columns df2 →
  Machine.records df1 ≡ₚ Machine.records df2 →
  Machine.all_int64 df1 = true →
  Machine.column_sum df1 c = Machine.column_sum df2 c.
Proof.
  intros Hcols Hperm Hall. unfold Machine.column_sum, Machine.get_column.
  rewrite <- Hcols.
  destruct (list_find _ _) as [[i x]|] eqn:Hfind; [|done]. cbn.
  assert (x = c) as -> by (by apply list_find_Some in Hfind as (_ & -> & _)).
  destruct (all_int64_column df1 c i Hall Hfind) as [Hne Hint].
  f_equal. apply infer_dtype_Permutation; [by rewrite Hperm|done..].
Qed.

Lemma column_sum_or_zero_int64_Permutation df1 df2 c :
  Machine.columns df1 = Machine.columns df2 →
  Machine.records df1 ≡ₚ Machine.records df2 →
  Machine.all_int64 df1 = true →
  Machine.column_sum_or_zero df1 c = Machine.column_sum_or_zero df2 c.
Proof.
  intros Hcols Hperm Hall. unfold Machine.column_sum_or_zero, Machine.has_column.
  rewrite <- Hcols. case_bool_decide; [|done].
  by apply column_sum_int64_Permutation.
Qed.

End Int64Sums.

(** C8, as stated for every table, fails: with the float64 cells 1e16, 1.0
    and 1.0 in the Cancer column the total is 1e16 when the large cell comes
    first and 1.0000000000000002e16 when it comes last, and the records
    returned for the two orders differ. *)
Lemma calculate_metrics_float_order :
  Machine.columns Machine.large_first = Machine.columns Machine.large_last ∧
  Machine.records Machine.large_first ≡ₚ Machine.records Machine.large_last ∧
  (∃ m, Machine.calculate_metrics (Some Machine.large_first) = Ok (Some m) ∧
        Machine.total_cancers m = Machine.Float64 (Machine.float 10000000000000000)) ∧
  (∃ m, Machine.calculate_metrics (Some Machine.large_last) = Ok (Some m) ∧
        Machine.total_cancers m = Machine.Float64 (Machine.float 10000000000000002)) ∧
  Machine.calculate_metrics (Some Machine.large_first)
  ≠ Machine.calculate_metrics (Some Machine.large_last).
Proof.
  split_and!.
  - reflexivity.
  - unfold Machine.large_first, Machine.large_last. cbn [Machine.records].
    etrans; [apply Permutation_swap|]. apply perm_skip, Permutation_swap.
  - eexists. split; [vm_compute; reflexivity|vm_compute; reflexivity].
  - eexists. split; [vm_compute; reflexivity|vm_compute; reflexivity].
  - intros Heq. vm_compute in Heq. discriminate Heq.
Qed.

(** C8, amended: two tables with the same header whose records are a
    permutation of one another, and whose columns all have dtype int64, get
    the same outcome from [calculate_metrics]: the same record with every
    total and every rate, or the same exception.  The int64 sums wrap around
    but do not depend on the order. *)
Theorem calculate_metrics_Permutation (df1 df2 : Machine.DataFrame) :
  Machine.columns df1 = Machine.columns df2 →
  Machine.records df1 ≡ₚ Machine.records df2 →
  Machine.all_int64 df1 = true →
  Machine.calculate_metrics (Some df1) = Machine.calculate_metrics (Some df2).
Proof.
  intros Hcols Hperm Hall. unfold Machine.calculate_metrics.
  rewrite !(column_sum_int64_Permutation df1 df2) by done.
  by rewrite !(column_sum_or_zero_int64_Permutation df1 df2) by done.
Qed.

Lemma calculate_metrics_Permutation_witness :
  Machine.columns Machine.series_1_to_3 = Machine.columns Machine.series_3_to_1 ∧
  Machine.records Machine.series_1_to_3 ≡ₚ Machine.records Machine.series_3_to_1 ∧
  Machine.all_int64 Machine.series_1_to_3 = true ∧
  Machine.calculate_metrics (Some Machine.series_1_to_3)
  = Machine.calculate_metrics (Some Machine.series_3_to_1).
Proof.
  assert (Machine.records Machine.series_1_to_3
          ≡ₚ Machine.records Machine.series_3_to_1) as Hperm.
  { symmetry. apply (reverse_Permutation (Machine.records Machine.series_1_to_3)). }
  split_and!; [reflexivity|exact Hperm|reflexivity|].
  apply calculate_metrics_Permutation; [reflexivity|exact Hperm|reflexivity].
Defined.


(** * Properties of the summary build *)

Section UiMonad.
Context {A B : Type}.

Lemma ui_bind_Ok (c : ui A) (k : A → ui B) log1 a log2 r :
  c = (log1, Ok a) → k a = (log2, r) → c ≫= k = ((log1 ++ log2)%list, r).
Proof. intros -> Hk. unfold mbind, ui_bind. by rewrite Hk. Qed.

Lemma ui_bind_Raise (c : ui A) (k : A → ui B) log e :
  c = (log, Raise e) → c ≫= k = (log, Raise e).
Proof. by intros ->. Qed.

Lemma ui_bind_Ok_inv (c : ui A) (k : A → ui B) log b :
  c ≫= k = (log, Ok b) →
  ∃ log1 a log2,
    c = (log1, Ok a) ∧ k a = (log2, Ok b) ∧ log = (log1 ++ log2)%list.
Proof.
  destruct c as [log1 [a|e]]; unfold mbind, ui_bind; [|done].
  destruct (k a) as [log2 r] eqn:Hk. intros [= <- ->]. eauto 6.
Qed.
End UiMonad.

Section Build.
Variable fs : gmap string file.
Local Arguments calculate_metrics : simpl never.
Local Arguments strategy_filename : simpl never.
Local Arguments missing_warning : simpl never.
Local Arguments STRATEGY_DEFINITIONS : simpl never.
Implicit Types (n : nat) (ids : list nat) (rs : list result_row)
  (ad : gmap nat DataFrame) (log : list st_event).

Lemma load_strategy_data_missing n :
  fs !! strategy_filename n = None →
  load_strategy_data fs n = ([missing_warning n], Ok None).
Proof. intros H. unfold load_strategy_data, read_csv. by rewrite H. Qed.

Lemma load_strategy_data_csv n df :
  fs !! strategy_filename n = Some (Csv df) →
  load_strategy_data fs n = ([], Ok (Some df)).
Proof. intros H. unfold load_strategy_data, read_csv. by rewrite H. Qed.

Lemma load_strategy_data_unparsable n :
  fs !! strategy_filename n = Some Unparsable →
  load_strategy_data fs n = ([], Raise (ParserError (strategy_filename n))).
Proof. intros H. unfold load_strategy_data, read_csv. by rewrite H. Qed.

Lemma load_strategy_data_None_inv n log :
  load_strategy_data fs n = (log, Ok None) → fs !! strategy_filename n = None.
Proof.
  unfold load_strategy_data, read_csv.
  by destruct (fs !! strategy_filename n) as [[df|]|].
Qed.

Lemma body_missing rs ad n :
  fs !! strategy_filename n = None →
  load_all_strategies_body fs (rs, ad) n = ([missing_warning n], Ok (rs, ad)).
Proof.
  intros H. unfold load_all_strategies_body.
  by rewrite (load_strategy_data_missing n H).
Qed.

Lemma body_row rs ad n df m info :
  fs !! strategy_filename n = Some (Csv df) →
  calculate_metrics (Some df) = Ok (Some m) →
  STRATEGY_DEFINITIONS !! n = Some info →
  load_all_strategies_body fs (rs, ad) n
  = ([], Ok ((rs ++ [make_result n info m])%list, <[n:=df]> ad)).
Proof.
  intros H Hm Hinfo. unfold load_all_strategies_body.
  rewrite (load_strategy_data_csv n df H). ui_step.
  rewrite Hm. unfold dict_get. by rewrite Hinfo.
Qed.

Lemma body_Ok_inv rs ad n log rs' ad' :
  load_all_strategies_body fs (rs, ad) n = (log, Ok (rs', ad')) →
  (fs !! strategy_filename n = None ∧ summary_row fs n = None ∧
   log = [missing_warning n] ∧ rs' = rs ∧ ad' = ad) ∨
  (∃ df r, fs !! strategy_filename n = Some (Csv df) ∧
     summary_row fs n = Some r ∧
     log = [] ∧ rs' = (rs ++ [r])%list ∧ ad' = <[n:=df]> ad).
Proof.
  unfold summary_row, load_all_strategies_body.
  destruct (fs !! strategy_filename n) as [[df|]|] eqn:Hfile.
  - rewrite (load_strategy_data_csv n df Hfile). ui_step.
    pose proof (calculate_metrics_never_None df) as Hnever.
    destruct (calculate_metrics (Some df)) as [[m|]|e]; [|done..].
    unfold dict_get.
    destruct (STRATEGY_DEFINITIONS !! n) as [info|]; [|done].
    intros [= <- <- <-]. right. eauto 8.
  - by rewrite (load_strategy_data_unparsable n Hfile).
  - rewrite (load_strategy_data_missing n Hfile). ui_step.
    intros [= <- <- <-]. by left.
Qed.
Lemma summary_row_Some n r :
  summary_row fs n = Some r →
  ∃ df info,
    fs !! strategy_filename n = Some (Csv df) ∧
    STRATEGY_DEFINITIONS !! n = Some info ∧
    calculate_metrics (Some df) = Ok (Some (row_metrics r)) ∧
    r = make_result n info (row_metrics r).
Proof.
  unfold summary_row.
  destruct (fs !! strategy_filename n) as [[df|]|]; [|done..].
  destruct (calculate_metrics (Some df)) as [[m|]|e] eqn:Hm; [|done..].
  destruct (STRATEGY_DEFINITIONS !! n) as [info|]; [|done].
  intros [= <-]. by exists df, info.
Qed.

Lemma summary_row_Strategy n r : summary_row fs n = Some r → Strategy r = n.
Proof. intros (df & info & _ & _ & _ & ->)%summary_row_Some. done. Qed.

Lemma summary_row_present n r : summary_row fs n = Some r → present fs n.
Proof.
  intros (df & info & Hfile & _)%summary_row_Some.
  unfold present. apply bool_decide_pack. by rewrite Hfile.
Qed.

Lemma present_spec n : present fs n ↔ is_Some (fs !! strategy_filename n).
Proof. unfold present. apply bool_decide_spec. Qed.

(** What a run of the loop that did not raise has computed. *)
Lemma loop_Ok_inv ids rs ad log rs' ad' :
  ui_for ids (load_all_strategies_body fs) (rs, ad) = (log, Ok (rs', ad')) →
  rs' = (rs ++ omap (summary_row fs) ids)%list ∧
  log = missing_warning <$> filter (λ n, ¬ present fs n) ids ∧
  dom ad' = dom ad ∪ list_to_set (filter (present fs) ids) ∧
  Forall (λ n, present fs n → is_Some (summary_row fs n)) ids.
Proof.
  revert rs ad log.
  induction ids as [|n ids IH]; intros rs ad log; cbn [ui_for omap list_omap].
  - intros [= <- <- <-]. rewrite app_nil_r. split_and!; [done..|set_solver|done].
  - intros (log1 & [rs1 ad1] & log2 & Hbody & Hrest & ->)%ui_bind_Ok_inv.
    apply IH in Hrest as (-> & -> & Hdom & Hall).
    apply body_Ok_inv in Hbody
      as [(Hfile & Hrow & -> & -> & ->)|(df & r & Hfile & Hrow & -> & -> & ->)].
    + assert (¬ present fs n) as Hn.
      { rewrite present_spec, Hfile. by intros [? ?]. }
      rewrite Hrow. rewrite (filter_cons_True _ n) by done.
      rewrite (filter_cons_False (present fs)) by done.
      split_and!; [done..|]. constructor; [done|done].
    + assert (present fs n) as Hn.
      { rewrite present_spec, Hfile. by eexists. }
      rewrite Hrow. rewrite (filter_cons_False _ n) by auto.
      rewrite (filter_cons_True (present fs)) by done.
      split_and!.
      * by rewrite <- app_assoc.
      * done.
      * rewrite Hdom, dom_insert_L. set_solver.
      * constructor; [by eexists|done].
Qed.

(** [age_distributions] after a run that did not raise. *)
Lemma loop_tables ids rs ad log rs' ad' n :
  ui_for ids (load_all_strategies_body fs) (rs, ad) = (log, Ok (rs', ad')) →
  ad' !! n = if decide (n ∈ ids) then table_of fs n ∪ ad !! n else ad !! n.
Proof.
  revert rs ad log.
  induction ids as [|k ids IH]; intros rs ad log; cbn [ui_for].
  - intros [= <- <- <-]. case_decide; [set_solver|done].
  - intros (log1 & [rs1 ad1] & log2 & Hbody & Hrest & ->)%ui_bind_Ok_inv.
    rewrite (IH _ _ _ Hrest).
    apply body_Ok_inv in Hbody
      as [(Hfile & _ & _ & _ & ->)|(df & r & Hfile & _ & _ & _ & ->)].
    + destruct (decide (n = k)) as [->|Hne].
      * unfold table_of. rewrite Hfile.
        rewrite (decide_True (P := k ∈ k :: ids)) by set_solver.
        destruct (ad !! k); by case_decide.
      * repeat case_decide; set_solver.
    + destruct (decide (n = k)) as [->|Hne].
      * unfold table_of. rewrite Hfile, lookup_insert_eq.
        rewrite (decide_True (P := k ∈ k :: ids)) by set_solver.
        destruct (ad !! k); by case_decide.
      * rewrite lookup_insert_ne by done. repeat case_decide; set_solver.
Qed.

(** The loop runs to its end when every file is missing or well formed. *)
Lemma loop_total ids rs ad :
  Forall (λ n, resource_ready fs n ∧ is_Some (STRATEGY_DEFINITIONS !! n)) ids →
  ∃ log rs' ad',
    ui_for ids (load_all_strategies_body fs) (rs, ad) = (log, Ok (rs', ad')).
Proof.
  intros Hall. revert rs ad.
  induction Hall as [|n ids [Hready [info Hinfo]] _ IH]; intros rs ad; cbn [ui_for].
  - by eexists _, _, _.
  - unfold resource_ready in Hready.
    destruct (fs !! strategy_filename n) as [[df|]|] eqn:Hfile; [|done|].
    + apply Is_true_eq_true, calculate_metrics_required in Hready.
      destruct (IH (rs ++ [make_result n info (metrics_of df)])%list
                   (<[n:=df]> ad)) as (log & rs' & ad' & Hrest).
      eexists _, _, _. eapply ui_bind_Ok; [|exact Hrest].
      by eapply body_row.
    + destruct (IH rs ad) as (log & rs' & ad' & Hrest).
      eexists _, _, _. eapply ui_bind_Ok; [|exact Hrest].
      by apply body_missing.
Qed.

Lemma map_Strategy_summary_rows ids :
  Forall (λ n, present fs n → is_Some (summary_row fs n)) ids →
  Strategy <$> omap (summary_row fs) ids = filter (present fs) ids.
Proof.
  induction 1 as [|n ids Hn _ IH]; [done|]. simpl.
  destruct (summary_row fs n) as [r|] eqn:Hrow.
  - rewrite filter_cons_True by (by eapply summary_row_present).
    rewrite fmap_cons. f_equal; [by apply summary_row_Strategy|exact IH].
  - rewrite filter_cons_False; [done|].
    intros [? ?]%Hn. done.
Qed.
End Build.

(** ** A list fact *)

Lemma filter_iff_Forall {A} (P Q : A → Prop)
    `{!∀ x, Decision (P x), !∀ x, Decision (Q x)} (l : list A) :
  Forall (λ x, P x ↔ Q x) l → filter P l = filter Q l.
Proof.
  induction 1 as [|x l Hx _ IH]; [done|].
  destruct (decide (P x)).
  - rewrite !filter_cons_True by tauto. by rewrite IH.
  - rewrite !filter_cons_False by tauto. by rewrite IH.
Qed.

(** ** Facts about the catalog, by enumeration *)

Lemma catalog_ids n : n ∈ seq 1 15 → is_Some (STRATEGY_DEFINITIONS !! n).
Proof.
  revert n. apply Forall_forall.
  apply (bool_decide_unpack _). by vm_compute.
Qed.

Lemma catalog_display n info :
  n ∈ seq 1 15 → STRATEGY_DEFINITIONS !! n = Some info → display info = pretty n.
Proof.
  intros Hn Hinfo.
  assert (Forall (λ n, display <$> STRATEGY_DEFINITIONS !! n = Some (pretty n))
            (seq 1 15)) as Hall.
  { apply (bool_decide_unpack _). by vm_compute. }
  rewrite Forall_forall in Hall. specialize (Hall n Hn).
  rewrite Hinfo in Hall. by injection Hall.
Qed.

Lemma sort_key_of_id (n : nat) :
  n ∈ seq 1 15 →
  overview_sort_key (pretty n) = if decide (n ≤ 9)%nat then n else n + 3.
Proof.
  revert n. apply Forall_forall.
  apply (bool_decide_unpack _). by vm_compute.
Qed.

Lemma elem_of_seq_1_15 (n : nat) : n ∈ seq 1 15 ↔ (1 ≤ n ≤ 15)%nat.
Proof. rewrite elem_of_seq. lia. Qed.

(** ** The whole loop *)

Section BuildAll.
Variable fs : gmap string file.

Lemma load_all_strategies_ready :
  all_ready fs = true →
  ∃ log rows ad, load_all_strategies fs = (log, Ok (rows, ad)).
Proof.
  intros Hready. apply loop_total, Forall_forall. intros n Hn. split.
  - apply Is_true_eq_left, forallb_True in Hready.
    rewrite Forall_forall in Hready. by apply Hready.
  - by apply catalog_ids.
Qed.

Lemma load_all_strategies_Ok_inv log rows ad :
  load_all_strategies fs = (log, Ok (rows, ad)) →
  rows = omap (summary_row fs) (seq 1 15) ∧
  log = missing_warning <$> filter (λ n, ¬ present fs n) (seq 1 15) ∧
  dom ad = list_to_set (filter (present fs) (seq 1 15)) ∧
  Strategy <$> rows = filter (present fs) (seq 1 15).
Proof.
  intros (-> & -> & Hdom & Hall)%loop_Ok_inv.
  split_and!; [done..| |by apply map_Strategy_summary_rows].
  rewrite Hdom. set_solver.
Qed.

Lemma load_all_strategies_tables log rows ad n df :
  load_all_strategies fs = (log, Ok (rows, ad)) →
  ad !! n = Some df ↔ n ∈ seq 1 15 ∧ fs !! strategy_filename n = Some (Csv df).
Proof.
  intros Hrun. rewrite (loop_tables fs _ _ _ _ _ _ n Hrun), lookup_empty.
  unfold table_of. case_decide as Hn.
  - destruct (fs !! strategy_filename n) as [[df'|]|]; cbn.
    + split; [by intros [= ->]|by intros [_ [= ->]]].
    + split; [done|by intros [_ ?]].
    + split; [done|by intros [_ ?]].
  - split; [done|by intros [? _]].
Qed.

Lemma load_all_strategies_all_missing ids rs ad :
  (∀ n, n ∈ ids → fs !! strategy_filename n = None) →
  ui_for ids (load_all_strategies_body fs) (rs, ad)
  = (missing_warning <$> ids, Ok (rs, ad)).
Proof.
  revert rs ad. induction ids as [|n ids IH]; intros rs ad Hmissing; [done|].
  cbn [ui_for fmap list_fmap]. apply (ui_bind_Ok _ _ [missing_warning n] (rs, ad)).
  - apply body_missing, Hmissing. set_solver.
  - apply IH. intros k Hk. apply Hmissing. set_solver.
Qed.

Lemma summary_rows_elem r :
  r ∈ omap (summary_row fs) (seq 1 15) →
  Strategy r ∈ seq 1 15 ∧ summary_row fs (Strategy r) = Some r.
Proof.
  intros (n & Hn & Hrow)%list_elem_of_omap.
  by rewrite (summary_row_Strategy fs n r Hrow).
Qed.

Lemma summary_row_Display n r :
  n ∈ seq 1 15 → summary_row fs n = Some r → Display r = pretty n.
Proof.
  intros Hn (df & info & _ & Hinfo & _ & ->)%summary_row_Some.
  simpl. by apply catalog_display.
Qed.
End BuildAll.

(** ** Missing files *)

(** C4, as stated, fails: with the file of strategy 1 missing and the file
    of strategy 2 holding the [Age] column only, strategy 2 loads, and the
    [KeyError] of [calculate_metrics] then ends the loop, so that no summary
    comes back. *)
Lemma load_all_strategies_age_only_raises :
  load_strategy_data missing_and_age_only 1 = ([missing_warning 1], Ok None) ∧
  load_strategy_data missing_and_age_only 2 = ([], Ok (Some age_only)) ∧
  load_all_strategies missing_and_age_only
  = ([missing_warning 1], Raise (KeyError "Cancer")) ∧
  ¬ ∃ log rows ad,
      load_all_strategies missing_and_age_only = (log, Ok (rows, ad)).
Proof.
  assert (load_all_strategies missing_and_age_only
          = ([missing_warning 1], Raise (KeyError "Cancer"))) as Hraise.
  { by vm_compute. }
  split_and!; [by vm_compute..|done|].
  intros (log & rows & ad & Hok). rewrite Hraise in Hok. discriminate Hok.
Qed.

(** C4, amended: [load_strategy_data] returns [None], after a warning, for
    the strategies whose file is missing and for no other.  When every file
    that exists parses and carries Cancer, Cancer death and Population, the
    loop passes each missing one: it returns a summary with one row per
    strategy whose file exists, in ascending id order, each row holding the
    metrics of that strategy's table. *)
Theorem load_all_strategies_skips_missing (fs : gmap string file) :
  all_ready fs = true →
  (∀ n, fs !! strategy_filename n = None →
        load_strategy_data fs n = ([missing_warning n], Ok None)) ∧
  (∀ n log, load_strategy_data fs n = (log, Ok None) →
            fs !! strategy_filename n = None) ∧
  ∃ log rows ad,
    load_all_strategies fs = (log, Ok (rows, ad)) ∧
    log = missing_warning <$> filter (λ n, ¬ present fs n) (seq 1 15) ∧
    Strategy <$> rows = filter (present fs) (seq 1 15) ∧
    ∀ r, r ∈ rows →
      ∃ df info,
        fs !! strategy_filename (Strategy r) = Some (Csv df) ∧
        STRATEGY_DEFINITIONS !! Strategy r = Some info ∧
        calculate_metrics (Some df) = Ok (Some (row_metrics r)) ∧
        r = make_result (Strategy r) info (row_metrics r).
Proof.
  intros Hready. split_and!.
  - apply load_strategy_data_missing.
  - apply load_strategy_data_None_inv.
  - destruct (load_all_strategies_ready fs Hready) as (log & rows & ad & Hrun).
    exists log, rows, ad.
    destruct (load_all_strategies_Ok_inv fs log rows ad Hrun)
      as (Hrows & Hlog & _ & Hids).
    split_and!; [done..|]. intros r Hr. rewrite Hrows in Hr.
    apply summary_rows_elem in Hr as [_ Hr]. by apply summary_row_Some.
Qed.

Lemma load_all_strategies_skips_missing_witness :
  all_ready one_missing = true ∧
  ∃ log rows ad,
    load_all_strategies one_missing = (log, Ok (rows, ad)) ∧
    log = [missing_warning 2] ∧
    Strategy <$> rows = [1; 3; 4; 5; 6; 7; 8; 9; 10; 11; 12; 13; 14; 15].
Proof.
  split; [by vm_compute|].
  destruct (load_all_strategies_skips_missing one_missing)
    as (_ & _ & log & rows & ad & Hrun & Hlog & Hids & _); [by vm_compute|].
  exists log, rows, ad. split_and!; [done|..].
  - rewrite Hlog. by vm_compute.
  - rewrite Hids. by vm_compute.
Defined.

(** ** What comes back with the summary *)

(** C5, as stated, fails: what [load_all_strategies] returns next to the
    summary is [age_distributions], keyed by the strategies that were
    loaded.  With the file of strategy 2 missing, that id is not among its
    keys, and the keys are not the singleton of 2. *)
Lemma load_all_strategies_returns_loaded_tables :
  ∃ log rows ad,
    load_all_strategies one_missing = (log, Ok (rows, ad)) ∧
    length rows = 14 ∧
    (2 ∉ dom ad) ∧ 1 ∈ dom ad ∧ dom ad ≠ {[2]}.
Proof.
  destruct (load_all_strategies_ready one_missing) as (log & rows & ad & Hrun);
    [by vm_compute|].
  exists log, rows, ad.
  destruct (load_all_strategies_Ok_inv _ _ _ _ Hrun) as (_ & _ & Hdom & Hids).
  assert (filter (present one_missing) (seq 1 15)
          = [1; 3; 4; 5; 6; 7; 8; 9; 10; 11; 12; 13; 14; 15]) as Hpresent.
  { by vm_compute. }
  rewrite Hpresent in Hdom, Hids.
  assert (1 ∈ dom ad) as Hin.
  { rewrite Hdom, elem_of_list_to_set. apply list_elem_of_here. }
  assert (2 ∉ dom ad) as Hnotin.
  { rewrite Hdom, elem_of_list_to_set. apply (bool_decide_unpack _). by vm_compute. }
  split_and!; [done| |done..|].
  - by rewrite <- (length_fmap Strategy), Hids.
  - intros Heq. rewrite Heq in Hin. by apply elem_of_singleton in Hin.
Qed.

(** C5, amended: next to the summary [load_all_strategies] returns the
    tables of the strategies that were loaded, keyed by id; the skipped ids
    are those of 1..15 that are not among its keys.  When the file of exactly
    one of the fifteen strategies is missing and every other file parses and
    carries Cancer, Cancer death and Population, the summary has 14 rows, one
    warning names the missing file, and the ids of 1..15 without a key are
    the singleton of that id. *)
Theorem load_all_strategies_one_missing (fs : gmap string file) (k : nat) :
  all_ready fs = true →
  k ∈ seq 1 15 →
  (∀ n, n ∈ seq 1 15 → fs !! strategy_filename n = None ↔ n = k) →
  ∃ log rows ad,
    load_all_strategies fs = (log, Ok (rows, ad)) ∧
    (∀ n df, ad !! n = Some df ↔
       n ∈ seq 1 15 ∧ fs !! strategy_filename n = Some (Csv df)) ∧
    log = [missing_warning k] ∧
    length rows = 14 ∧
    Strategy <$> rows = filter (λ n, n ≠ k) (seq 1 15) ∧
    (∀ n, n ∈ dom ad ↔ n ∈ seq 1 15 ∧ n ≠ k) ∧
    list_to_set (seq 1 15) ∖ dom ad = ({[k]} : gset nat).
Proof.
  intros Hready Hk Hmissing.
  destruct (load_all_strategies_ready fs Hready) as (log & rows & ad & Hrun).
  exists log, rows, ad.
  destruct (load_all_strategies_Ok_inv _ _ _ _ Hrun) as (_ & Hlog & Hdom & Hids).
  assert (∀ n, n ∈ seq 1 15 → present fs n ↔ n ≠ k) as Hpresent.
  { intros n Hn. rewrite present_spec, <- not_eq_None_Some.
    by rewrite (Hmissing n Hn). }
  assert (filter (present fs) (seq 1 15) = filter (λ n, n ≠ k) (seq 1 15)) as Hp.
  { apply filter_iff_Forall. by apply Forall_forall. }
  assert (filter (λ n, ¬ present fs n) (seq 1 15) = filter (λ n, n = k) (seq 1 15))
    as Hnp.
  { apply filter_iff_Forall, Forall_forall. intros n Hn.
    rewrite (Hpresent n Hn). destruct (decide (n = k)); naive_solver. }
  rewrite Hp in Hdom, Hids. rewrite Hnp in Hlog.
  assert (filter (λ n, n = k) (seq 1 15) = [k] ∧
          length (filter (λ n, n ≠ k) (seq 1 15)) = 14) as [Hone Hlen].
  { clear -Hk. repeat (apply elem_of_cons in Hk as [->|Hk]; [by vm_compute|]).
    by apply elem_of_nil in Hk. }
  assert (∀ n, n ∈ dom ad ↔ n ∈ seq 1 15 ∧ n ≠ k) as Hkeys.
  { intros n. rewrite Hdom, elem_of_list_to_set, list_elem_of_filter. tauto. }
  split_and!; [done| | | |done|done|].
  - intros n df. by apply (load_all_strategies_tables fs log rows).
  - by rewrite Hlog, Hone.
  - by rewrite <- (length_fmap Strategy), Hids.
  - apply set_eq. intros n.
    rewrite elem_of_difference, elem_of_list_to_set, Hkeys, elem_of_singleton.
    split; [|by intros ->; tauto].
    intros [Hn Hnot]. destruct (decide (n = k)); tauto.
Qed.

Lemma load_all_strategies_one_missing_witness :
  ∃ log rows ad,
    load_all_strategies one_missing = (log, Ok (rows, ad)) ∧
    log = [missing_warning 2] ∧ length rows = 14 ∧
    list_to_set (seq 1 15) ∖ dom ad = ({[2]} : gset nat).
Proof.
  destruct (load_all_strategies_one_missing one_missing 2)
    as (log & rows & ad & Hrun & _ & Hlog & Hlen & _ & _ & Hskipped).
  - by vm_compute.
  - set_solver.
  - apply Forall_forall, (bool_decide_unpack _). by vm_compute.
  - exists log, rows, ad. split_and!; assumption.
Defined.

(** ** No data at all *)

(** C6: when the file of every strategy is missing, the summary has no rows
    and [main], after the fifteen warnings, shows the no-data error and
    returns before any presentation code; in the other direction, [main]
    stops there only on a summary without rows, and whenever it goes on to
    the presentation the summary has a row and no error was shown. *)
Theorem main_no_data (fs : gmap string file) :
  (∀ n, n ∈ seq 1 15 → fs !! strategy_filename n = None) →
  load_all_strategies fs = (missing_warning <$> seq 1 15, Ok ([], ∅)) ∧
  main fs
  = ([StTitle; StMarkdown] ++ (missing_warning <$> seq 1 15)
       ++ [StError no_data_message], Ok NoData)%list ∧
  (∀ fs' log, main fs' = (log, Ok NoData) →
     (∃ log' ad, load_all_strategies fs' = (log', Ok ([], ad))) ∧
     StError no_data_message ∈ log) ∧
  (∀ fs' log df ad, main fs' = (log, Ok (Presentation df ad)) →
     df ≠ [] ∧ StError no_data_message ∉ log).
Proof.
  intros Hmissing.
  assert (load_all_strategies fs = (missing_warning <$> seq 1 15, Ok ([], ∅)))
    as Hrun by by apply load_all_strategies_all_missing.
  split_and!; [done|by unfold main; rewrite Hrun|..].
  - intros fs' log. unfold main.
    destruct (load_all_strategies fs') as [log' [[[|r df] ad]|e]] eqn:Hrun';
      ui_step; [|done..].
    intros [= <-]. split; [by eexists _, _|]. set_solver.
  - intros fs' log df ad. unfold main.
    destruct (load_all_strategies fs') as [log' [[[|r df'] ad']|e]] eqn:Hrun';
      ui_step; [done| |done].
    intros [= <- <- <-]. split; [done|].
    apply load_all_strategies_Ok_inv in Hrun' as (_ & -> & _).
    rewrite app_nil_r. unfold missing_warning.
    rewrite !elem_of_cons, list_elem_of_fmap. naive_solver.
Qed.

Lemma main_no_data_witness :
  main ∅
  = ([StTitle; StMarkdown] ++ (missing_warning <$> seq 1 15)
       ++ [StError no_data_message], Ok NoData)%list.
Proof.
  apply (main_no_data ∅). intros n _. apply lookup_empty.
Defined.

(** ** No data for one strategy *)

(** C9: [calculate_metrics] on [None] returns [None], and on a table it
    never does; in a summary that [load_all_strategies] returns, a strategy
    whose file is missing has no row and no table, while every strategy of
    1..15 whose file was read has a row with the metrics of its table, be
    they all zero. *)
Theorem no_data_is_no_row :
  calculate_metrics None = Ok None ∧
  (∀ df, calculate_metrics (Some df) ≠ Ok None) ∧
  (∀ fs n log rows ad,
     load_all_strategies fs = (log, Ok (rows, ad)) →
     fs !! strategy_filename n = None →
     (n ∉ Strategy <$> rows) ∧ ad !! n = None) ∧
  (∀ fs n df log rows ad,
     load_all_strategies fs = (log, Ok (rows, ad)) →
     n ∈ seq 1 15 → fs !! strategy_filename n = Some (Csv df) →
     ∃ r, r ∈ rows ∧ Strategy r = n ∧
          calculate_metrics (Some df) = Ok (Some (row_metrics r))).
Proof.
  split_and!; [done|apply calculate_metrics_never_None|..].
  - intros fs n log rows ad Hrun Hmissing.
    destruct (load_all_strategies_Ok_inv _ _ _ _ Hrun) as (_ & _ & Hdom & Hids).
    assert (¬ present fs n) as Hn.
    { rewrite present_spec, Hmissing. by intros [? ?]. }
    split.
    + rewrite Hids, list_elem_of_filter. tauto.
    + apply not_elem_of_dom.
      rewrite Hdom, elem_of_list_to_set, list_elem_of_filter. tauto.
  - intros fs n df log rows ad Hrun Hn Hfile.
    destruct (load_all_strategies_Ok_inv _ _ _ _ Hrun) as (Hrows & _ & _ & Hids).
    assert (n ∈ Strategy <$> rows) as Hin.
    { rewrite Hids, list_elem_of_filter, present_spec, Hfile. by split; [eexists|]. }
    apply list_elem_of_fmap in Hin as (r & -> & Hr). exists r.
    split_and!; [done..|]. rewrite Hrows in Hr.
    apply summary_rows_elem in Hr as [_ Hr].
    apply summary_row_Some in Hr as (df' & info & Hfile' & _ & Hm & _).
    by simplify_eq.
Qed.

Lemma no_data_is_no_row_witness :
  ∃ log rows ad,
    load_all_strategies zeros_and_missing = (log, Ok (rows, ad)) ∧
    (2 ∉ Strategy <$> rows) ∧ ad !! 2 = None ∧
    ∃ r, r ∈ rows ∧ Strategy r = 1 ∧
         calculate_metrics (Some all_zero) = Ok (Some (row_metrics r)) ∧
         total_cancers (row_metrics r) = 0%Qc ∧
         case_fatality_rate (row_metrics r) = 0%Qc.
Proof.
  destruct (load_all_strategies_ready zeros_and_missing)
    as (log & rows & ad & Hrun); [by vm_compute|].
  exists log, rows, ad.
  destruct no_data_is_no_row as (_ & _ & Hmissing & Hread).
  destruct (Hmissing zeros_and_missing 2 log rows ad Hrun) as [Hrow Had];
    [by vm_compute|].
  destruct (Hread zeros_and_missing 1 all_zero log rows ad Hrun)
    as (r & Hr & Hid & Hm); [apply list_elem_of_here|by vm_compute|].
  split_and!; [assumption..|]. exists r. split_and!; [assumption..| |].
  - rewrite calculate_metrics_required in Hm by done.
    injection Hm as <-. apply Qc_is_canon. reflexivity.
  - rewrite calculate_metrics_required in Hm by done.
    injection Hm as <-. apply Qc_is_canon. reflexivity.
Defined.

(** ** Display labels *)

Lemma summary_rows_label (fs : gmap string file) log rows ad r :
  load_all_strategies fs = (log, Ok (rows, ad)) →
  r ∈ rows →
  Strategy r ∈ seq 1 15 ∧ Display r = pretty (Strategy r).
Proof.
  intros (-> & _)%load_all_strategies_Ok_inv Hr.
  apply summary_rows_elem in Hr as [Hid Hrow].
  split; [done|]. by apply (summary_row_Display fs).
Qed.

(** C10: for every id of 1..15 the catalog entry exists and its display
    label is the decimal string of the id, while the display sort key of
    that label is the id up to 9 and the id plus 3 above; every row of a
    summary that [load_all_strategies] returns has an id of 1..15 and the
    decimal string of that id as its label. *)
Theorem display_label_is_id :
  (∀ n : nat, (1 ≤ n ≤ 15)%nat →
     ∃ info,
       STRATEGY_DEFINITIONS !! n = Some info ∧
       display info = pretty n ∧
       overview_sort_key (display info)
       = (if decide (n ≤ 9)%nat then n else n + 3)) ∧
  (∀ fs log rows ad r,
     load_all_strategies fs = (log, Ok (rows, ad)) →
     r ∈ rows →
     (1 ≤ Strategy r ≤ 15)%nat ∧ Display r = pretty (Strategy r) ∧
     ∃ info, STRATEGY_DEFINITIONS !! Strategy r = Some info ∧
             Display r = display info).
Proof.
  split.
  - intros n Hn%elem_of_seq_1_15.
    destruct (catalog_ids n Hn) as [info Hinfo]. exists info.
    pose proof (catalog_display n info Hn Hinfo) as Hdisplay.
    split_and!; [done..|]. rewrite Hdisplay. by apply sort_key_of_id.
  - intros fs log rows ad r Hrun Hr.
    destruct (summary_rows_label fs log rows ad r Hrun Hr) as [Hid Hlabel].
    split_and!; [by apply elem_of_seq_1_15..|done|].
    destruct (catalog_ids _ Hid) as [info Hinfo]. exists info.
    split; [done|]. by rewrite Hlabel, (catalog_display _ info Hid Hinfo).
Qed.

Lemma display_label_is_id_witness :
  (∃ info,
     STRATEGY_DEFINITIONS !! 10 = Some info ∧
     display info = "10" ∧ overview_sort_key (display info) = 13) ∧
  ∃ log rows ad,
    load_all_strategies one_missing = (log, Ok (rows, ad)) ∧
    Forall (λ r, Display r = pretty (Strategy r)) rows.
Proof.
  destruct display_label_is_id as [Hcatalog Hrows]. split.
  - destruct (Hcatalog 10) as (info & Hinfo & Hdisplay & Hkey); [lia|].
    exists info. split_and!; [exact Hinfo|exact Hdisplay|exact Hkey].
  - destruct (load_all_strategies_ready one_missing)
      as (log & rows & ad & Hrun); [by vm_compute|].
    exists log, rows, ad. split; [exact Hrun|].
    apply Forall_forall. intros r Hr.
    by destruct (Hrows one_missing log rows ad r Hrun Hr) as (_ & ? & _).
Defined.

(** * Properties of the display orders *)

Section SortValues.
Context {A : Type} (key : A → nat).

Lemma insert_sorted_fmap {B} (f : B → A) (x : B) (l : list B) :
  insert_sorted key (f x) (f <$> l) = f <$> insert_sorted (key ∘ f) x l.
Proof.
  induction l as [|y l IH]; [done|]. cbn [fmap list_fmap insert_sorted].
  unfold compose at 1 2. destruct (key (f x) <=? key (f y))%nat; [done|].
  rewrite fmap_cons. f_equal. exact IH.
Qed.

Lemma sort_values_fmap {B} (f : B → A) (l : list B) :
  sort_values key (f <$> l) = f <$> sort_values (key ∘ f) l.
Proof.
  induction l as [|x l IH]; [done|]. unfold sort_values in *.
  cbn [fmap list_fmap foldr]. fold (f <$> l). rewrite IH.
  apply insert_sorted_fmap.
Qed.

(** Sorting a frame that is in key order leaves it as it is. *)
Lemma sort_values_sorted (l : list A) :
  StronglySorted (λ a b, (key a ≤ key b)%nat) l → sort_values key l = l.
Proof.
  induction 1 as [|x l _ IH Hx]; [done|]. unfold sort_values in *.
  cbn [foldr]. rewrite IH. destruct Hx as [|y l Hxy _]; [done|].
  cbn [insert_sorted]. by rewrite (proj2 (Nat.leb_le _ _) Hxy).
Qed.
End SortValues.

Lemma StronglySorted_impl_elem {A} (R1 R2 : relation A) (l : list A) :
  (∀ x y, x ∈ l → y ∈ l → R1 x y → R2 x y) →
  StronglySorted R1 l → StronglySorted R2 l.
Proof.
  intros Himpl Hsorted. induction Hsorted as [|x l _ IH Hx]; constructor.
  - apply IH. intros y z Hy Hz. apply Himpl; set_solver.
  - rewrite Forall_forall in *. intros y Hy. apply Himpl; set_solver.
Qed.

Section SummaryOrder.
Variable fs : gmap string file.

Lemma summary_rows_sorted ids :
  StronglySorted lt ids →
  StronglySorted (λ r1 r2, (Strategy r1 < Strategy r2)%nat)
    (omap (summary_row fs) ids).
Proof.
  induction 1 as [|n ids _ IH Hn]; [constructor|].
  cbn [omap list_omap]. fold (omap (summary_row fs) ids).
  destruct (summary_row fs n) as [r|] eqn:Hrow; [|done].
  constructor; [done|]. apply Forall_forall.
  intros r' (n' & Hn' & Hrow')%list_elem_of_omap.
  rewrite (summary_row_Strategy fs n r Hrow).
  rewrite (summary_row_Strategy fs n' r' Hrow').
  rewrite Forall_forall in Hn. by apply Hn.
Qed.

Lemma load_all_strategies_sorted log rows ad :
  load_all_strategies fs = (log, Ok (rows, ad)) →
  StronglySorted (λ r1 r2, (Strategy r1 ≤ Strategy r2)%nat) rows ∧
  StronglySorted
    (λ r1 r2, (overview_sort_key (Display r1)
               ≤ overview_sort_key (Display r2))%nat) rows.
Proof.
  intros Hrun.
  assert (StronglySorted (λ r1 r2, (Strategy r1 < Strategy r2)%nat) rows)
    as Hsorted.
  { apply load_all_strategies_Ok_inv in Hrun as (-> & _).
    apply summary_rows_sorted. apply (bool_decide_unpack _). by vm_compute. }
  split; (eapply StronglySorted_impl_elem; [|exact Hsorted]).
  - cbn beta. lia.
  - intros r1 r2 Hr1 Hr2 Hlt.
    destruct (summary_rows_label fs log rows ad r1 Hrun Hr1) as [Hid1 ->].
    destruct (summary_rows_label fs log rows ad r2 Hrun Hr2) as [Hid2 ->].
    rewrite !sort_key_of_id by done. cbn beta in Hlt. repeat case_decide; lia.
Qed.
End SummaryOrder.

Lemma overview_table_labels (df : list result_row) :
  ov_Strategy <$> create_strategy_overview_table df
  = Display <$> sort_values (overview_sort_key ∘ Display) df.
Proof.
  unfold create_strategy_overview_table.
  rewrite (sort_values_fmap (λ r, overview_sort_key (ov_Strategy r))).
  by rewrite <- list_fmap_compose.
Qed.

Lemma detailed_table_labels (df : list result_row) :
  dt_Strategy <$> detailed_comparison_table df
  = Display <$> sort_values (detailed_sort_key ∘ Display) df.
Proof.
  unfold detailed_comparison_table.
  rewrite (sort_values_fmap (λ r, detailed_sort_key (dt_Strategy r))).
  by rewrite <- list_fmap_compose.
Qed.

(** ** The display sort key *)

(** C7, as stated, fails: [create_main_analysis_charts] orders the bars by
    the ['Strategy'] column and not by the display sort key.  On the row of
    strategy 10 its key is 10, where the key of the two tables is 13. *)
Lemma main_analysis_charts_sort_by_id :
  ∃ log rows ad r,
    load_all_strategies full_directory = (log, Ok (rows, ad)) ∧
    r ∈ rows ∧ Strategy r = 10 ∧ Display r = "10" ∧
    main_analysis_sort_key r = 10 ∧
    overview_sort_key (Display r) = 13 ∧
    detailed_sort_key (Display r) = 13 ∧
    main_analysis_sort_key r ≠ overview_sort_key (Display r).
Proof.
  destruct (load_all_strategies_ready full_directory)
    as (log & rows & ad & Hrun); [by vm_compute|].
  assert (10 ∈ Strategy <$> rows) as Hin.
  { apply load_all_strategies_Ok_inv in Hrun as (_ & _ & _ & ->).
    apply (bool_decide_unpack _). by vm_compute. }
  apply list_elem_of_fmap in Hin as (r & Hid & Hr).
  destruct (summary_rows_label _ _ _ _ r Hrun Hr) as [_ Hlabel].
  exists log, rows, ad, r. unfold main_analysis_sort_key.
  rewrite Hlabel, <- Hid. split_and!; [done..|].
  by vm_compute.
Qed.

(** C7, amended: the strategy-overview table and the detailed-comparison
    table each sort by their own copy of one and the same key: a label of
    digits whose value is at most 9 is keyed by that value, one whose value
    exceeds 9 by the value plus 3, any other label by 999.  The label "5" has
    key 5 and the label "10" has key 13, and sorting by ['Strategy'] puts id
    5 before id 10.  The orderings of the two tables agree on every summary.
    [create_main_analysis_charts] sorts by ['Strategy'] instead, which on
    every summary that [load_all_strategies] returns yields the order of the
    two tables. *)
Theorem display_sort_key_rule (x : string) (df : list result_row) :
  overview_sort_key x = detailed_sort_key x ∧
  (isdigit x = true → (int x ≤ 9)%nat → overview_sort_key x = int x) ∧
  (isdigit x = true → (9 < int x)%nat → overview_sort_key x = int x + 3) ∧
  (isdigit x = false → overview_sort_key x = 999) ∧
  overview_sort_key "5" = 5 ∧ overview_sort_key "10" = 13 ∧
  (∀ r5 r10, Strategy r5 = 5 → Strategy r10 = 10 →
     main_analysis_order [r10; r5] = [r5; r10]) ∧
  ov_Strategy <$> create_strategy_overview_table df
  = dt_Strategy <$> detailed_comparison_table df ∧
  (∀ fs log ad, load_all_strategies fs = (log, Ok (df, ad)) →
     Display <$> main_analysis_order df
     = ov_Strategy <$> create_strategy_overview_table df ∧
     ov_Strategy <$> create_strategy_overview_table df = Display <$> df).
Proof.
  split_and!.
  - done.
  - intros Hdigit Hle. unfold overview_sort_key.
    by rewrite Hdigit, (proj2 (Nat.leb_le _ _) Hle).
  - intros Hdigit Hgt. unfold overview_sort_key. rewrite Hdigit.
    by rewrite (proj2 (Nat.leb_gt _ _) Hgt).
  - intros Hdigit. unfold overview_sort_key. by rewrite Hdigit.
  - done.
  - done.
  - intros r5 r10 H5 H10.
    unfold main_analysis_order, sort_values, main_analysis_sort_key.
    cbn [foldr insert_sorted]. by rewrite H5, H10.
  - by rewrite overview_table_labels, detailed_table_labels.
  - intros fs log ad Hrun. rewrite overview_table_labels.
    destruct (load_all_strategies_sorted fs log df ad Hrun) as [Hid Hkey].
    unfold main_analysis_order.
    rewrite (sort_values_sorted main_analysis_sort_key df Hid).
    by rewrite (sort_values_sorted (overview_sort_key ∘ Display) df Hkey).
Qed.

Lemma display_sort_key_rule_witness :
  isdigit "12" = true ∧ (9 < int "12")%nat ∧ overview_sort_key "12" = 15 ∧
  ∃ log rows ad,
    load_all_strategies one_missing = (log, Ok (rows, ad)) ∧
    Display <$> main_analysis_order rows
    = ov_Strategy <$> create_strategy_overview_table rows ∧
    ov_Strategy <$> create_strategy_overview_table rows = Display <$> rows.
Proof.
  destruct (load_all_strategies_ready one_missing)
    as (log & rows & ad & Hrun); [by vm_compute|].
  destruct (display_sort_key_rule "12" rows)
    as (_ & _ & Hgt & _ & _ & _ & _ & _ & Horder).
  assert (9 < int "12")%nat as H12 by (apply Nat.ltb_lt; reflexivity).
  split_and!; [reflexivity|exact H12| |].
  - apply Hgt; [reflexivity|exact H12].
  - exists log, rows, ad. split; [exact Hrun|]. exact (Horder _ _ _ Hrun).
Defined.

(** * Further properties of calculate_metrics *)

Lemma calculate_metrics_first_missing (df : DataFrame) :
  calculate_metrics (Some df)
  = match list_find (λ c, c ∉ columns df) required_columns with
    | Some (_, c) => Raise (KeyError c)
    | None => Ok (Some (metrics_of df))
    end.
Proof.
  unfold required_columns. cbn [list_find].
  destruct (decide ("Cancer" ∈ columns df)) as [Hc|Hc];
    [rewrite (decide_False (P := "Cancer" ∉ columns df)) by auto
    |rewrite (decide_True (P := "Cancer" ∉ columns df)) by done]; cbn.
  2: { unfold calculate_metrics.
       by rewrite (column_sum_absent df "Cancer") by done. }
  destruct (decide ("Cancer death" ∈ columns df)) as [Hd|Hd];
    [rewrite (decide_False (P := "Cancer death" ∉ columns df)) by auto
    |rewrite (decide_True (P := "Cancer death" ∉ columns df)) by done]; cbn.
  2: { unfold calculate_metrics.
       rewrite (column_sum_present df "Cancer") by done.
       by rewrite (column_sum_absent df "Cancer death") by done. }
  destruct (decide ("Population" ∈ columns df)) as [Hp|Hp];
    [rewrite (decide_False (P := "Population" ∉ columns df)) by auto
    |rewrite (decide_True (P := "Population" ∉ columns df)) by done]; cbn.
  2: { unfold calculate_metrics.
       rewrite (column_sum_present df "Cancer") by done.
       rewrite (column_sum_present df "Cancer death") by done.
       by rewrite (column_sum_absent df "Population") by done. }
  apply calculate_metrics_required. by apply has_required_columns_elem.
Qed.

(** X1: on a table, [calculate_metrics] raises exactly when one of Cancer,
    Cancer death and Population is absent, and the [KeyError] names the first
    absent one in that order; otherwise it returns the record of the column
    totals and rates.  The six guarded columns never make it raise. *)
Theorem calculate_metrics_outcome (df : DataFrame) :
  calculate_metrics (Some df)
  = match list_find (λ c, c ∉ columns df) required_columns with
    | Some (_, c) => Raise (KeyError c)
    | None => Ok (Some (metrics_of df))
    end.
Proof. apply calculate_metrics_first_missing. Qed.

Lemma series_sum_zeros (s : list Qc) :
  Forall (λ v, v = 0%Qc) s → series_sum s = 0%Qc.
Proof.
  induction 1 as [|v s -> _ IH]; [done|].
  unfold series_sum in *. cbn [foldr]. by rewrite IH, Qcplus_0_l.
Qed.

(** X2: a table that has the three required columns and only zeros in every
    column other than Age gets a record in which all nine totals and all
    three rates are 0. *)
Theorem calculate_metrics_all_zero (df : DataFrame) :
  has_required_columns df = true →
  (∀ c, c ≠ "Age" → Forall (λ v, v = 0%Qc) (column_cells df c)) →
  ∃ m, calculate_metrics (Some df) = Ok (Some m) ∧
    total_cancers m = 0%Qc ∧ total_cancer_deaths m = 0%Qc ∧
    total_life_years m = 0%Qc ∧ total_tests m = 0%Qc ∧
    total_cyto m = 0%Qc ∧ total_hpv m = 0%Qc ∧ total_cotest m = 0%Qc ∧
    total_cin2_detected m = 0%Qc ∧ total_cin3_detected m = 0%Qc ∧
    case_fatality_rate m = 0%Qc ∧ cancer_rate_per_100k m = 0%Qc ∧
    death_rate_per_100k m = 0%Qc.
Proof.
  intros Hreq Hzero. exists (metrics_of df).
  split; [by apply calculate_metrics_required|].
  assert (∀ c, c ≠ "Age" → column_total df c = 0%Qc) as Htotal.
  { intros c Hc. by apply series_sum_zeros, Hzero. }
  unfold metrics_of. rewrite !Htotal by done. by vm_compute.
Qed.

Lemma calculate_metrics_all_zero_witness :
  ∃ m, calculate_metrics (Some all_zero) = Ok (Some m) ∧
       total_cancers m = 0%Qc ∧ case_fatality_rate m = 0%Qc ∧
       death_rate_per_100k m = 0%Qc.
Proof.
  destruct (calculate_metrics_all_zero all_zero) as (m & Hm & H).
  - reflexivity.
  - intros c Hc. unfold column_cells, get_column. cbn [columns all_zero list_find].
    repeat (case_decide; [subst; cbn; try done;
                          repeat constructor; by apply Qc_is_canon|cbn]).
    constructor.
  - exists m. naive_solver.
Defined.

Section Int64Append.
Implicit Types (c : string) (cols : list string) (rs : list (list Machine.cell)).

Lemma machine_with_rates_totals (tc td tl tt cy hp co k2 k3 : Machine.scalar) :
  let m := Machine.with_rates tc td tl tt cy hp co k2 k3 in
  Machine.total_cancers m = tc ∧ Machine.total_cancer_deaths m = td ∧
  Machine.total_life_years m = tl ∧ Machine.total_tests m = tt ∧
  Machine.total_cyto m = cy ∧ Machine.total_hpv m = hp ∧
  Machine.total_cotest m = co ∧ Machine.total_cin2_detected m = k2 ∧
  Machine.total_cin3_detected m = k3.
Proof. unfold Machine.with_rates. by destruct (Machine.gt_zero tl). Qed.

Lemma column_sum_int64_app cols rs1 rs2 c :
  Machine.all_int64 {| Machine.columns := cols; Machine.records := rs1 |} = true →
  Machine.all_int64 {| Machine.columns := cols; Machine.records := rs2 |} = true →
  c ∈ cols →
  ∃ a b,
    Machine.column_sum {| Machine.columns := cols; Machine.records := rs1 |} c
    = Ok (Machine.Int64 a) ∧
    Machine.column_sum {| Machine.columns := cols; Machine.records := rs2 |} c
    = Ok (Machine.Int64 b) ∧
    Machine.column_sum
      {| Machine.columns := cols; Machine.records := (rs1 ++ rs2)%list |} c
    = Ok (Machine.Int64 (Machine.wrap64 (a + b))).
Proof.
  intros Hall1 Hall2 Hc.
  unfold Machine.column_sum, Machine.get_column. cbn [Machine.columns Machine.records].
  destruct (list_find (λ x, x = c) cols) as [[i x]|] eqn:Hfind.
  2:{ apply list_find_None in Hfind. rewrite Forall_forall in Hfind.
      by destruct (Hfind c Hc). }
  assert (x = c) as -> by (by apply list_find_Some in Hfind as (_ & -> & _)).
  destruct (all_int64_column _ c i Hall1 Hfind) as [Hne1 Hint1].
  destruct (all_int64_column _ c i Hall2 Hfind) as [Hne2 Hint2].
  cbn [Machine.columns Machine.records] in Hne1, Hint1, Hne2, Hint2.
  rewrite fmap_app.
  rewrite (infer_dtype_int64 _ Hne1 Hint1), (infer_dtype_int64 _ Hne2 Hint2).
  rewrite infer_dtype_int64.
  2:{ intros [E _]%app_eq_nil. by apply Hne1. }
  2:{ by rewrite forallb_app, Hint1, Hint2. }
  cbn [mbind result_bind mret result_ret].
  rewrite omap_app, !int64_sum_spec, Z_sum_app.
  do 2 eexists. split_and!; [reflexivity|reflexivity|].
  by rewrite wrap64_add_l, wrap64_add_r.
Qed.

Lemma column_sum_or_zero_int64_app cols rs1 rs2 c :
  Machine.all_int64 {| Machine.columns := cols; Machine.records := rs1 |} = true →
  Machine.all_int64 {| Machine.columns := cols; Machine.records := rs2 |} = true →
  ∃ x y z,
    Machine.column_sum_or_zero
      {| Machine.columns := cols; Machine.records := rs1 |} c = Ok x ∧
    Machine.column_sum_or_zero
      {| Machine.columns := cols; Machine.records := rs2 |} c = Ok y ∧
    Machine.column_sum_or_zero
      {| Machine.columns := cols; Machine.records := (rs1 ++ rs2)%list |} c = Ok z ∧
    Machine.add_totals x y = Some z.
Proof.
  intros Hall1 Hall2. unfold Machine.column_sum_or_zero, Machine.has_column.
  cbn [Machine.columns]. case_bool_decide as Hc.
  - destruct (column_sum_int64_app cols rs1 rs2 c Hall1 Hall2 Hc)
      as (a & b & -> & -> & ->).
    by eexists _, _, _.
  - by eexists _, _, _.
Qed.

End Int64Append.

(** X3: the nine totals are additive over the records modulo 2^64: for two
    tables with one header that has the three required columns, all columns
    of dtype int64, each total of the table holding the records of both is
    the int64 sum of the two tables' totals, and the total of a column that
    the header lacks is the integer 0 in all three. *)
Theorem calculate_metrics_additive (cols : list string)
    (rs1 rs2 : list (list Machine.cell)) :
  let df1 := {| Machine.columns := cols; Machine.records := rs1 |} in
  let df2 := {| Machine.columns := cols; Machine.records := rs2 |} in
  let df := {| Machine.columns := cols; Machine.records := (rs1 ++ rs2)%list |} in
  Machine.has_required_columns df1 = true →
  Machine.all_int64 df1 = true → Machine.all_int64 df2 = true →
  ∃ m1 m2 m,
    Machine.calculate_metrics (Some df1) = Ok (Some m1) ∧
    Machine.calculate_metrics (Some df2) = Ok (Some m2) ∧
    Machine.calculate_metrics (Some df) = Ok (Some m) ∧
    Forall
      (λ total, Machine.add_totals (total m1) (total m2) = Some (total m))
      [Machine.total_cancers; Machine.total_cancer_deaths;
       Machine.total_life_years; Machine.total_tests; Machine.total_cyto;
       Machine.total_hpv; Machine.total_cotest; Machine.total_cin2_detected;
       Machine.total_cin3_detected].
Proof.
  intros df1 df2 df (Hc & Hd & Hp)%machine_has_required_columns_elem Hall1 Hall2.
  unfold Machine.calculate_metrics, df1, df2, df.
  destruct (column_sum_int64_app cols rs1 rs2 "Cancer" Hall1 Hall2 Hc)
    as (a1 & b1 & -> & -> & ->).
  destruct (column_sum_int64_app cols rs1 rs2 "Cancer death" Hall1 Hall2 Hd)
    as (a2 & b2 & -> & -> & ->).
  destruct (column_sum_int64_app cols rs1 rs2 "Population" Hall1 Hall2 Hp)
    as (a3 & b3 & -> & -> & ->).
  destruct (column_sum_or_zero_int64_app cols rs1 rs2 "Total test" Hall1 Hall2)
    as (x4 & y4 & z4 & -> & -> & -> & H4).
  destruct (column_sum_or_zero_int64_app cols rs1 rs2 "Cyto" Hall1 Hall2)
    as (x5 & y5 & z5 & -> & -> & -> & H5).
  destruct (column_sum_or_zero_int64_app cols rs1 rs2 "HPV" Hall1 Hall2)
    as (x6 & y6 & z6 & -> & -> & -> & H6).
  destruct (column_sum_or_zero_int64_app cols rs1 rs2 "Cotest" Hall1 Hall2)
    as (x7 & y7 & z7 & -> & -> & -> & H7).
  destruct (column_sum_or_zero_int64_app cols rs1 rs2 "CIN2 detected" Hall1 Hall2)
    as (x8 & y8 & z8 & -> & -> & -> & H8).
  destruct (column_sum_or_zero_int64_app cols rs1 rs2 "CIN3 detected" Hall1 Hall2)
    as (x9 & y9 & z9 & -> & -> & -> & H9).
  cbn [mbind result_bind mret result_ret].
  eexists _, _, _. split_and!; [reflexivity..|].
  repeat (apply List.Forall_cons || apply List.Forall_nil).
  all: repeat match goal with
  | |- context [Machine.with_rates ?a ?b ?c ?d ?e ?f ?g ?h ?i] =>
      let H := fresh in
      pose proof (machine_with_rates_totals a b c d e f g h i) as H;
      cbv zeta in H;
      destruct H as (E1 & E2 & E3 & E4 & E5 & E6 & E7 & E8 & E9);
      rewrite ?E1, ?E2, ?E3, ?E4, ?E5, ?E6, ?E7, ?E8, ?E9;
      clear E1 E2 E3 E4 E5 E6 E7 E8 E9
  end.
  all: done.
Qed.

Lemma calculate_metrics_additive_witness :
  ∃ m1 m2 m,
    Machine.calculate_metrics (Some Machine.series_1_to_3) = Ok (Some m1) ∧
    Machine.calculate_metrics (Some Machine.deaths_without_cancers) = Ok (Some m2) ∧
    Machine.calculate_metrics
      (Some {| Machine.columns := Machine.columns Machine.series_1_to_3;
               Machine.records :=
                 (Machine.records Machine.series_1_to_3
                  ++ Machine.records Machine.deaths_without_cancers)%list |})
    = Ok (Some m) ∧
    Machine.total_cancer_deaths m1 = Machine.Int64 2 ∧
    Machine.total_cancer_deaths m2 = Machine.Int64 5 ∧
    Machine.total_cancer_deaths m = Machine.Int64 7.
Proof.
  destruct (calculate_metrics_additive (Machine.columns Machine.series_1_to_3)
              (Machine.records Machine.series_1_to_3)
              (Machine.records Machine.deaths_without_cancers)
              eq_refl eq_refl eq_refl)
    as (m1 & m2 & m & Hm1 & Hm2 & Hm & Htotals).
  exists m1, m2, m.
  assert (Machine.total_cancer_deaths m1 = Machine.Int64 2) as H1.
  { vm_compute in Hm1. by injection Hm1 as <-. }
  assert (Machine.total_cancer_deaths m2 = Machine.Int64 5) as H2.
  { vm_compute in Hm2. by injection Hm2 as <-. }
  split_and!; [exact Hm1|exact Hm2|exact Hm|exact H1|exact H2|].
  apply Forall_cons in Htotals as [_ Htotals].
  apply Forall_cons in Htotals as [Hdeaths _].
  rewrite H1, H2 in Hdeaths. by injection Hdeaths as <-.
Defined.

(** ** Sums without overflow *)

Section NoOverflow.
Implicit Types (cols : list string) (rows : list (list Z)) (zs : list Z).

Lemma num_add (a b : Z) : num (a + b) = (num a + num b)%Qc.
Proof.
  apply Qc_is_canon. unfold num. cbn [this Q2Qc Qcplus].
  rewrite !Qred_correct, inject_Z_plus. reflexivity.
Qed.

Lemma series_sum_num zs : series_sum (num <$> zs) = num (foldr Z.add 0%Z zs).
Proof.
  induction zs as [|z zs IH]; cbn [fmap list_fmap foldr series_sum].
  - apply Qc_is_canon. reflexivity.
  - unfold series_sum in IH. by rewrite IH, num_add.
Qed.

Lemma Z_sum_bounded zs (bound : Z) :
  Forall (λ z, 0 ≤ z ≤ bound)%Z zs →
  (0 ≤ foldr Z.add 0%Z zs ≤ Z.of_nat (length zs) * bound)%Z.
Proof.
  induction 1 as [|z zs Hz _ IH]; cbn [foldr length]; [lia|].
  rewrite Nat2Z.inj_succ. lia.
Qed.

Lemma wrap64_small (z : Z) : (- 2 ^ 63 ≤ z < 2 ^ 63)%Z → Machine.wrap64 z = z.
Proof. intros Hz. unfold Machine.wrap64. rewrite Z.mod_small; lia. Qed.

Lemma exact_column cols rows c i :
  list_find (λ x, x = c) cols = Some (i, c) →
  get_column (exact_table cols rows) c
  = Ok (num <$> omap (λ r : list Z, r !! i) rows).
Proof.
  intros Hfind. unfold get_column, exact_table. cbn [columns records].
  rewrite Hfind. f_equal.
  induction rows as [|r rows IH]; [done|].
  cbn [fmap list_fmap omap list_omap]. rewrite list_lookup_fmap.
  destruct (r !! i); cbn [fmap option_fmap option_map]; by rewrite IH.
Qed.

Lemma int64_column cols rows c i :
  rows ≠ [] →
  Forall (λ r, length r = length cols) rows →
  list_find (λ x, x = c) cols = Some (i, c) →
  Machine.get_column (int64_table cols rows) c
  = Ok (Machine.Int64Series (omap (λ r : list Z, r !! i) rows)) ∧
  length (omap (λ r : list Z, r !! i) rows) = length rows.
Proof.
  intros Hne Hfull Hfind.
  assert (i < length cols)%nat as Hi.
  { apply list_find_Some in Hfind as (Hi & _). by eapply lookup_lt_Some. }
  unfold Machine.get_column, int64_table.
  cbn [Machine.columns Machine.records]. rewrite Hfind.
  assert (forallb Machine.is_int
            ((λ r : list Machine.cell, r !! i)
               <$> ((λ r : list Z, Machine.IntCell <$> r) <$> rows)) = true
          ∧ omap Machine.as_int
              ((λ r : list Machine.cell, r !! i)
                 <$> ((λ r : list Z, Machine.IntCell <$> r) <$> rows))
            = omap (λ r : list Z, r !! i) rows
          ∧ length (omap (λ r : list Z, r !! i) rows) = length rows)
    as (Hint & Hcells & Hlen).
  { clear Hne. induction Hfull as [|r rows Hr _ IH]; [done|].
    destruct IH as (IH1 & IH2 & IH3).
    cbn [fmap list_fmap omap list_omap forallb]. rewrite list_lookup_fmap.
    destruct (lookup_lt_is_Some_2 r i) as [z Hz]; [lia|]. rewrite Hz.
    cbn [fmap option_fmap option_map Machine.is_int Machine.as_int andb length].
    by rewrite IH1, IH2, IH3. }
  split; [|exact Hlen]. f_equal.
  rewrite infer_dtype_int64, Hcells; [done| |done].
  destruct rows; [done|]. done.
Qed.

Lemma column_sum_no_overflow cols rows c (bound : Z) :
  rows ≠ [] →
  Forall (λ r, length r = length cols ∧ Forall (λ z, 0 ≤ z ≤ bound)%Z r) rows →
  (Z.of_nat (length rows) * bound < 2 ^ 63)%Z →
  c ∈ cols →
  ∃ z, column_sum (exact_table cols rows) c = Ok (num z) ∧
       Machine.column_sum (int64_table cols rows) c = Ok (Machine.Int64 z).
Proof.
  intros Hne Hrows Hbound Hc.
  destruct (list_find (λ x, x = c) cols) as [[i x]|] eqn:Hfind.
  2:{ apply list_find_None in Hfind. rewrite Forall_forall in Hfind.
      by destruct (Hfind c Hc). }
  assert (x = c) as -> by (by apply list_find_Some in Hfind as (_ & -> & _)).
  destruct (int64_column cols rows c i Hne) as [Hcol Hlen]; [|done|].
  { eapply Forall_impl; [exact Hrows|]. by intros r [? _]. }
  set (zs := omap (λ r : list Z, r !! i) rows) in *.
  assert (Forall (λ z, 0 ≤ z ≤ bound)%Z zs) as Hzs.
  { apply Forall_forall. intros z (r & Hr & Hz)%list_elem_of_omap.
    rewrite Forall_forall in Hrows. destruct (Hrows r Hr) as [_ Hcells].
    rewrite Forall_forall in Hcells. apply Hcells.
    by eapply list_elem_of_lookup_2. }
  apply Z_sum_bounded in Hzs. rewrite Hlen in Hzs.
  exists (foldr Z.add 0%Z zs). unfold column_sum, Machine.column_sum.
  rewrite (exact_column cols rows c i Hfind), Hcol.
  cbn [mbind result_bind mret result_ret]. fold zs.
  rewrite series_sum_num, int64_sum_spec, wrap64_small; [done|lia].
Qed.

Lemma column_sum_or_zero_no_overflow cols rows c (bound : Z) :
  rows ≠ [] →
  Forall (λ r, length r = length cols ∧ Forall (λ z, 0 ≤ z ≤ bound)%Z r) rows →
  (Z.of_nat (length rows) * bound < 2 ^ 63)%Z →
  ∃ q x, column_sum_or_zero (exact_table cols rows) c = Ok q ∧
         Machine.column_sum_or_zero (int64_table cols rows) c = Ok x ∧
         scalar_value x = Some q.
Proof.
  intros Hne Hrows Hbound.
  unfold column_sum_or_zero, Machine.column_sum_or_zero, has_column,
    Machine.has_column.
  cbn [columns Machine.columns exact_table int64_table].
  case_bool_decide as Hc.
  - destruct (column_sum_no_overflow cols rows c bound Hne Hrows Hbound Hc)
      as (z & -> & ->).
    by eexists _, _.
  - by eexists _, _.
Qed.

Lemma with_rates_totals (tc td tl tt cy hp co k2 k3 : Qc) :
  let m := with_rates tc td tl tt cy hp co k2 k3 in
  total_cancers m = tc ∧ total_cancer_deaths m = td ∧ total_life_years m = tl ∧
  total_tests m = tt ∧ total_cyto m = cy ∧ total_hpv m = hp ∧
  total_cotest m = co ∧ total_cin2_detected m = k2 ∧ total_cin3_detected m = k3.
Proof. unfold with_rates. by destruct (decide (0 < tl)%Qc). Qed.

End NoOverflow.

(** X21: on a table of integers between 0 and a bound, with as many fields
    in every record as the header has columns and with so few records that
    no column can reach 2^63, the int64 sums do not wrap around: each of the
    nine totals that [calculate_metrics] computes over the machine numbers is
    the integer whose exact sum the rational model computes. *)
Theorem int64_totals_exact (cols : list string) (rows : list (list Z))
    (bound : Z) :
  rows ≠ [] →
  Forall (λ r, length r = length cols ∧ Forall (λ z, 0 ≤ z ≤ bound)%Z r) rows →
  (Z.of_nat (length rows) * bound < 2 ^ 63)%Z →
  has_required_columns (exact_table cols rows) = true →
  ∃ m mm,
    calculate_metrics (Some (exact_table cols rows)) = Ok (Some m) ∧
    Machine.calculate_metrics (Some (int64_table cols rows)) = Ok (Some mm) ∧
    Forall2 (λ total mtotal, scalar_value (mtotal mm) = Some (total m))
      [total_cancers; total_cancer_deaths; total_life_years; total_tests;
       total_cyto; total_hpv; total_cotest; total_cin2_detected;
       total_cin3_detected]
      [Machine.total_cancers; Machine.total_cancer_deaths;
       Machine.total_life_years; Machine.total_tests; Machine.total_cyto;
       Machine.total_hpv; Machine.total_cotest; Machine.total_cin2_detected;
       Machine.total_cin3_detected].
Proof.
  intros Hne Hrows Hbound (Hc & Hd & Hp)%has_required_columns_elem.
  cbn [columns exact_table] in Hc, Hd, Hp.
  unfold calculate_metrics, Machine.calculate_metrics.
  destruct (column_sum_no_overflow cols rows "Cancer" bound Hne Hrows Hbound Hc)
    as (z1 & -> & ->).
  destruct (column_sum_no_overflow cols rows "Cancer death" bound Hne Hrows Hbound Hd)
    as (z2 & -> & ->).
  destruct (column_sum_no_overflow cols rows "Population" bound Hne Hrows Hbound Hp)
    as (z3 & -> & ->).
  destruct (column_sum_or_zero_no_overflow cols rows "Total test" bound Hne Hrows Hbound)
    as (q4 & x4 & -> & -> & H4).
  destruct (column_sum_or_zero_no_overflow cols rows "Cyto" bound Hne Hrows Hbound)
    as (q5 & x5 & -> & -> & H5).
  destruct (column_sum_or_zero_no_overflow cols rows "HPV" bound Hne Hrows Hbound)
    as (q6 & x6 & -> & -> & H6).
  destruct (column_sum_or_zero_no_overflow cols rows "Cotest" bound Hne Hrows Hbound)
    as (q7 & x7 & -> & -> & H7).
  destruct (column_sum_or_zero_no_overflow cols rows "CIN2 detected" bound Hne Hrows Hbound)
    as (q8 & x8 & -> & -> & H8).
  destruct (column_sum_or_zero_no_overflow cols rows "CIN3 detected" bound Hne Hrows Hbound)
    as (q9 & x9 & -> & -> & H9).
  cbn [mbind result_bind mret result_ret].
  eexists _, _. split_and!; [reflexivity..|].
  destruct (with_rates_totals (num z1) (num z2) (num z3) q4 q5 q6 q7 q8 q9)
    as (E1 & E2 & E3 & E4 & E5 & E6 & E7 & E8 & E9).
  destruct (machine_with_rates_totals (Machine.Int64 z1) (Machine.Int64 z2)
              (Machine.Int64 z3) x4 x5 x6 x7 x8 x9)
    as (F1 & F2 & F3 & F4 & F5 & F6 & F7 & F8 & F9).
  repeat (apply List.Forall2_cons || apply List.Forall2_nil).
  all: rewrite ?E1, ?E2, ?E3, ?E4, ?E5, ?E6, ?E7, ?E8, ?E9,
         ?F1, ?F2, ?F3, ?F4, ?F5, ?F6, ?F7, ?F8, ?F9.
  all: done.
Qed.

Lemma int64_totals_exact_witness :
  ∃ m mm,
    calculate_metrics (Some series_1_to_3) = Ok (Some m) ∧
    Machine.calculate_metrics (Some Machine.series_1_to_3) = Ok (Some mm) ∧
    Machine.total_life_years mm = Machine.Int64 300 ∧
    total_life_years m = num 300.
Proof.
  destruct (int64_totals_exact
              ["Age"; "Cancer"; "Cancer death"; "Population"]
              [[1; 1; 0; 100]; [2; 2; 1; 100]; [3; 3; 1; 100]]%Z 100)
    as (m & mm & Hm & Hmm & Htotals).
  - done.
  - repeat (apply List.Forall_cons;
            [split; [reflexivity|];
             repeat (apply List.Forall_cons; [lia|]); apply List.Forall_nil|]).
    apply List.Forall_nil.
  - cbn. lia.
  - reflexivity.
  - exists m, mm. split; [exact Hm|]. split; [exact Hmm|].
    assert (Machine.total_life_years mm = Machine.Int64 300) as Hl.
    { vm_compute in Hmm. by injection Hmm as <-. }
    split; [exact Hl|].
    apply Forall2_cons in Htotals as [_ Htotals].
    apply Forall2_cons in Htotals as [_ Htotals].
    apply Forall2_cons in Htotals as [Hlife _].
    rewrite Hl in Hlife. by injection Hlife as <-.
Defined.

(** * Further properties of the loaders *)

Lemma list_ascii_of_string_app (s1 s2 : string) :
  list_ascii_of_string (s1 +:+ s2)
  = (list_ascii_of_string s1 ++ list_ascii_of_string s2)%list.
Proof. induction s1 as [|a s1 IH]; [done|]. simpl. by f_equal. Qed.

Lemma string_app_cancel_r (s1 s2 t : string) : s1 +:+ t = s2 +:+ t → s1 = s2.
Proof.
  intros E. apply (f_equal list_ascii_of_string) in E.
  rewrite !list_ascii_of_string_app in E. apply app_inv_tail in E.
  rewrite <- (string_of_list_ascii_of_string s1).
  rewrite <- (string_of_list_ascii_of_string s2). by rewrite E.
Qed.

(** X5: two different strategy numbers never name the same file. *)
Theorem strategy_filename_inj (n m : nat) :
  strategy_filename n = strategy_filename m → n = m.
Proof.
  unfold strategy_filename. intros Heq.
  apply (inj (String.app "cancer_screening_results")) in Heq.
  apply string_app_cancel_r in Heq. by apply (inj pretty).
Qed.

Lemma strategy_filename_inj_witness :
  strategy_filename 3 = "cancer_screening_results3.csv" ∧
  (strategy_filename 3 = strategy_filename (2 + 1) → 3 = 2 + 1).
Proof. split; [reflexivity|apply strategy_filename_inj]. Defined.

Section FirstFailure.
Variable fs : gmap string file.

Lemma body_unparsable rs ad n :
  fs !! strategy_filename n = Some Unparsable →
  load_all_strategies_body fs (rs, ad) n
  = ([], Raise (ParserError (strategy_filename n))).
Proof.
  intros Hfile. unfold load_all_strategies_body.
  by rewrite (load_strategy_data_unparsable fs n Hfile).
Qed.

Lemma body_metrics_raise rs ad n df e :
  fs !! strategy_filename n = Some (Csv df) →
  calculate_metrics (Some df) = Raise e →
  load_all_strategies_body fs (rs, ad) n = ([], Raise e).
Proof.
  intros Hfile Hraise. unfold load_all_strategies_body.
  rewrite (load_strategy_data_csv fs n df Hfile). ui_step. by rewrite Hraise.
Qed.

(** The loop stops at the first strategy whose pass raises; the warnings
    shown until then stay on the page. *)
Lemma loop_first_raise ids1 k ids2 rs ad e :
  Forall (λ n, resource_ready fs n ∧ is_Some (STRATEGY_DEFINITIONS !! n)) ids1 →
  (∀ rs' ad', load_all_strategies_body fs (rs', ad') k = ([], Raise e)) →
  ui_for (ids1 ++ k :: ids2) (load_all_strategies_body fs) (rs, ad)
  = (missing_warning <$> filter (λ n, ¬ present fs n) ids1, Raise e).
Proof.
  intros Hready Hraise. revert rs ad.
  induction Hready as [|n ids1 [Hn [info Hinfo]] _ IH]; intros rs ad;
    cbn [app ui_for].
  - rewrite Hraise. done.
  - unfold resource_ready in Hn.
    destruct (fs !! strategy_filename n) as [[df|]|] eqn:Hfile; [|done|].
    + apply Is_true_eq_true, calculate_metrics_required in Hn.
      rewrite (filter_cons_False _ n).
      2: { intros Hnot. apply Hnot, present_spec. by rewrite Hfile. }
      eapply (ui_bind_Ok _ _ []); [by eapply body_row|apply IH].
    + rewrite (filter_cons_True _ n).
      2: { rewrite present_spec, Hfile. by intros [? ?]. }
      rewrite fmap_cons.
      eapply (ui_bind_Ok _ _ [_]); [by apply body_missing|apply IH].
Qed.

Lemma seq_1_15_split k :
  k ∈ seq 1 15 → seq 1 15 = (seq 1 (k - 1) ++ k :: seq (S k) (15 - k))%list.
Proof.
  intros Hk. repeat (apply elem_of_cons in Hk as [->|Hk]; [reflexivity|]).
  by apply elem_of_nil in Hk.
Qed.

Lemma load_all_strategies_first_raise k e :
  k ∈ seq 1 15 →
  (∀ n, (1 ≤ n < k)%nat → resource_ready fs n) →
  (∀ rs ad, load_all_strategies_body fs (rs, ad) k = ([], Raise e)) →
  load_all_strategies fs
  = (missing_warning <$> filter (λ n, ¬ present fs n) (seq 1 (k - 1)), Raise e) ∧
  main fs
  = ([StTitle; StMarkdown]
       ++ (missing_warning <$> filter (λ n, ¬ present fs n) (seq 1 (k - 1))),
     Raise e)%list.
Proof.
  intros Hk Hready Hraise.
  assert (load_all_strategies fs
          = (missing_warning <$> filter (λ n, ¬ present fs n) (seq 1 (k - 1)),
             Raise e)) as Hrun.
  { unfold load_all_strategies. rewrite (seq_1_15_split k Hk).
    apply loop_first_raise; [|done]. apply Forall_forall.
    intros n Hn%elem_of_seq. apply elem_of_seq_1_15 in Hk. split.
    - apply Hready. lia.
    - apply catalog_ids, elem_of_seq_1_15. lia. }
  split; [done|]. unfold main. by rewrite Hrun.
Qed.
End FirstFailure.

(** X6: when the file of strategy [k] does not parse and every file of a
    lower strategy is missing or well formed, [load_all_strategies] raises
    the error of [pd.read_csv] after the warnings for the missing files below
    [k]; no summary comes back, and [main] raises the same error without
    showing the no-data message. *)
Theorem load_all_strategies_unparsable (fs : gmap string file) (k : nat) :
  k ∈ seq 1 15 →
  (∀ n, (1 ≤ n < k)%nat → resource_ready fs n) →
  fs !! strategy_filename k = Some Unparsable →
  load_all_strategies fs
  = (missing_warning <$> filter (λ n, ¬ present fs n) (seq 1 (k - 1)),
     Raise (ParserError (strategy_filename k))) ∧
  main fs
  = ([StTitle; StMarkdown]
       ++ (missing_warning <$> filter (λ n, ¬ present fs n) (seq 1 (k - 1))),
     Raise (ParserError (strategy_filename k)))%list.
Proof.
  intros Hk Hready Hfile. apply load_all_strategies_first_raise; [done..|].
  intros rs ad. by apply body_unparsable.
Qed.

Lemma load_all_strategies_unparsable_witness :
  load_all_strategies missing_and_unparsable
  = ([missing_warning 1], Raise (ParserError "cancer_screening_results2.csv")) ∧
  main missing_and_unparsable
  = ([StTitle; StMarkdown; missing_warning 1],
     Raise (ParserError "cancer_screening_results2.csv")).
Proof.
  apply (load_all_strategies_unparsable missing_and_unparsable 2).
  - set_solver.
  - intros n Hn. assert (n = 1) as -> by lia. by vm_compute.
  - by vm_compute.
Defined.

(** X7: when the table of strategy [k] lacks one of Cancer, Cancer death and
    Population and every file of a lower strategy is missing or well formed,
    [load_all_strategies] raises the [KeyError] for the first of the three
    that is absent, after the warnings for the missing files below [k], and
    [main] raises it too: the rows built for the lower strategies are
    lost. *)
Theorem load_all_strategies_missing_column (fs : gmap string file) (k : nat)
    (df : DataFrame) :
  k ∈ seq 1 15 →
  (∀ n, (1 ≤ n < k)%nat → resource_ready fs n) →
  fs !! strategy_filename k = Some (Csv df) →
  has_required_columns df = false →
  ∃ i c,
    list_find (λ c, c ∉ columns df) required_columns = Some (i, c) ∧
    load_all_strategies fs
    = (missing_warning <$> filter (λ n, ¬ present fs n) (seq 1 (k - 1)),
       Raise (KeyError c)) ∧
    main fs
    = ([StTitle; StMarkdown]
         ++ (missing_warning <$> filter (λ n, ¬ present fs n) (seq 1 (k - 1))),
       Raise (KeyError c))%list.
Proof.
  intros Hk Hready Hfile Hreq.
  pose proof (calculate_metrics_first_missing df) as Hout.
  destruct (list_find _ required_columns) as [[i c]|] eqn:Hfind.
  - exists i, c. split; [done|].
    apply load_all_strategies_first_raise; [done..|].
    intros rs ad. by eapply body_metrics_raise.
  - assert (has_required_columns df = true) as Hall; [|congruence].
    apply list_find_None in Hfind. apply has_required_columns_elem.
    rewrite Forall_forall in Hfind.
    split_and!; apply dec_stable, Hfind; set_solver.
Qed.

Lemma load_all_strategies_missing_column_witness :
  load_all_strategies missing_and_age_only
  = ([missing_warning 1], Raise (KeyError "Cancer")) ∧
  main missing_and_age_only
  = ([StTitle; StMarkdown; missing_warning 1], Raise (KeyError "Cancer")).
Proof.
  destruct (load_all_strategies_missing_column missing_and_age_only 2 age_only)
    as (i & c & Hfind & Hrun & Hmain).
  - set_solver.
  - intros n Hn. assert (n = 1) as -> by lia. by vm_compute.
  - by vm_compute.
  - reflexivity.
  - assert (c = "Cancer") as -> by (vm_compute in Hfind; congruence).
    split; [exact Hrun|exact Hmain].
Defined.

(** X8: every row of a summary that [load_all_strategies] returns has a
    start age below its end age and 1, 2 or 3 exit tests; its switch age is
    the string "-" exactly when its test type is "Cyto only", and is
    otherwise an age strictly between the start age and the end age. *)
Theorem summary_row_ages (fs : gmap string file) (log : list st_event)
    (rows : list result_row) (ad : gmap nat DataFrame) (r : result_row) :
  load_all_strategies fs = (log, Ok (rows, ad)) →
  r ∈ rows →
  (Start_Age r < End_Age r)%nat ∧ (1 ≤ Exit_Tests r ≤ 3)%nat ∧
  match Switch_Age r with
  | inl s => Test_Type r ≠ "Cyto only" ∧ (Start_Age r < s < End_Age r)%nat
  | inr dash => Test_Type r = "Cyto only" ∧ dash = "-"
  end.
Proof.
  intros (-> & _)%load_all_strategies_Ok_inv Hr.
  apply summary_rows_elem in Hr as [Hid Hrow].
  apply summary_row_Some in Hrow as (df & info & _ & Hinfo & _ & Heq).
  set (n := Strategy r) in *. set (m := row_metrics r) in *.
  rewrite Heq. clearbody n m. clear Heq.
  repeat (apply elem_of_cons in Hid as [->|Hid];
          [vm_compute in Hinfo; injection Hinfo as <-; cbn;
           split_and!; (lia || done)|]).
  by apply elem_of_nil in Hid.
Qed.

Lemma summary_row_ages_witness :
  ∃ log rows ad,
    load_all_strategies one_missing = (log, Ok (rows, ad)) ∧
    Forall (λ r, (Start_Age r < End_Age r)%nat ∧ (1 ≤ Exit_Tests r ≤ 3)%nat) rows.
Proof.
  destruct (load_all_strategies_ready one_missing)
    as (log & rows & ad & Hrun); [by vm_compute|].
  exists log, rows, ad. split; [exact Hrun|].
  apply Forall_forall. intros r Hr.
  destruct (summary_row_ages one_missing log rows ad r Hrun Hr) as (? & ? & _).
  by split.
Defined.

(** X9: the two values that [load_all_strategies] returns name the same
    strategies: the ids of the rows are pairwise different, they are the keys
    of [age_distributions], and the metrics of each row are those of the
    table stored under its id. *)
Theorem summary_rows_match_tables (fs : gmap string file) (log : list st_event)
    (rows : list result_row) (ad : gmap nat DataFrame) :
  load_all_strategies fs = (log, Ok (rows, ad)) →
  NoDup (Strategy <$> rows) ∧
  (∀ n, n ∈ Strategy <$> rows ↔ n ∈ dom ad) ∧
  (∀ r, r ∈ rows →
     ∃ df, ad !! Strategy r = Some df ∧
           calculate_metrics (Some df) = Ok (Some (row_metrics r))).
Proof.
  intros Hrun.
  destruct (load_all_strategies_Ok_inv _ _ _ _ Hrun) as (Hrows & _ & Hdom & Hids).
  split_and!.
  - rewrite Hids. apply NoDup_filter, NoDup_seq.
  - intros n. by rewrite Hids, Hdom, elem_of_list_to_set.
  - intros r Hr. rewrite Hrows in Hr.
    apply summary_rows_elem in Hr as [Hid Hrow].
    apply summary_row_Some in Hrow as (df & info & Hfile & _ & Hm & _).
    exists df. split; [|done].
    by apply (load_all_strategies_tables fs log rows ad).
Qed.

Lemma summary_rows_match_tables_witness :
  ∃ log rows ad,
    load_all_strategies one_missing = (log, Ok (rows, ad)) ∧
    NoDup (Strategy <$> rows) ∧ (∀ n, n ∈ Strategy <$> rows ↔ n ∈ dom ad).
Proof.
  destruct (load_all_strategies_ready one_missing)
    as (log & rows & ad & Hrun); [by vm_compute|].
  exists log, rows, ad.
  destruct (summary_rows_match_tables one_missing log rows ad Hrun)
    as (Hnodup & Hkeys & _).
  split_and!; assumption.
Defined.

(** * Further properties of the display orders *)

Section SortValuesSorted.
Context {A : Type} (key : A → nat).

Lemma insert_sorted_Permutation (x : A) (l : list A) :
  insert_sorted key x l ≡ₚ x :: l.
Proof.
  induction l as [|y l IH]; [done|]. cbn [insert_sorted].
  destruct (key x <=? key y)%nat; [done|]. by rewrite IH, Permutation_swap.
Qed.

Lemma sort_values_Permutation (l : list A) : sort_values key l ≡ₚ l.
Proof.
  unfold sort_values. induction l as [|x l IH]; [done|]. cbn [foldr].
  by rewrite insert_sorted_Permutation, IH.
Qed.

Lemma insert_sorted_StronglySorted (x : A) (l : list A) :
  StronglySorted (λ a b, (key a ≤ key b)%nat) l →
  StronglySorted (λ a b, (key a ≤ key b)%nat) (insert_sorted key x l).
Proof.
  induction 1 as [|y l Hl IH Hy]; cbn [insert_sorted].
  - by repeat constructor.
  - destruct (key x <=? key y)%nat eqn:Hxy.
    + apply Nat.leb_le in Hxy. constructor; [by constructor|].
      constructor; [done|]. eapply Forall_impl; [exact Hy|]. cbn. lia.
    + apply Nat.leb_gt in Hxy. constructor; [done|].
      rewrite insert_sorted_Permutation. constructor; [lia|done].
Qed.

Lemma sort_values_StronglySorted (l : list A) :
  StronglySorted (λ a b, (key a ≤ key b)%nat) (sort_values key l).
Proof.
  unfold sort_values. induction l as [|x l IH]; [constructor|]. cbn [foldr].
  by apply insert_sorted_StronglySorted.
Qed.
End SortValuesSorted.

(** X10: the strategy-overview table and the detailed-comparison table hold,
    field by field, the rows of a rearrangement of the summary that is in
    ascending order of the display sort key of the label: no row is dropped,
    repeated or mixed with another. *)
Theorem display_tables_sorted (df : list result_row) :
  ∃ df_sorted,
    df_sorted ≡ₚ df ∧
    StronglySorted
      (λ r1 r2, (overview_sort_key (Display r1)
                 ≤ overview_sort_key (Display r2))%nat) df_sorted ∧
    Forall2
      (λ t r, ov_Strategy t = Display r ∧ ov_Description t = Name r ∧
              ov_Test_Type t = Test_Type r ∧ ov_Start_Age t = Start_Age r ∧
              ov_End_Age t = End_Age r ∧ ov_Switch_Age t = Switch_Age r ∧
              ov_Exit_Tests t = Exit_Tests r ∧ ov_Interval t = Interval r)
      (create_strategy_overview_table df) df_sorted ∧
    Forall2
      (λ t r, dt_Strategy t = Display r ∧ dt_Description t = Name r ∧
              dt_Test_Type t = Test_Type r ∧ dt_End_Age t = End_Age r ∧
              dt_Exit_Tests t = Exit_Tests r ∧
              dt_Total_Cancers t = total_cancers (row_metrics r) ∧
              dt_Total_Deaths t = total_cancer_deaths (row_metrics r) ∧
              dt_Total_Life_Years t = total_life_years (row_metrics r) ∧
              dt_Case_Fatality t = case_fatality_rate (row_metrics r) ∧
              dt_Cancer_Rate t = cancer_rate_per_100k (row_metrics r) ∧
              dt_Death_Rate t = death_rate_per_100k (row_metrics r))
      (detailed_comparison_table df) df_sorted.
Proof.
  exists (sort_values (overview_sort_key ∘ Display) df). split_and!.
  - apply sort_values_Permutation.
  - apply (sort_values_StronglySorted (overview_sort_key ∘ Display)).
  - unfold create_strategy_overview_table.
    rewrite (sort_values_fmap (λ r, overview_sort_key (ov_Strategy r))).
    apply Forall2_fmap_l, Forall_Forall2_diag, Forall_forall. by intros r _.
  - unfold detailed_comparison_table.
    rewrite (sort_values_fmap (λ r, detailed_sort_key (dt_Strategy r))).
    apply Forall2_fmap_l, Forall_Forall2_diag, Forall_forall. by intros r _.
Qed.

(** X11: the display sort key never takes the values 10, 11 and 12; on
    labels of digits it grows strictly with the value of the label; and a
    label of digits sorts before the labels that are not of digits exactly
    when its value is below 996. *)
Theorem overview_sort_key_order (x y : string) :
  ((overview_sort_key x ≤ 9)%nat ∨ (13 ≤ overview_sort_key x)%nat) ∧
  (isdigit x = true → isdigit y = true → (int x < int y)%nat →
   (overview_sort_key x < overview_sort_key y)%nat) ∧
  (isdigit x = true → isdigit y = false →
   (overview_sort_key x < overview_sort_key y)%nat ↔ (int x < 996)%nat).
Proof.
  unfold overview_sort_key. split_and!.
  - destruct (isdigit x); cbn; [|lia].
    destruct (int x <=? 9)%nat eqn:Hx;
      [apply Nat.leb_le in Hx|apply Nat.leb_gt in Hx]; lia.
  - intros -> -> Hlt. cbn.
    destruct (int x <=? 9)%nat eqn:Hx;
      [apply Nat.leb_le in Hx|apply Nat.leb_gt in Hx];
      (destruct (int y <=? 9)%nat eqn:Hy;
         [apply Nat.leb_le in Hy|apply Nat.leb_gt in Hy]); lia.
  - intros -> ->. cbn.
    destruct (int x <=? 9)%nat eqn:Hx;
      [apply Nat.leb_le in Hx|apply Nat.leb_gt in Hx]; lia.
Qed.

Lemma overview_sort_key_order_witness :
  (overview_sort_key "9" < overview_sort_key "10")%nat ∧
  (overview_sort_key "15" < overview_sort_key "-")%nat ∧
  ¬ (overview_sort_key "996" < overview_sort_key "-")%nat.
Proof.
  destruct (overview_sort_key_order "9" "10") as (_ & Hlt & _).
  destruct (overview_sort_key_order "15" "-") as (_ & _ & Hdash).
  destruct (overview_sort_key_order "996" "-") as (_ & _ & Hlarge).
  split_and!.
  - apply Hlt; [reflexivity..|]. apply Nat.ltb_lt. reflexivity.
  - apply Hdash; [reflexivity..|]. apply Nat.ltb_lt. reflexivity.
  - intros H%Hlarge; [|reflexivity..]. by apply Nat.ltb_lt in H.
Defined.

(** ** Labels made from numbers *)

Lemma pretty_N_char_digit (d : N) :
  (d < 10)%N →
  is_decimal (pretty_N_char d) = true ∧
  (nat_of_ascii (pretty_N_char d) - 48)%nat = N.to_nat d.
Proof.
  intros Hd.
  assert (d = 0 ∨ d = 1 ∨ d = 2 ∨ d = 3 ∨ d = 4 ∨ d = 5 ∨ d = 6 ∨ d = 7
          ∨ d = 8 ∨ d = 9)%N as Hcases by lia.
  repeat (destruct Hcases as [->|Hcases]; [by vm_compute|]).
  subst. by vm_compute.
Qed.

(** The characters that [pretty_N_go] puts in front of its accumulator are
    the decimal digits of the number. *)
Lemma pretty_N_go_digits (x : N) (s : string) :
  ∃ ds,
    list_ascii_of_string (pretty_N_go x s) = (ds ++ list_ascii_of_string s)%list ∧
    forallb is_decimal ds = true ∧
    ((0 < x)%N → ds ≠ []) ∧
    ∀ acc,
      foldl (λ acc c, 10 * acc + (nat_of_ascii c - 48)) acc ds
      = (acc * 10 ^ length ds + N.to_nat x)%nat.
Proof.
  revert s. induction (N.lt_wf_0 x) as [x _ IH]. intros s.
  destruct (decide (x = 0)%N) as [->|Hx].
  - exists []. rewrite pretty_N_go_0. split_and!; [done..|lia|]. intros acc. cbn. lia.
  - rewrite pretty_N_go_step by lia.
    destruct (IH (x `div` 10)%N) with (s := String (pretty_N_char (x `mod` 10)) s)
      as (ds & Hchars & Hdec & _ & Hval).
    { apply N.div_lt; lia. }
    destruct (pretty_N_char_digit (x `mod` 10)%N) as [Hc Hcv].
    { apply N.mod_lt. lia. }
    exists (ds ++ [pretty_N_char (x `mod` 10)])%list. split_and!.
    + rewrite Hchars. cbn [list_ascii_of_string]. by rewrite <- app_assoc.
    + rewrite forallb_app, Hdec. cbn. by rewrite Hc.
    + intros _. by destruct ds.
    + intros acc. rewrite foldl_app, Hval. cbn [foldl]. rewrite Hcv.
      rewrite length_app. cbn [length]. rewrite Nat.add_1_r, Nat.pow_succ_r'.
      pose proof (N.div_mod x 10). lia.
Qed.

(** X12: the decimal string of every natural number is a label of digits
    whose [int] is the number itself; so the display sort key of the label of
    any number [n] is [n] when [n] is at most 9 and [n + 3] above. *)
Theorem sort_key_of_number (n : nat) :
  isdigit (pretty n) = true ∧ int (pretty n) = n ∧
  overview_sort_key (pretty n) = (if decide (n ≤ 9)%nat then n else n + 3) ∧
  detailed_sort_key (pretty n) = (if decide (n ≤ 9)%nat then n else n + 3).
Proof.
  assert (isdigit (pretty n) = true ∧ int (pretty n) = n) as [Hdigit Hint].
  { unfold pretty, pretty_nat, pretty, pretty_N.
    destruct (decide (N.of_nat n = 0)%N) as [Hz|Hz].
    - assert (n = 0) as -> by lia. by vm_compute.
    - destruct (pretty_N_go_digits (N.of_nat n) "")
        as (ds & Hchars & Hdec & Hne & Hval).
      cbn [list_ascii_of_string] in Hchars. rewrite app_nil_r in Hchars.
      unfold isdigit, int. rewrite Hchars. split.
      + destruct ds; [by destruct Hne; [lia|]|done].
      + rewrite Hval. lia. }
  split_and!; [done..| |];
    unfold overview_sort_key, detailed_sort_key; rewrite Hdigit, Hint; cbn;
    case_decide as Hn;
    [by rewrite (proj2 (Nat.leb_le _ _) Hn)
    |by rewrite (proj2 (Nat.leb_gt _ _)) by lia
    |by rewrite (proj2 (Nat.leb_le _ _) Hn)
    |by rewrite (proj2 (Nat.leb_gt _ _)) by lia].
Qed.

(** * Properties of the charts *)

(** X13: on every summary that [load_all_strategies] returns the bars are
    drawn in the order of the summary, labelled with the ids of its rows, and
    coloured by id: blue for 1..3, orange for 4..6, green for 7..9 and red
    for 10..15, where the single exit test takes precedence over the end
    age. *)
Theorem main_analysis_charts_of_summary (fs : gmap string file)
    (log : list st_event) (rows : list result_row) (ad : gmap nat DataFrame) :
  load_all_strategies fs = (log, Ok (rows, ad)) →
  let charts := create_main_analysis_charts rows in
  bars_x charts = pretty <$> (Strategy <$> rows) ∧
  intensity_text charts = bars_x charts ∧
  bars_total_cancers charts = (λ r, total_cancers (row_metrics r)) <$> rows ∧
  bars_marker_color charts
  = (λ r, if decide (Strategy r ≤ 3)%nat then "#1f77b4"
          else if decide (Strategy r ≤ 6)%nat then "#ff7f0e"
          else if decide (Strategy r ≤ 9)%nat then "#2ca02c"
          else "#d62728") <$> rows.
Proof.
  intros Hrun. cbn zeta. unfold create_main_analysis_charts.
  cbn [bars_x intensity_text bars_total_cancers bars_marker_color].
  destruct (load_all_strategies_sorted fs log rows ad Hrun) as [Hsorted _].
  unfold main_analysis_order.
  rewrite (sort_values_sorted main_analysis_sort_key rows Hsorted).
  split_and!; [|done..|].
  - rewrite <- list_fmap_compose. apply list_fmap_ext. intros i r Hr.
    apply list_elem_of_lookup_2 in Hr.
    by destruct (summary_rows_label fs log rows ad r Hrun Hr) as [_ ->].
  - apply list_fmap_ext. intros i r Hr. apply list_elem_of_lookup_2 in Hr.
    apply load_all_strategies_Ok_inv in Hrun as (-> & _).
    apply summary_rows_elem in Hr as [Hid Hrow].
    apply summary_row_Some in Hrow as (df & info & _ & Hinfo & _ & Heq).
    set (n := Strategy r) in *. set (m := row_metrics r) in *.
    rewrite Heq. clearbody n m. clear Heq.
    repeat (apply elem_of_cons in Hid as [->|Hid];
            [vm_compute in Hinfo; injection Hinfo as <-; reflexivity|]).
    by apply elem_of_nil in Hid.
Qed.

Lemma main_analysis_charts_of_summary_witness :
  ∃ log rows ad,
    load_all_strategies one_missing = (log, Ok (rows, ad)) ∧
    bars_x (create_main_analysis_charts rows)
    = ["1"; "3"; "4"; "5"; "6"; "7"; "8"; "9"; "10"; "11"; "12"; "13"; "14"; "15"].
Proof.
  destruct (load_all_strategies_ready one_missing)
    as (log & rows & ad & Hrun); [by vm_compute|].
  exists log, rows, ad. split; [exact Hrun|].
  destruct (main_analysis_charts_of_summary one_missing log rows ad Hrun)
    as (Hx & _).
  rewrite Hx.
  apply load_all_strategies_Ok_inv in Hrun as (_ & _ & _ & ->). by vm_compute.
Defined.

(** ** Means *)

Lemma series_mean_None (s : list Qc) : series_mean s = None ↔ s = [].
Proof. by destruct s. Qed.

Lemma filter_three_way {A} (P1 P2 P3 : A → Prop)
    `{!∀ x, Decision (P1 x), !∀ x, Decision (P2 x), !∀ x, Decision (P3 x)}
    (l : list A) :
  Forall (λ x, (P1 x ∧ ¬ P2 x ∧ ¬ P3 x) ∨ (¬ P1 x ∧ P2 x ∧ ¬ P3 x)
               ∨ (¬ P1 x ∧ ¬ P2 x ∧ P3 x)) l →
  l ≡ₚ filter P1 l ++ filter P2 l ++ filter P3 l.
Proof.
  induction 1 as [|x l Hx _ IH]; [done|].
  destruct Hx as [(Ha & Hb & Hc)|[(Ha & Hb & Hc)|(Ha & Hb & Hc)]].
  - rewrite (filter_cons_True P1), (filter_cons_False P2),
      (filter_cons_False P3) by done. cbn. by rewrite <- IH.
  - rewrite (filter_cons_False P1), (filter_cons_True P2),
      (filter_cons_False P3) by done.
    cbn [app]. rewrite <- Permutation_middle. by rewrite <- IH.
  - rewrite (filter_cons_False P1), (filter_cons_False P2),
      (filter_cons_True P3) by done.
    rewrite app_assoc, <- Permutation_middle, <- app_assoc. by rewrite <- IH.
Qed.

(** X14: on every summary that [load_all_strategies] returns, the three
    test-type groups of the trend chart split the rows: each row is in
    exactly one group.  The three averages of a group are NaN exactly when
    the group has no rows. *)
Theorem trend_by_test_type_of_summary (fs : gmap string file)
    (log : list st_event) (rows : list result_row) (ad : gmap nat DataFrame) :
  load_all_strategies fs = (log, Ok (rows, ad)) →
  let groups := [test_type_group "Cyto only" rows;
                 test_type_group "Cyto→HPV" rows;
                 test_type_group "Cyto→Cotest" rows] in
  rows ≡ₚ concat groups ∧
  tt_Type <$> trend_by_test_type rows = ["Cyto Only"; "Cyto→HPV"; "Cyto→Cotest"] ∧
  Forall2
    (λ t group,
       (tt_Avg_Cancers t = None ↔ group = []) ∧
       (tt_Avg_Deaths t = None ↔ group = []) ∧
       (tt_Avg_Life_Years t = None ↔ group = []))
    (trend_by_test_type rows) groups.
Proof.
  intros Hrun. cbn zeta. split_and!; [|done|].
  - cbn [concat]. rewrite app_nil_r. apply filter_three_way, Forall_forall.
    intros r Hr.
    apply load_all_strategies_Ok_inv in Hrun as (-> & _).
    apply summary_rows_elem in Hr as [Hid Hrow].
    apply summary_row_Some in Hrow as (df & info & _ & Hinfo & _ & Heq).
    set (n := Strategy r) in *. set (m := row_metrics r) in *.
    rewrite Heq. clearbody n m. clear Heq.
    repeat (apply elem_of_cons in Hid as [->|Hid];
            [vm_compute in Hinfo; injection Hinfo as <-; cbn;
             first [by left|by right; left|by right; right]|]).
    by apply elem_of_nil in Hid.
  - unfold trend_by_test_type, test_type_summary.
    repeat (constructor;
            [cbn [tt_Avg_Cancers tt_Avg_Deaths tt_Avg_Life_Years];
             rewrite fmap_None, !series_mean_None;
             split_and!; (split; [apply fmap_nil_inv|by intros ->])|]).
    constructor.
Qed.

Lemma trend_by_test_type_of_summary_witness :
  ∃ log rows ad,
    load_all_strategies zeros_and_missing = (log, Ok (rows, ad)) ∧
    tt_Type <$> trend_by_test_type rows = ["Cyto Only"; "Cyto→HPV"; "Cyto→Cotest"] ∧
    tt_Avg_Cancers <$> trend_by_test_type rows = [Some 0%Qc; None; None].
Proof.
  destruct (load_all_strategies_ready zeros_and_missing)
    as (log & rows & ad & Hrun); [by vm_compute|].
  exists log, rows, ad. split; [exact Hrun|].
  destruct (trend_by_test_type_of_summary _ _ _ _ Hrun) as (_ & Htypes & _).
  split; [exact Htypes|]. clear Htypes.
  apply load_all_strategies_Ok_inv in Hrun as (-> & _).
  assert (omap (summary_row zeros_and_missing) (seq 1 15)
          = [make_result 1 {| display := "1"; name := "CYTO-3Y, 21-65";
                              test := "Cyto only"; start_age := 21;
                              end_age := 65; switch_age := None;
                              exit_tests := 3; interval := "3Y" |}
               (metrics_of all_zero)]) as ->.
  { by vm_compute. }
  cbn. repeat f_equal; apply Qc_is_canon; reflexivity.
Defined.

Lemma StronglySorted_le_NoDup_lt (l : list nat) :
  StronglySorted le l → NoDup l → StronglySorted lt l.
Proof.
  induction 1 as [|x l _ IH Hx]; intros Hnodup; [constructor|].
  apply NoDup_cons in Hnodup as [Hnotin Hnodup]. constructor; [by apply IH|].
  rewrite Forall_forall in *. intros y Hy.
  assert (x ≠ y) by (intros ->; done). specialize (Hx y Hy). lia.
Qed.

Lemma group_keys_spec (key : result_row → nat) (df : list result_row) :
  StronglySorted lt (group_keys key df) ∧
  ∀ k, k ∈ group_keys key df ↔ ∃ r, r ∈ df ∧ key r = k.
Proof.
  unfold group_keys. split.
  - apply StronglySorted_le_NoDup_lt.
    + apply (sort_values_StronglySorted id).
    + rewrite sort_values_Permutation. apply NoDup_remove_dups.
  - intros k. rewrite sort_values_Permutation, elem_of_remove_dups.
    rewrite list_elem_of_fmap. naive_solver.
Qed.

(** X15: the rows of a [groupby] average, as built for the end ages and for
    the exit tests, have strictly ascending keys, which are exactly the values
    that the column takes in the summary; every key has rows in the summary,
    so that none of its three averages is NaN. *)
Theorem groupby_mean_spec (key : result_row → nat) (df : list result_row) :
  StronglySorted lt (gr_key <$> groupby_mean key df) ∧
  (∀ k, k ∈ gr_key <$> groupby_mean key df ↔ ∃ r, r ∈ df ∧ key r = k) ∧
  Forall
    (λ g,
       filter (λ r, key r = gr_key g) df ≠ [] ∧
       is_Some (gr_total_cancers g) ∧ is_Some (gr_total_cancer_deaths g) ∧
       is_Some (gr_total_life_years g))
    (groupby_mean key df).
Proof.
  destruct (group_keys_spec key df) as [Hsorted Hkeys].
  assert (gr_key <$> groupby_mean key df = group_keys key df) as Hgr.
  { unfold groupby_mean. rewrite <- list_fmap_compose.
    by rewrite <- (list_fmap_id (group_keys key df)) at 2. }
  split_and!; [by rewrite Hgr|by intros k; rewrite Hgr|].
  unfold groupby_mean. apply Forall_fmap, Forall_forall. intros k Hk.
  cbn [gr_key gr_total_cancers gr_total_cancer_deaths gr_total_life_years compose].
  apply Hkeys in Hk as (r & Hr & Hrk).
  assert (filter (λ r, key r = k) df ≠ []) as Hne.
  { intros E.
    assert (r ∈ filter (λ r, key r = k) df) as Hin by by apply list_elem_of_filter.
    rewrite E in Hin. by apply elem_of_nil in Hin. }
  split; [exact Hne|].
  split_and!; apply not_eq_None_Some; rewrite series_mean_None;
    intros E%fmap_nil_inv; by apply Hne.
Qed.

Lemma groupby_mean_spec_witness :
  ∃ log rows ad,
    load_all_strategies full_directory = (log, Ok (rows, ad)) ∧
    StronglySorted lt (gr_key <$> trend_by_end_age rows) ∧
    (∀ k, k ∈ gr_key <$> trend_by_end_age rows ↔ ∃ r, r ∈ rows ∧ End_Age r = k).
Proof.
  destruct (load_all_strategies_ready full_directory)
    as (log & rows & ad & Hrun); [by vm_compute|].
  exists log, rows, ad. split; [exact Hrun|].
  destruct (groupby_mean_spec End_Age rows) as (Hsorted & Hkeys & _).
  split; [exact Hsorted|exact Hkeys].
Defined.

(** ** The best performers *)

Close Scope string_scope.

Lemma idxmin_from_spec (pre s : list Qc) (b : nat) (bv : Qc) :
  pre !! b = Some bv →
  (∀ w, w ∈ pre → (bv ≤ w)%Qc) →
  (∀ j w, (j < b)%nat → pre !! j = Some w → (bv < w)%Qc) →
  ∃ v,
    (pre ++ s) !! idxmin_from (length pre) (b, bv) s = Some v ∧
    (∀ w, w ∈ pre ++ s → (v ≤ w)%Qc) ∧
    (∀ j w, (j < idxmin_from (length pre) (b, bv) s)%nat →
            (pre ++ s) !! j = Some w → (v < w)%Qc).
Proof.
  revert pre b bv. induction s as [|v s IH]; intros pre b bv Hb Hmin Hfirst.
  - exists bv. rewrite app_nil_r. cbn [idxmin_from fst]. by split_and!.
  - cbn [idxmin_from snd].
    replace (pre ++ v :: s) with ((pre ++ [v]) ++ s) by by rewrite <- app_assoc.
    replace (S (length pre)) with (length (pre ++ [v]))
      by (rewrite length_app; cbn; lia).
    destruct (decide (v < bv)%Qc) as [Hlt|Hge].
    + apply IH.
      * by rewrite lookup_app_r, Nat.sub_diag.
      * intros w [Hw|Hw%list_elem_of_singleton]%elem_of_app.
        -- apply Qclt_le_weak. eapply Qclt_le_trans; [exact Hlt|by apply Hmin].
        -- subst. apply Qcle_refl.
      * intros j w Hj Hjw. rewrite lookup_app_l in Hjw by done.
        eapply Qclt_le_trans; [exact Hlt|].
        apply Hmin. by eapply list_elem_of_lookup_2.
    + apply Qcnot_lt_le in Hge. apply IH.
      * rewrite lookup_app_l; [done|]. by eapply lookup_lt_Some.
      * intros w [Hw|Hw%list_elem_of_singleton]%elem_of_app; [by apply Hmin|].
        by subst.
      * intros j w Hj Hjw. apply (Hfirst j w Hj).
        rewrite lookup_app_l in Hjw; [done|].
        apply lookup_lt_Some in Hb. lia.
Qed.

Lemma idxmin_spec (s : list Qc) :
  match idxmin s with
  | None => s = []
  | Some i =>
      ∃ v, s !! i = Some v ∧ (∀ w, w ∈ s → (v ≤ w)%Qc) ∧
           ∀ j w, (j < i)%nat → s !! j = Some w → (v < w)%Qc
  end.
Proof.
  destruct s as [|v s]; [done|]. cbn [idxmin].
  apply (idxmin_from_spec [v] s 0 v); [done| |lia].
  intros w ->%list_elem_of_singleton. apply Qcle_refl.
Qed.

Lemma Qcopp_lt_iff (x y : Qc) : (- x < - y)%Qc ↔ (y < x)%Qc.
Proof.
  rewrite (Qclt_minus_iff (- x) (- y)), (Qclt_minus_iff y x).
  by rewrite Qcopp_involutive, Qcplus_comm.
Qed.

Lemma idxmax_from_idxmin_from (i b : nat) (bv : Qc) (s : list Qc) :
  idxmax_from i (b, bv) s = idxmin_from i (b, (- bv)%Qc) (Qcopp <$> s).
Proof.
  revert i b bv. induction s as [|v s IH]; intros i b bv; [done|].
  cbn [idxmax_from idxmin_from fmap list_fmap snd].
  destruct (decide (bv < v)%Qc) as [Hlt|Hge].
  - rewrite decide_True by by apply Qcopp_lt_iff. apply IH.
  - rewrite decide_False by by rewrite Qcopp_lt_iff. apply IH.
Qed.

Lemma Qcopp_le_iff (x y : Qc) : (- x ≤ - y)%Qc ↔ (y ≤ x)%Qc.
Proof.
  split; [|apply Qcopp_le_compat].
  intros H%Qcopp_le_compat. by rewrite !Qcopp_involutive in H.
Qed.

Lemma idxmax_spec (s : list Qc) :
  match idxmax s with
  | None => s = []
  | Some i =>
      ∃ v, s !! i = Some v ∧ (∀ w, w ∈ s → (w ≤ v)%Qc) ∧
           ∀ j w, (j < i)%nat → s !! j = Some w → (w < v)%Qc
  end.
Proof.
  pose proof (idxmin_spec (Qcopp <$> s)) as Hmin.
  destruct s as [|v s]; [done|]. cbn [idxmax idxmin fmap list_fmap] in *.
  rewrite idxmax_from_idxmin_from.
  destruct Hmin as (nv & Hi & Hle & Hlt).
  change (Qcopp v :: (Qcopp <$> s)) with (Qcopp <$> (v :: s)) in *.
  rewrite list_lookup_fmap in Hi.
  destruct ((v :: s) !! _) as [mv|] eqn:Hmv; [|done].
  injection Hi as <-. exists mv. split_and!; [done|..].
  - intros w Hw. apply Qcopp_le_iff, Hle, list_elem_of_fmap. eauto.
  - intros j w Hj Hjw. apply Qcnot_le_lt. intros Hge%Qcopp_le_iff.
    apply (Qclt_not_le _ _ (Hlt j (- w)%Qc Hj
             ltac:(by rewrite list_lookup_fmap, Hjw))). done.
Qed.

Open Scope string_scope.

(** X16: on a summary with rows, the strategy shown with the lowest cancer
    count is a row of the summary whose cancer total no row undercuts, and
    every row before it has a strictly larger total, so that a tie goes to
    the first row; the same holds for the lowest death count.  On a summary
    without rows there is no such row. *)
Theorem best_cancer_is_first_minimum (df : list result_row) :
  match best_cancer df with
  | None => df = []
  | Some best =>
      ∃ i, df !! i = Some best ∧
        (∀ r, r ∈ df →
           (total_cancers (row_metrics best) ≤ total_cancers (row_metrics r))%Qc) ∧
        (∀ j r, (j < i)%nat → df !! j = Some r →
           (total_cancers (row_metrics best) < total_cancers (row_metrics r))%Qc)
  end ∧
  match best_death df with
  | None => df = []
  | Some best =>
      ∃ i, df !! i = Some best ∧
        (∀ r, r ∈ df →
           (total_cancer_deaths (row_metrics best)
            ≤ total_cancer_deaths (row_metrics r))%Qc) ∧
        (∀ j r, (j < i)%nat → df !! j = Some r →
           (total_cancer_deaths (row_metrics best)
            < total_cancer_deaths (row_metrics r))%Qc)
  end.
Proof.
  split.
  - unfold best_cancer.
    pose proof (idxmin_spec ((λ r, total_cancers (row_metrics r)) <$> df)) as Hs.
    destruct (idxmin _) as [i|]; cbn; [|by apply fmap_nil_inv in Hs].
    destruct Hs as (v & Hi & Hle & Hlt). rewrite list_lookup_fmap in Hi.
    destruct (df !! i) as [best|] eqn:Hbest; [|done]. injection Hi as <-.
    exists i. split_and!; [done|..].
    + intros r Hr. apply Hle, list_elem_of_fmap. eauto.
    + intros j r Hj Hjr. apply (Hlt j _ Hj). by rewrite list_lookup_fmap, Hjr.
  - unfold best_death.
    pose proof (idxmin_spec ((λ r, total_cancer_deaths (row_metrics r)) <$> df))
      as Hs.
    destruct (idxmin _) as [i|]; cbn; [|by apply fmap_nil_inv in Hs].
    destruct Hs as (v & Hi & Hle & Hlt). rewrite list_lookup_fmap in Hi.
    destruct (df !! i) as [best|] eqn:Hbest; [|done]. injection Hi as <-.
    exists i. split_and!; [done|..].
    + intros r Hr. apply Hle, list_elem_of_fmap. eauto.
    + intros j r Hj Hjr. apply (Hlt j _ Hj). by rewrite list_lookup_fmap, Hjr.
Qed.

(** X17: on a summary with rows, the strategy shown with the most life-years
    is a row of the summary whose life-year total no row exceeds, and every
    row before it has a strictly smaller total; on a summary without rows
    there is no such row. *)
Theorem best_life_is_first_maximum (df : list result_row) :
  match best_life df with
  | None => df = []
  | Some best =>
      ∃ i, df !! i = Some best ∧
        (∀ r, r ∈ df →
           (total_life_years (row_metrics r)
            ≤ total_life_years (row_metrics best))%Qc) ∧
        (∀ j r, (j < i)%nat → df !! j = Some r →
           (total_life_years (row_metrics r)
            < total_life_years (row_metrics best))%Qc)
  end.
Proof.
  unfold best_life.
  pose proof (idxmax_spec ((λ r, total_life_years (row_metrics r)) <$> df)) as Hs.
  destruct (idxmax _) as [i|]; cbn; [|by apply fmap_nil_inv in Hs].
  destruct Hs as (v & Hi & Hle & Hlt). rewrite list_lookup_fmap in Hi.
  destruct (df !! i) as [best|] eqn:Hbest; [|done]. injection Hi as <-.
  exists i. split_and!; [done|..].
  - intros r Hr. apply Hle, list_elem_of_fmap. eauto.
  - intros j r Hj Hjr. apply (Hlt j _ Hj). by rewrite list_lookup_fmap, Hjr.
Qed.

(** * Properties of the figure of question 1 *)

Ltac items_forall :=
  cbn [app];
  repeat (apply List.Forall_cons;
          [split; [reflexivity|cbn; first [done|assumption]]|]);
  apply List.Forall_nil.

Section QuestionOne.
Local Arguments STRATEGY_DEFINITIONS : simpl never.

Lemma column_series_present (df : DataFrame) (c : string) :
  c ∈ columns df → ∃ s, column_series df c = Ok s.
Proof.
  intros Hin. unfold column_series.
  destruct (list_find _ _) as [[i x]|] eqn:Hfind; [by eexists|].
  apply list_find_None in Hfind.
  rewrite Forall_forall in Hfind. by destruct (Hfind c Hin).
Qed.

Lemma column_series_absent (df : DataFrame) (c : string) :
  c ∉ columns df → column_series df c = Raise (KeyError c).
Proof.
  intros Hnin. unfold column_series.
  destruct (list_find _ _) as [[i x]|] eqn:Hfind; [|done].
  apply list_find_Some in Hfind as (Hi & -> & _).
  destruct Hnin. by eapply list_elem_of_lookup_2.
Qed.

Lemma column_series_cases (df : DataFrame) (c : string) :
  (c ∈ columns df ∧ ∃ s, column_series df c = Ok s) ∨
  ((c ∉ columns df) ∧ column_series df c = Raise (KeyError c)).
Proof.
  destruct (decide (c ∈ columns df)) as [Hin|Hnin].
  - left. split; [done|]. by apply column_series_present.
  - right. split; [done|]. by apply column_series_absent.
Qed.

(** One pass either adds items that all lie in the subplot of the entry, or
    raises for a column that it reads and the table lacks. *)
Lemma question_1_items_cases (idx : nat) (df : DataFrame) (info : strategy_info) :
  (Forall (λ c, c ∈ columns df) (question_1_columns info) ∧
   ∃ items,
     question_1_items idx df info = Ok items ∧ items ≠ [] ∧
     Forall (λ item, item_position item = default (0, 0) (positions !! idx) ∧
                     (shows_legend item = true → idx = 0)) items) ∨
  (∃ c, c ∈ question_1_columns info ∧ (c ∉ columns df) ∧
        question_1_items idx df info = Raise (KeyError c)).
Proof.
  unfold question_1_items, question_1_columns.
  destruct (default (0, 0) (positions !! idx)) as [row col].
  destruct (column_series_cases df "Age") as [[Hage [age Eage]]|[Hage Eage]];
    rewrite Eage; cbn [mbind result_bind];
    [|right; exists "Age"; split_and!; [set_solver|done..]].
  destruct (column_series_cases df "Cyto") as [[Hcyto [cyto Ecyto]]|[Hcyto Ecyto]];
    rewrite Ecyto; cbn [mbind result_bind];
    [|right; exists "Cyto"; split_and!; [set_solver|done..]].
  assert (bool_decide (idx = 0) = true → idx = 0) as Hlegend.
  { apply bool_decide_eq_true. }
  destruct (switch_age_set info) eqn:Hswitch.
  2: { left. split; [by repeat constructor|].
       eexists. split; [reflexivity|]. split; [done|].
       destruct (switch_age info) as [[|s]|]; items_forall. }
  destruct (column_series_cases df "HPV") as [[Hhpv [hpv Ehpv]]|[Hhpv Ehpv]];
    rewrite Ehpv; cbn [mbind result_bind];
    [|right; exists "HPV"; split_and!; [set_solver|done..]].
  destruct (mentions_cotest info) eqn:Hcotest.
  2: { left. split; [by repeat constructor|].
       eexists. split; [reflexivity|]. split; [done|].
       destruct (switch_age info) as [[|s]|]; items_forall. }
  destruct (column_series_cases df "Cotest") as [[Hco [co Eco]]|[Hco Eco]];
    rewrite Eco; cbn [mbind result_bind];
    [|right; exists "Cotest"; split_and!; [set_solver|done..]].
  left. split; [by repeat constructor|].
  eexists. split; [reflexivity|]. split; [done|].
  destruct (switch_age info) as [[|s]|]; items_forall.
Qed.
Variable age_distributions : gmap nat DataFrame.

Lemma question_1_body_strategy (fig : list figure_item) (entry : nat * nat) :
  question_1_body age_distributions fig entry
  = items ← question_1_strategy age_distributions entry; mret (fig ++ items)%list.
Proof.
  destruct entry as [idx n]. unfold question_1_body, question_1_strategy.
  cbn [fst snd]. destruct (age_distributions !! n) as [df|]; cbn.
  - by destruct (dict_get STRATEGY_DEFINITIONS n).
  - by rewrite app_nil_r.
Qed.

(** The figure is the concatenation of what the passes add, and an
    exception of the loop is the exception of one pass. *)
Lemma question_1_loop (entries : list (nat * nat)) (fig0 : list figure_item) :
  match result_for entries (question_1_body age_distributions) fig0 with
  | Ok fig =>
      ∃ parts,
        Forall2 (λ entry items,
                   question_1_strategy age_distributions entry = Ok items)
          entries parts ∧
        fig = (fig0 ++ concat parts)%list
  | Raise e =>
      ∃ entry, entry ∈ entries ∧
               question_1_strategy age_distributions entry = Raise e
  end.
Proof.
  revert fig0. induction entries as [|entry entries IH]; intros fig0.
  - cbn. exists []. split; [constructor|]. by rewrite app_nil_r.
  - cbn [result_for]. rewrite question_1_body_strategy.
    destruct (question_1_strategy age_distributions entry) as [items|e] eqn:Hentry;
      cbn [mbind result_bind mret result_ret].
    + specialize (IH (fig0 ++ items)%list).
      destruct (result_for entries _ _) as [fig|e].
      * destruct IH as (parts & Hparts & ->). exists (items :: parts).
        split; [by constructor|]. cbn [concat]. by rewrite app_assoc.
      * destruct IH as (entry' & Hin & Hraise). exists entry'.
        split; [by right|done].
    + exists entry. split; [by left|done].
Qed.

Lemma question_1_entries :
  Forall (λ entry : nat * nat,
            entry.2 ∈ seq 1 15 ∧
            positions !! entry.1 = Some (subplot_of entry.2) ∧
            (entry.1 = 0 → entry.2 = 1))
    (zip (seq 0 15) (seq 1 15)) ∧
  (∀ n, n ∈ seq 1 15 → ∃ idx, (idx, n) ∈ zip (seq 0 15) (seq 1 15)).
Proof.
  split.
  - repeat (apply List.Forall_cons; [split_and!; [set_solver|reflexivity|done]|]).
    apply List.Forall_nil.
  - intros n Hn. exists (n - 1).
    repeat (apply elem_of_cons in Hn as [->|Hn]; [set_solver|]).
    by apply elem_of_nil in Hn.
Qed.

Lemma question_1_strategy_cases (entry : nat * nat) :
  entry.2 ∈ seq 1 15 →
  match age_distributions !! entry.2 with
  | None => question_1_strategy age_distributions entry = Ok []
  | Some df =>
      ∃ info,
        STRATEGY_DEFINITIONS !! entry.2 = Some info ∧
        question_1_strategy age_distributions entry
        = question_1_items entry.1 df info
  end.
Proof.
  intros Hn. unfold question_1_strategy.
  destruct (age_distributions !! entry.2) as [df|]; [|done].
  destruct (catalog_ids _ Hn) as [info Hinfo]. exists info.
  split; [done|]. unfold dict_get. by rewrite Hinfo.
Qed.
End QuestionOne.

Lemma elem_of_concat {A} (x : A) (ls : list (list A)) :
  x ∈ concat ls ↔ ∃ l, x ∈ l ∧ l ∈ ls.
Proof.
  induction ls as [|l ls IH]; cbn [concat].
  - split; [by intros ?%elem_of_nil|]. by intros (l & _ & ?%elem_of_nil).
  - rewrite elem_of_app, IH. split.
    + intros [Hx|(l' & Hx & Hl')]; [exists l; split; [done|by left]|].
      exists l'. split; [done|by right].
    + intros (l' & Hx & [->|Hl']%elem_of_cons); [by left|]. right. eauto.
Qed.

(** X18: the figure of question 1 is built exactly when every loaded table
    has the columns that its pass reads: Age and Cyto for every strategy, HPV
    for a strategy with a switch age, and Cotest when its test type mentions
    it.  Otherwise [create_question_1_analysis] raises the [KeyError] of such
    a column that a loaded table lacks; Cyto is read without the guard that
    [calculate_metrics] has for it. *)
Theorem question_1_needs_columns (age_distributions : gmap nat DataFrame) :
  match create_question_1_analysis age_distributions with
  | Ok fig =>
      ∀ n df info,
        n ∈ seq 1 15 → age_distributions !! n = Some df →
        STRATEGY_DEFINITIONS !! n = Some info →
        Forall (λ c, c ∈ columns df) (question_1_columns info)
  | Raise e =>
      ∃ n df info c,
        n ∈ seq 1 15 ∧ age_distributions !! n = Some df ∧
        STRATEGY_DEFINITIONS !! n = Some info ∧
        c ∈ question_1_columns info ∧ (c ∉ columns df) ∧ e = KeyError c
  end.
Proof.
  unfold create_question_1_analysis.
  pose proof (question_1_loop age_distributions (zip (seq 0 15) (seq 1 15)) [])
    as Hloop.
  destruct question_1_entries as [Hentries Hall].
  rewrite Forall_forall in Hentries.
  destruct (result_for _ _ _) as [fig|e].
  - destruct Hloop as (parts & Hparts & _). intros n df info Hn Hdf Hinfo.
    destruct (Hall n Hn) as [idx Hin].
    apply list_elem_of_lookup_1 in Hin as [i Hi].
    destruct (Forall2_lookup_l _ _ _ _ _ Hparts Hi) as (items & _ & Hitems).
    pose proof (question_1_strategy_cases age_distributions (idx, n) Hn)
      as Hcases.
    cbn [fst snd] in Hcases. rewrite Hdf in Hcases.
    destruct Hcases as (info' & Hinfo' & Heq).
    assert (info' = info) as -> by congruence.
    rewrite Heq in Hitems.
    destruct (question_1_items_cases idx df info)
      as [[Hcols _]|(c & _ & _ & Hraise)]; [done|congruence].
  - destruct Hloop as ([idx n] & Hin & Hraise).
    destruct (Hentries _ Hin) as (Hn & _ & _). cbn [fst snd] in Hn.
    pose proof (question_1_strategy_cases age_distributions (idx, n) Hn)
      as Hcases.
    cbn [fst snd] in Hcases.
    destruct (age_distributions !! n) as [df|] eqn:Hdf; [|congruence].
    destruct Hcases as (info & Hinfo & Heq). rewrite Heq in Hraise.
    destruct (question_1_items_cases idx df info)
      as [(_ & items & Hok & _)|(c & Hc & Hnotin & Hraise')]; [congruence|].
    exists n, df, info, c. split_and!; [done..|congruence].
Qed.

Lemma question_1_needs_columns_witness :
  create_question_1_analysis outcomes_only = Raise (KeyError "Cyto") ∧
  ("Cyto" ∉ columns series_1_to_3) ∧
  calculate_metrics (Some series_1_to_3) = Ok (Some (metrics_of series_1_to_3)) ∧
  ∃ fig, create_question_1_analysis two_tables = Ok fig ∧ length fig = 11.
Proof.
  assert (create_question_1_analysis outcomes_only = Raise (KeyError "Cyto"))
    as Hrun by by vm_compute.
  pose proof (question_1_needs_columns outcomes_only) as Hraise.
  rewrite Hrun in Hraise.
  destruct Hraise as (n & df & info & c & _ & Hdf & _ & _ & Hnotin & [= <-]).
  unfold outcomes_only in Hdf. apply lookup_singleton_Some in Hdf as [_ <-].
  split_and!; [exact Hrun|exact Hnotin|by apply calculate_metrics_required|].
  eexists. split; [by vm_compute|reflexivity].
Defined.

(** X19: in the figure of question 1 every trace and every line lies in the
    subplot of a loaded strategy of 1..15, strategy [n] having row
    [(n - 1) / 3 + 1] and column [(n - 1) mod 3 + 1]; every loaded strategy of
    1..15 has items in its subplot; and a trace shows a legend entry only in
    the subplot of strategy 1, so that without a table for strategy 1 the
    legend is empty. *)
Theorem question_1_subplots (age_distributions : gmap nat DataFrame)
    (fig : list figure_item) :
  create_question_1_analysis age_distributions = Ok fig →
  (∀ item, item ∈ fig →
     ∃ n, n ∈ seq 1 15 ∧ is_Some (age_distributions !! n) ∧
          item_position item = subplot_of n ∧
          (shows_legend item = true → n = 1)) ∧
  (∀ n, n ∈ seq 1 15 → is_Some (age_distributions !! n) →
     ∃ item, item ∈ fig ∧ item_position item = subplot_of n) ∧
  (age_distributions !! 1 = None →
   ∀ item, item ∈ fig → shows_legend item = false).
Proof.
  unfold create_question_1_analysis. intros Hrun.
  pose proof (question_1_loop age_distributions (zip (seq 0 15) (seq 1 15)) [])
    as Hloop.
  rewrite Hrun in Hloop. destruct Hloop as (parts & Hparts & ->).
  destruct question_1_entries as [Hentries Hall].
  rewrite Forall_forall in Hentries. cbn [app].
  assert (∀ idx n items,
            (idx, n) ∈ zip (seq 0 15) (seq 1 15) →
            question_1_strategy age_distributions (idx, n) = Ok items →
            match age_distributions !! n with
            | None => items = []
            | Some _ =>
                items ≠ [] ∧
                Forall (λ item, item_position item = subplot_of n ∧
                                (shows_legend item = true → n = 1)) items
            end) as Hpass.
  { intros idx n items Hin Hitems.
    destruct (Hentries _ Hin) as (Hn & Hpos & Hfirst). cbn [fst snd] in *.
    pose proof (question_1_strategy_cases age_distributions (idx, n) Hn)
      as Hcases.
    cbn [fst snd] in Hcases.
    destruct (age_distributions !! n) as [df|]; [|congruence].
    destruct Hcases as (info & _ & Heq). rewrite Heq in Hitems.
    destruct (question_1_items_cases idx df info)
      as [(_ & items' & Hok & Hne & Hshape)|(c & _ & _ & Hraise)];
      [|congruence].
    assert (items' = items) as -> by congruence. split; [done|].
    rewrite Hpos in Hshape. cbn [default] in Hshape.
    eapply Forall_impl; [exact Hshape|].
    intros item [Hitem Hlegend]. split; [exact Hitem|].
    intros Htrue. apply Hfirst. by apply Hlegend. }
  assert (∀ item, item ∈ concat parts →
            ∃ n, n ∈ seq 1 15 ∧ is_Some (age_distributions !! n) ∧
                 item_position item = subplot_of n ∧
                 (shows_legend item = true → n = 1)) as Hitems.
  { intros item (items & Hitem & Hin)%elem_of_concat.
    apply list_elem_of_lookup_1 in Hin as [i Hi].
    destruct (Forall2_lookup_r _ _ _ _ _ Hparts Hi) as ([idx n] & Hentry & Hok).
    apply list_elem_of_lookup_2 in Hentry.
    specialize (Hpass idx n items Hentry Hok).
    destruct (Hentries _ Hentry) as (Hn & _). cbn [snd] in Hn.
    destruct (age_distributions !! n) as [df|] eqn:Hdf.
    - destruct Hpass as [_ Hshape]. rewrite Forall_forall in Hshape.
      exists n. rewrite Hdf. split_and!; [done|by eexists|by apply Hshape..].
    - subst items. by apply elem_of_nil in Hitem. }
  split_and!; [done|..].
  - intros n Hn [df Hdf]. destruct (Hall n Hn) as [idx Hin].
    pose proof Hin as Hin'. apply list_elem_of_lookup_1 in Hin' as [i Hi].
    destruct (Forall2_lookup_l _ _ _ _ _ Hparts Hi) as (items & Hpart & Hok).
    specialize (Hpass idx n items Hin Hok). rewrite Hdf in Hpass.
    destruct Hpass as [Hne Hshape]. destruct items as [|item items]; [done|].
    apply Forall_cons in Hshape as [[Hpos _] _]. exists item. split; [|done].
    apply elem_of_concat. exists (item :: items).
    split; [by left|]. by eapply list_elem_of_lookup_2.
  - intros Hnone item Hitem. destruct (Hitems item Hitem) as (n & _ & Hsome & _ & Hone).
    destruct (shows_legend item) eqn:Hlegend; [|done].
    rewrite (Hone eq_refl), Hnone in Hsome. by destruct Hsome.
Qed.

Lemma question_1_subplots_witness :
  ∃ fig,
    create_question_1_analysis two_tables = Ok fig ∧
    Forall (λ item, shows_legend item = false) fig ∧
    ∃ item, item ∈ fig ∧ item_position item = (1, 3).
Proof.
  destruct (create_question_1_analysis two_tables) as [fig|e] eqn:Hrun;
    [|by vm_compute in Hrun].
  exists fig. split; [done|].
  destruct (question_1_subplots two_tables fig Hrun) as (_ & Hloaded & Hlegend).
  split.
  - apply Forall_forall, Hlegend. reflexivity.
  - apply (Hloaded 3); [set_solver|by eexists].
Defined.

Lemma question_1_items_kinds (idx : nat) (df : DataFrame) (info : strategy_info)
    (items : list figure_item) :
  question_1_items idx df info = Ok items →
  item_kind <$> items = question_1_kinds info.
Proof.
  unfold question_1_items, question_1_kinds, switch_age_set.
  destruct (default (0, 0) (positions !! idx)) as [row col].
  destruct (switch_age info) as [[|s]|]; destruct (mentions_cotest info);
    repeat (match goal with
            | |- context [column_series ?d ?c] => destruct (column_series d c)
            end; cbn [mbind result_bind mret result_ret]);
    intros [= <-]; reflexivity.
Qed.

Lemma question_1_parts_kinds (age_distributions : gmap nat DataFrame)
    (entries : list (nat * nat)) (parts : list (list figure_item)) :
  Forall (λ entry : nat * nat, entry.2 ∈ seq 1 15) entries →
  Forall2 (λ entry items, question_1_strategy age_distributions entry = Ok items)
    entries parts →
  item_kind <$> concat parts
  = concat (question_1_kinds_of
              <$> filter (λ n, is_Some (age_distributions !! n)) (snd <$> entries)).
Proof.
  intros Hentries Hparts.
  induction Hparts as [|[idx n] items entries parts Hitems _ IH]; [done|].
  apply Forall_cons in Hentries as [Hn Hentries]. cbn [snd] in Hn.
  cbn [concat]. rewrite fmap_app, (IH Hentries), fmap_cons. cbn [snd].
  pose proof (question_1_strategy_cases age_distributions (idx, n) Hn) as Hcases.
  cbn [fst snd] in Hcases.
  destruct (age_distributions !! n) as [df|] eqn:Hdf.
  - destruct Hcases as (info & Hinfo & Heq). rewrite Heq in Hitems.
    rewrite filter_cons_True by (by rewrite Hdf; eexists).
    rewrite fmap_cons. cbn [concat]. f_equal.
    unfold question_1_kinds_of. rewrite Hinfo.
    by eapply question_1_items_kinds.
  - rewrite filter_cons_False by (rewrite Hdf; by intros [? ?]).
    assert (items = []) as -> by congruence. done.
Qed.

Lemma question_1_items_shows (idx : nat) (df : DataFrame) (info : strategy_info)
    (items : list figure_item) :
  question_1_items idx df info = Ok items →
  Forall (item_shows df info) items.
Proof.
  unfold question_1_items, switch_age_set.
  destruct (default (0, 0) (positions !! idx)) as [row col].
  destruct (column_series df "Age") as [age|] eqn:Hage; [|done].
  destruct (column_series df "Cyto") as [cyto|] eqn:Hcyto; [|done].
  cbn [mbind result_bind].
  assert (∀ name c x y legend,
            trace_column name = Some c → column_series df c = Ok y →
            x = age →
            item_shows df info
              (Trace {| sc_name := name; sc_x := x; sc_y := y;
                        sc_showlegend := legend;
                        sc_row := row; sc_col := col |})) as Htrace.
  { intros name c x y legend Hname Hc ->. split; [done|]. by exists c. }
  assert (∀ color x,
            (color = "green" ∧ x = start_age info) ∨
            (color = "red" ∧ x = end_age info) ∨
            (color = "orange" ∧ switch_age info = Some x) →
            item_shows df info
              (VLine {| vl_x := x; vl_line_color := color;
                        vl_row := row; vl_col := col |})) as Hline.
  { intros color x H. exact H. }
  destruct (switch_age info) as [[|s]|] eqn:Hswitch.
  1,3: intros [= <-]; cbn [app];
       repeat (apply List.Forall_cons; [eauto|]); apply List.Forall_nil.
  destruct (column_series df "HPV") as [hpv|] eqn:Hhpv; [|done].
  cbn [mbind result_bind].
  destruct (mentions_cotest info).
  - destruct (column_series df "Cotest") as [co|] eqn:Hco; [|done].
    intros [= <-]; cbn [app];
      repeat (apply List.Forall_cons; [eauto 6|]); apply List.Forall_nil.
  - intros [= <-]; cbn [app];
      repeat (apply List.Forall_cons; [eauto 6|]); apply List.Forall_nil.
Qed.

(** X20: the figure of question 1 holds, for the loaded strategies of 1..15
    in ascending order, the Cytology trace, then the HPV trace of a strategy
    with a switch age, then the Cotest trace when the test type mentions it,
    then a green, a red and, for a strategy with a switch age, an orange
    line; nothing else is in it.  Every item lies in the subplot of a loaded
    strategy: a trace plots the Cyto, HPV or Cotest column of that strategy's
    table, by its name, against the Age column, and the green line stands at
    the start age of the strategy, the red line at its end age and the
    orange line at its switch age. *)
Theorem question_1_figure_kinds (age_distributions : gmap nat DataFrame)
    (fig : list figure_item) :
  create_question_1_analysis age_distributions = Ok fig →
  item_kind <$> fig
  = concat (question_1_kinds_of
              <$> filter (λ n, is_Some (age_distributions !! n)) (seq 1 15)) ∧
  ∀ item, item ∈ fig →
    ∃ n df info,
      n ∈ seq 1 15 ∧ age_distributions !! n = Some df ∧
      STRATEGY_DEFINITIONS !! n = Some info ∧
      item_position item = subplot_of n ∧ item_shows df info item.
Proof.
  unfold create_question_1_analysis. intros Hrun.
  pose proof (question_1_loop age_distributions (zip (seq 0 15) (seq 1 15)) [])
    as Hloop.
  rewrite Hrun in Hloop. destruct Hloop as (parts & Hparts & ->). cbn [app].
  destruct question_1_entries as [Hentries _].
  split.
  - rewrite (question_1_parts_kinds age_distributions
               (zip (seq 0 15) (seq 1 15)) parts); [done| |done].
    eapply Forall_impl; [exact Hentries|]. by intros entry (? & _).
  - intros item (items & Hitem & Hitems)%elem_of_concat.
    apply list_elem_of_lookup in Hitems as [i Hi].
    destruct (Forall2_lookup_r _ _ _ _ _ Hparts Hi)
      as ([idx n] & Hentry & Hstrategy).
    rewrite Forall_forall in Hentries.
    destruct (Hentries (idx, n)) as (Hn & Hpos & _);
      [by eapply list_elem_of_lookup_2|].
    cbn [fst snd] in Hn, Hpos.
    pose proof (question_1_strategy_cases age_distributions (idx, n) Hn)
      as Hcases.
    cbn [fst snd] in Hcases.
    destruct (age_distributions !! n) as [df|] eqn:Hdf.
    2:{ rewrite Hcases in Hstrategy. injection Hstrategy as <-.
        by apply elem_of_nil in Hitem. }
    destruct Hcases as (info & Hinfo & Heq). rewrite Heq in Hstrategy.
    exists n, df, info. split_and!; [done..| |].
    + destruct (question_1_items_cases idx df info)
        as [(_ & items' & Hrun' & _ & Hshape)|(c & _ & _ & Hraise)];
        [|by rewrite Hraise in Hstrategy].
      rewrite Hrun' in Hstrategy. injection Hstrategy as ->.
      rewrite Forall_forall in Hshape.
      destruct (Hshape item Hitem) as [-> _]. by rewrite Hpos.
    + apply question_1_items_shows in Hstrategy.
      rewrite Forall_forall in Hstrategy. by apply Hstrategy.
Qed.

Lemma question_1_figure_kinds_witness :
  ∃ fig,
    create_question_1_analysis two_tables = Ok fig ∧
    item_kind <$> fig
    = ["Cytology"; "HPV"; "green"; "red"; "orange";
       "Cytology"; "HPV"; "Cotest"; "green"; "red"; "orange"] ∧
    ∀ item, item ∈ fig →
      ∃ n info,
        n ∈ [2; 3] ∧ STRATEGY_DEFINITIONS !! n = Some info ∧
        item_position item = subplot_of n ∧
        item_shows screening_table info item.
Proof.
  destruct (create_question_1_analysis two_tables) as [fig|e] eqn:Hrun;
    [|by vm_compute in Hrun].
  exists fig. split; [done|].
  destruct (question_1_figure_kinds two_tables fig Hrun) as [Hkinds Hshows].
  split; [rewrite Hkinds; by vm_compute|].
  intros item Hitem.
  destruct (Hshows item Hitem) as (n & df & info & _ & Hdf & Hinfo & Hpos & Hshow).
  exists n, info. unfold two_tables in Hdf.
  apply lookup_insert_Some in Hdf as [[<- <-]|[_ Hdf]].
  - split_and!; [set_solver|exact Hinfo|exact Hpos|exact Hshow].
  - apply lookup_singleton_Some in Hdf as [<- <-].
    split_and!; [set_solver|exact Hinfo|exact Hpos|exact Hshow].
Defined.

Lemma best_cancer_is_first_minimum_witness :
  ∃ log rows ad best,
    load_all_strategies one_missing = (log, Ok (rows, ad)) ∧
    best_cancer rows = Some best ∧ best ∈ rows.
Proof.
  destruct (load_all_strategies_ready one_missing)
    as (log & rows & ad & Hrun); [by vm_compute|].
  destruct (best_cancer_is_first_minimum rows) as [Hbest _].
  destruct (best_cancer rows) as [best|] eqn:Hsome.
  - exists log, rows, ad, best. destruct Hbest as (i & Hi & _).
    split; [exact Hrun|]. split; [exact Hsome|].
    by apply list_elem_of_lookup_2 in Hi.
  - apply load_all_strategies_Ok_inv in Hrun as (_ & _ & _ & Hids).
    rewrite Hbest in Hids. by vm_compute in Hids.
Defined.

Lemma best_life_is_first_maximum_witness :
  ∃ log rows ad best,
    load_all_strategies one_missing = (log, Ok (rows, ad)) ∧
    best_life rows = Some best ∧ best ∈ rows.
Proof.
  destruct (load_all_strategies_ready one_missing)
    as (log & rows & ad & Hrun); [by vm_compute|].
  pose proof (best_life_is_first_maximum rows) as Hbest.
  destruct (best_life rows) as [best|] eqn:Hsome.
  - exists log, rows, ad, best. destruct Hbest as (i & Hi & _).
    split; [exact Hrun|]. split; [exact Hsome|].
    by apply list_elem_of_lookup_2 in Hi.
  - apply load_all_strategies_Ok_inv in Hrun as (_ & _ & _ & Hids).
    rewrite Hbest in Hids. by vm_compute in Hids.
Defined.
